(** * EduManager: the grade-recording rules of [app_principal]

    A shallow embedding of [models.py], [forms.py] and [views.py] of the
    Django application, with the parts of Python and Django the views rely
    on written out:

    - Python's [int()], [float()] and [decimal.Decimal()] on ASCII text,
      binary64 rounding of a decimal literal, and the conversion of a float
      to a [Decimal] in a context of five significant digits;
    - Django's [DecimalValidator], model and form cleaning, cascading
      deletes and [get_object_or_404];
    - the views as functions from a request and a database to a response,
      the flashed messages and the new database.

    The text of a request is ASCII; identifiers stay inside SQLite's
    64-bit integers. *)

From Stdlib Require Import ZArith Znumtheory Zpow_facts List String Ascii Bool Lia.
From Stdlib Require Import DecimalString.
From Stdlib Require DecimalZ.
Import ListNotations.
Open Scope Z_scope.

(** ** Python text and numbers *)

Module Py.

Definition code (c : ascii) : Z := Z.of_nat (nat_of_ascii c).

Definition is_digit (c : ascii) : bool := (48 <=? code c) && (code c <=? 57).

Definition digit_val (c : ascii) : Z := code c - 48.

(** [Py_ISSPACE]: what [int()] and [float()] skip around a literal. *)
Definition is_space (c : ascii) : bool :=
  ((9 <=? code c) && (code c <=? 13)) || (code c =? 32).

(** [str.isspace] on ASCII: what [str.strip()] removes. *)
Definition str_isspace (c : ascii) : bool :=
  is_space c || ((28 <=? code c) && (code c <=? 31)).

Fixpoint lstrip (sp : ascii -> bool) (s : list ascii) : list ascii :=
  match s with
  | c :: r => if sp c then lstrip sp r else s
  | [] => []
  end.

Definition strip (sp : ascii -> bool) (s : list ascii) : list ascii :=
  rev (lstrip sp (rev (lstrip sp s))).

(** [str.strip()] on a string. *)
Definition str_strip (s : string) : string :=
  string_of_list_ascii (strip str_isspace (list_ascii_of_string s)).

Definition lower (c : ascii) : ascii :=
  if (65 <=? code c) && (code c <=? 90)
  then ascii_of_nat (nat_of_ascii c + 32) else c.

Definition eqb_nocase (s : list ascii) (w : string) : bool :=
  String.eqb (string_of_list_ascii (map lower s)) w.

(** Digit-group underscores as [int()] and [float()] take them: each
    underscore stands between two digits.  [prev] tells whether the
    character before was a digit. *)
Fixpoint drop_underscores (prev : bool) (s : list ascii) : option (list ascii) :=
  match s with
  | [] => Some []
  | c :: r =>
      if Ascii.eqb c "_"%char then
        match r with
        | d :: _ => if prev && is_digit d then drop_underscores false r else None
        | [] => None
        end
      else option_map (cons c) (drop_underscores (is_digit c) r)
  end.

(** [Decimal()] removes every underscore before it reads the text. *)
Definition remove_underscores (s : list ascii) : list ascii :=
  filter (fun c => negb (Ascii.eqb c "_"%char)) s.

(** A maximal run of digits: the number read so far, how many digits were
    read, and the rest of the text. *)
Fixpoint read_digits (acc cnt : Z) (s : list ascii) : Z * Z * list ascii :=
  match s with
  | c :: r => if is_digit c then read_digits (10 * acc + digit_val c) (cnt + 1) r
              else (acc, cnt, s)
  | [] => (acc, cnt, [])
  end.

Definition read_sign (s : list ascii) : bool * list ascii :=
  match s with
  | c :: r => if Ascii.eqb c "-"%char then (true, r)
              else if Ascii.eqb c "+"%char then (false, r)
              else (false, s)
  | [] => (false, [])
  end.

(** [int(text)] in base ten; [None] is [ValueError]. *)
Definition int_of_str (t : string) : option Z :=
  match drop_underscores false (strip is_space (list_ascii_of_string t)) with
  | None => None
  | Some s =>
      let '(neg, s1) := read_sign s in
      match read_digits 0 0 s1 with
      | (v, n, []) => if n =? 0 then None else Some (if neg then - v else v)
      | _ => None
      end
  end.

(** A numeric literal: [coef * 10 ^ exp] with its sign, or a special
    value. *)
Inductive numlit :=
| LitNum (neg : bool) (coef exp : Z)
| LitInf (neg : bool)
| LitNaN (neg : bool).

(** The decimal-number grammar shared by [float()] and [Decimal()]:
    digits, an optional point and fraction, an optional exponent; at least
    one digit before the exponent. *)
Definition read_number (neg : bool) (s : list ascii) : option numlit :=
  let '(ip, ni, s2) := read_digits 0 0 s in
  let '(co, nf, s3) :=
    match s2 with
    | c :: r => if Ascii.eqb c "."%char then read_digits ip 0 r else (ip, 0, s2)
    | [] => (ip, 0, s2)
    end in
  if ni + nf =? 0 then None
  else
    match s3 with
    | [] => Some (LitNum neg co (- nf))
    | c :: r =>
        if Ascii.eqb (lower c) "e"%char then
          let '(eneg, r1) := read_sign r in
          match read_digits 0 0 r1 with
          | (ev, ne, []) =>
              if ne =? 0 then None
              else Some (LitNum neg co ((if eneg then - ev else ev) - nf))
          | _ => None
          end
        else None
    end.

(** The literal [float()] reads. *)
Definition float_literal (t : string) : option numlit :=
  match drop_underscores false (strip is_space (list_ascii_of_string t)) with
  | None => None
  | Some s =>
      let '(neg, s1) := read_sign s in
      if eqb_nocase s1 "inf" || eqb_nocase s1 "infinity" then Some (LitInf neg)
      else if eqb_nocase s1 "nan" then Some (LitNaN neg)
      else read_number neg s1
  end.

(** The literal [Decimal()] reads.  A NaN may carry a leading [s] and a
    run of diagnostic digits. *)
Definition decimal_literal (t : string) : option numlit :=
  let s := remove_underscores (strip str_isspace (list_ascii_of_string t)) in
  let '(neg, s1) := read_sign s in
  let low := map lower s1 in
  let nan_tail (r : list ascii) : bool :=
    match read_digits 0 0 r with (_, _, []) => true | _ => false end in
  if eqb_nocase s1 "inf" || eqb_nocase s1 "infinity" then Some (LitInf neg)
  else
    match low with
    | "n"%char :: "a"%char :: "n"%char :: r =>
        if nan_tail r then Some (LitNaN neg) else None
    | "s"%char :: "n"%char :: "a"%char :: "n"%char :: r =>
        if nan_tail r then Some (LitNaN neg) else None
    | _ => read_number neg s1
    end.

(** *** Binary64 floats *)

(** A float is [m * 2 ^ e] with a sign ([m] is not negative), an
    infinity, or NaN. *)
Inductive pyfloat :=
| FFin (neg : bool) (m e : Z)
| FInf (neg : bool)
| FNaN.

(** [n / d] rounded to the nearest integer, a tie going to the even
    one. *)
Definition div_half_even (n d : Z) : Z :=
  let q := n / d in
  let r := n mod d in
  if (d <? 2 * r) || ((2 * r =? d) && Z.odd q) then q + 1 else q.

(** The fraction [n / (d * 2 ^ e)] as a numerator and a denominator. *)
Definition scale2 (n d e : Z) : Z * Z :=
  if 0 <=? e then (n, d * 2 ^ e) else (n * 2 ^ (- e), d).

(** The binary64 nearest to [n / d] (round half to even), for [0 <= n] and
    [0 < d]: a 53-bit significand, exponents down to the subnormal
    [-1074], overflow to infinity. *)
Definition binary64 (neg : bool) (n d : Z) : pyfloat :=
  if n =? 0 then FFin neg 0 0
  else
    let e0 := Z.log2 n - Z.log2 d - 52 in
    let '(n0, d0) := scale2 n d e0 in
    let e1 := if d0 * 2 ^ 52 <=? n0 then e0 else e0 - 1 in
    let e := Z.max e1 (-1074) in
    let '(n1, d1) := scale2 n d e in
    let m := div_half_even n1 d1 in
    if m =? 0 then FFin neg 0 0
    else if 1024 <=? Z.log2 m + e then FInf neg
    else FFin neg m e.

Definition float_of_literal (l : numlit) : pyfloat :=
  match l with
  | LitNum neg c x =>
      if 0 <=? x then binary64 neg (c * 10 ^ x) 1 else binary64 neg c (10 ^ (- x))
  | LitInf neg => FInf neg
  | LitNaN _ => FNaN
  end.

(** [float(text)]; [None] is [ValueError]. *)
Definition float_of_str (t : string) : option pyfloat :=
  option_map float_of_literal (float_literal t).

(** A float against an integer, exactly; NaN compares with nothing. *)
Definition float_compare (f : pyfloat) (z : Z) : option comparison :=
  match f with
  | FNaN => None
  | FInf neg => Some (if neg then Lt else Gt)
  | FFin neg m e =>
      let sm := if neg then - m else m in
      Some (if 0 <=? e then (sm * 2 ^ e ?= z) else (sm ?= z * 2 ^ (- e)))
  end.

Definition float_lt (f : pyfloat) (z : Z) : bool :=
  match float_compare f z with Some Lt => true | _ => false end.

Definition float_gt (f : pyfloat) (z : Z) : bool :=
  match float_compare f z with Some Gt => true | _ => false end.

Definition float_le (f : pyfloat) (z : Z) : bool :=
  match float_compare f z with Some Lt | Some Eq => true | _ => false end.

Definition float_ge (f : pyfloat) (z : Z) : bool :=
  match float_compare f z with Some Gt | Some Eq => true | _ => false end.

(** *** Decimals *)

(** A [decimal.Decimal]: [coef * 10 ^ exp] with a sign, an infinity or a
    NaN. *)
Inductive pydecimal :=
| Dec (neg : bool) (coef exp : Z)
| DInf (neg : bool)
| DNaN.

Definition decimal_of_literal (l : numlit) : pydecimal :=
  match l with
  | LitNum neg c x => Dec neg c x
  | LitInf neg => DInf neg
  | LitNaN _ => DNaN
  end.

(** [Decimal(text)]; [None] is [decimal.InvalidOperation]. *)
Definition decimal_of_str (t : string) : option pydecimal :=
  option_map decimal_of_literal (decimal_literal t).

Definition is_finite (d : pydecimal) : bool :=
  match d with Dec _ _ _ => true | _ => false end.

(** The number of decimal digits of a coefficient; zero has one. *)
Fixpoint digits_upto (fuel : nat) (n : Z) : Z :=
  match fuel with
  | O => 1
  | S k => if n <? 10 then 1 else 1 + digits_upto k (n / 10)
  end.

Definition num_digits (n : Z) : Z := digits_upto (Z.to_nat (Z.log2 n)) n.

(** [Decimal.from_float]: the exact value of the float, the coefficient
    [n * 5 ^ k] over [10 ^ k] for the ratio [n / 2 ^ k] in lowest terms. *)
Definition decimal_from_float (f : pyfloat) : pydecimal :=
  match f with
  | FFin neg m e =>
      if 0 <=? e then Dec neg (m * 2 ^ e) 0
      else
        let g := Z.gcd m (2 ^ (- e)) in
        let k := Z.log2 (2 ^ (- e) / g) in
        Dec neg (m / g * 5 ^ k) (- k)
  | FInf neg => DInf neg
  | FNaN => DNaN
  end.

(** The rounding a context of [prec] digits applies to a result (half to
    even); a carry into a further digit drops the last one. *)
Definition fix_prec (prec : Z) (d : pydecimal) : pydecimal :=
  match d with
  | Dec neg c x =>
      let len := num_digits c in
      if (c =? 0) || (len <=? prec) then d
      else
        let q := div_half_even c (10 ^ (len - prec)) in
        if q =? 10 ^ prec then Dec neg (10 ^ (prec - 1)) (x + (len - prec) + 1)
        else Dec neg q (x + (len - prec))
  | _ => d
  end.

(** [Context(prec).create_decimal_from_float]. *)
Definition create_decimal_from_float (prec : Z) (f : pyfloat) : pydecimal :=
  fix_prec prec (decimal_from_float f).

(** A decimal against an integer, exactly; [None] for NaN, where [<] and
    [>] raise [InvalidOperation]. *)
Definition decimal_compare (d : pydecimal) (z : Z) : option comparison :=
  match d with
  | DNaN => None
  | DInf neg => Some (if neg then Lt else Gt)
  | Dec neg c x =>
      let sc := if neg then - c else c in
      Some (if 0 <=? x then (sc * 10 ^ x ?= z) else (sc ?= z * 10 ^ (- x)))
  end.

(** [value.quantize(Decimal("0.01"))] as a number of hundredths, rounding
    half to even. *)
Definition hundredths (d : pydecimal) : Z :=
  match d with
  | Dec neg c x =>
      let h := if -2 <=? x then c * 10 ^ (x + 2) else div_half_even c (10 ^ (- x - 2)) in
      if neg then - h else h
  | _ => 0
  end.

End Py.

(** ** The database ([models.py]) *)

(** [Materia]: a subject and the teacher ([User]) it belongs to. *)
Record Materia := mkMateria {
  mat_id : Z;
  mat_nombre : string;
  mat_profesor : Z
}.

(** [Alumno]: [alu_materias] holds the subjects of the many-to-many
    table, by id. *)
Record Alumno := mkAlumno {
  alu_id : Z;
  alu_nombre : string;
  alu_correo : string;
  alu_materias : list Z
}.

(** [Actividad]: [act_categoria] is one of the codes of [CATEGORIAS],
    [act_fecha] a day. *)
Record Actividad := mkActividad {
  act_id : Z;
  act_materia : Z;
  act_nombre : string;
  act_categoria : string;
  act_fecha : Z
}.

(** [Nota]: the column [nota] is [DecimalField(max_digits=5,
    decimal_places=2)]; the database keeps two decimal places, so a row
    holds the value in hundredths. *)
Record Nota := mkNota {
  nota_id : Z;
  nota_alumno : Z;
  nota_actividad : Z;
  nota_nota : Z
}.

(** The four tables; [seq_*] is the last identifier the table gave out
    (SQLite's [AUTOINCREMENT]). *)
Record DB := mkDB {
  materias : list Materia;
  alumnos : list Alumno;
  actividades : list Actividad;
  notas : list Nota;
  seq_materia : Z;
  seq_alumno : Z;
  seq_actividad : Z;
  seq_nota : Z
}.

Definition CATEGORIAS : list (string * string) :=
  [("EX", "Examen"); ("TR", "Trabajo"); ("PR", "Practica"); ("OT", "Otro")]%string.

Definition empty_db : DB := mkDB [] [] [] [] 0 0 0 0.

Definition set_materias (l : list Materia) (db : DB) : DB :=
  mkDB l (alumnos db) (actividades db) (notas db)
       (seq_materia db) (seq_alumno db) (seq_actividad db) (seq_nota db).

Definition set_alumnos (l : list Alumno) (db : DB) : DB :=
  mkDB (materias db) l (actividades db) (notas db)
       (seq_materia db) (seq_alumno db) (seq_actividad db) (seq_nota db).

Definition set_actividades (l : list Actividad) (db : DB) : DB :=
  mkDB (materias db) (alumnos db) l (notas db)
       (seq_materia db) (seq_alumno db) (seq_actividad db) (seq_nota db).

Definition set_notas (l : list Nota) (db : DB) : DB :=
  mkDB (materias db) (alumnos db) (actividades db) l
       (seq_materia db) (seq_alumno db) (seq_actividad db) (seq_nota db).

Definition mem (x : Z) (l : list Z) : bool := existsb (Z.eqb x) l.

(** *** Queries *)

(** [Materia.objects.filter(profesor=user)]. *)
Definition materias_de (u : Z) (db : DB) : list Materia :=
  filter (fun m => mat_profesor m =? u) (materias db).

Definition ids_materias (l : list Materia) : list Z := map mat_id l.

(** [Alumno.objects.filter(materias__in=mis_materias).distinct()]. *)
Definition alumnos_en (mis : list Materia) (db : DB) : list Alumno :=
  filter (fun a => existsb (fun m => mem m (ids_materias mis)) (alu_materias a))
         (alumnos db).

(** [Actividad.objects.filter(materia__in=mis_materias)]. *)
Definition actividades_en (mis : list Materia) (db : DB) : list Actividad :=
  filter (fun k => mem (act_materia k) (ids_materias mis)) (actividades db).

(** [Nota.objects.filter(actividad__materia__in=mis_materias)]: the join
    keeps a grade whose activity is a row under one of the subjects. *)
Definition notas_en (mis : list Materia) (db : DB) : list Nota :=
  filter (fun n => mem (nota_actividad n) (map act_id (actividades_en mis db)))
         (notas db).

(** [Model.objects.get(id=i)] on each table; [None] is [DoesNotExist]. *)
Definition get_materia (i : Z) (l : list Materia) : option Materia :=
  find (fun m => mat_id m =? i) l.

Definition get_alumno (i : Z) (l : list Alumno) : option Alumno :=
  find (fun a => alu_id a =? i) l.

Definition get_actividad (i : Z) (l : list Actividad) : option Actividad :=
  find (fun k => act_id k =? i) l.

Definition get_nota (i : Z) (l : list Nota) : option Nota :=
  find (fun n => nota_id n =? i) l.

(** [Nota.objects.filter(alumno_id=a, actividad_id=k).exists()]. *)
Definition existe_nota (a k : Z) (db : DB) : bool :=
  existsb (fun n => (nota_alumno n =? a) && (nota_actividad n =? k)) (notas db).

(** *** Deleting, with [on_delete=CASCADE] *)

(** [nota.delete()]. *)
Definition delete_nota (i : Z) (db : DB) : DB :=
  set_notas (filter (fun n => negb (nota_id n =? i)) (notas db)) db.

(** [actividad.delete()]: the grades on the activity go with it. *)
Definition delete_actividad (i : Z) (db : DB) : DB :=
  set_actividades (filter (fun k => negb (act_id k =? i)) (actividades db))
    (set_notas (filter (fun n => negb (nota_actividad n =? i)) (notas db)) db).

(** [materia.delete()]: the activities of the subject, the grades on
    those activities and the enrolments in the subject go with it. *)
Definition delete_materia (i : Z) (db : DB) : DB :=
  let gone := map act_id (filter (fun k => act_materia k =? i) (actividades db)) in
  set_materias (filter (fun m => negb (mat_id m =? i)) (materias db))
    (set_alumnos
       (map (fun a => mkAlumno (alu_id a) (alu_nombre a) (alu_correo a)
                        (filter (fun m => negb (m =? i)) (alu_materias a)))
            (alumnos db))
       (set_actividades (filter (fun k => negb (act_materia k =? i)) (actividades db))
          (set_notas (filter (fun n => negb (mem (nota_actividad n) gone)) (notas db))
             db))).

(** [alumno.delete()]: the grades of the student go with it (and the
    enrolment rows, which the record carries). *)
Definition delete_alumno (i : Z) (db : DB) : DB :=
  set_alumnos (filter (fun a => negb (alu_id a =? i)) (alumnos db))
    (set_notas (filter (fun n => negb (nota_alumno n =? i)) (notas db)) db).

(** ** Exceptions and Python values *)

(** An error of a form or of a model: the field it is filed under
    ([__all__] for the whole record) and its text.  Django's own texts
    are given in the source language of its catalogue. *)
Record FormError := mkError {
  err_field : string;
  err_text : string
}.

Inductive exn :=
| ValueError
| TypeError
| InvalidOperation
| IntegrityError
| DoesNotExist (model : string)
| ValidationError (errors : list FormError).

Inductive result (A : Type) :=
| Ok (a : A)
| Raise (e : exn).

Arguments Ok {A} a.
Arguments Raise {A} e.

Definition bind {A B : Type} (r : result A) (k : A -> result B) : result B :=
  match r with
  | Ok a => k a
  | Raise e => Raise e
  end.

Notation "x <- r ;; k" := (bind r (fun x => k))
  (at level 61, r at next level, right associativity).

(** What the attribute [nota] of a [Nota] object can hold. *)
Inductive pyval :=
| PyNone
| PyInt (z : Z)
| PyFloat (f : Py.pyfloat)
| PyDecimal (d : Py.pydecimal)
| PyStr (s : string).

(** [v < z] and [v > z] for an integer [z]: [TypeError] on [None] and on
    text, [InvalidOperation] on a decimal NaN, false on a float NaN. *)
Definition py_compare (v : pyval) (z : Z) (want : comparison) : result bool :=
  let hit c := match c, want with Lt, Lt | Gt, Gt => true | _, _ => false end in
  match v with
  | PyNone | PyStr _ => Raise TypeError
  | PyInt i => Ok (hit (i ?= z))
  | PyFloat f => Ok (match Py.float_compare f z with Some c => hit c | None => false end)
  | PyDecimal d =>
      match Py.decimal_compare d z with
      | Some c => Ok (hit c)
      | None => Raise InvalidOperation
      end
  end.

Definition py_lt (v : pyval) (z : Z) : result bool := py_compare v z Lt.
Definition py_gt (v : pyval) (z : Z) : result bool := py_compare v z Gt.

Definition ALL : string := "__all__".

Definition msg_required : string := "This field is required.".
Definition msg_invalid_choice : string :=
  "Select a valid choice. That choice is not one of the available choices.".
Definition msg_invalid_number : string := "Enter a number.".
Definition msg_null : string := "This field cannot be null.".
Definition msg_fk_invalid : string := "instance with this id does not exist.".
Definition msg_unique_together : string :=
  "Nota with this Alumno and Actividad already exists.".
Definition msg_unique_correo : string := "Alumno with this Correo already exists.".
Definition msg_max_length : string :=
  "Ensure this value has at most 100 characters.".
Definition msg_null_chars : string := "Null characters are not allowed.".
Definition msg_invalid_email : string := "Enter a valid email address.".
Definition msg_invalid_date : string := "Enter a valid date.".
Definition msg_invalid_pk : string := "is not a valid value.".

(** *** [DecimalValidator] *)

Inductive decimal_error := MaxDigits | MaxDecimalPlaces | MaxWholeDigits | NotFinite.

Definition decimal_error_text (e : decimal_error) : string :=
  match e with
  | MaxDigits => "Ensure that there are no more than 5 digits in total."
  | MaxDecimalPlaces => "Ensure that there are no more than 2 decimal places."
  | MaxWholeDigits =>
      "Ensure that there are no more than 3 digits before the decimal point."
  | NotFinite => msg_invalid_number
  end.

(** [DecimalValidator(max_digits, decimal_places)(d)]: [None] when the
    value passes, else the first failure. *)
Definition DecimalValidator (max_digits decimal_places : Z) (d : Py.pydecimal)
  : option decimal_error :=
  match d with
  | Py.Dec _ c x =>
      let len := Py.num_digits c in
      let '(digits, decimals) :=
        if 0 <=? x then ((if c =? 0 then len else len + x), 0)
        else if len <? - x then (- x, - x)
        else (len, - x) in
      if max_digits <? digits then Some MaxDigits
      else if decimal_places <? decimals then Some MaxDecimalPlaces
      else if max_digits - decimal_places <? digits - decimals then Some MaxWholeDigits
      else None
  | _ => Some NotFinite
  end.

(** ** The model [Nota] *)

Definition max_digits : Z := 5.
Definition decimal_places : Z := 2.

(** A [Nota] object in memory: a row read from the table, or one being
    built. *)
Record NotaObj := mkNotaObj {
  obj_pk : option Z;
  obj_alumno : option Z;
  obj_actividad : option Z;
  obj_nota : pyval
}.

(** A row as Django loads it: the value is a [Decimal] of two places. *)
Definition obj_of_row (n : Nota) : NotaObj :=
  mkNotaObj (Some (nota_id n)) (Some (nota_alumno n)) (Some (nota_actividad n))
            (PyDecimal (Py.Dec (nota_nota n <? 0) (Z.abs (nota_nota n)) (-2))).

Definition msg_clean : string := "La nota debe estar entre 0 y 10".

(** [Nota.clean]. *)
Definition Nota_clean (o : NotaObj) : result unit :=
  lo <- py_lt (obj_nota o) 0 ;;
  if lo then Raise (ValidationError [mkError ALL msg_clean])
  else
    hi <- py_gt (obj_nota o) 10 ;;
    if hi then Raise (ValidationError [mkError ALL msg_clean])
    else Ok tt.

(** [DecimalField.to_python] of the model field. *)
Definition nota_to_python (v : pyval) : result (option Py.pydecimal) :=
  let finite d :=
    if Py.is_finite d then Ok (Some d)
    else Raise (ValidationError [mkError "nota" msg_invalid_number]) in
  match v with
  | PyNone => Ok None
  | PyInt z => Ok (Some (Py.Dec (z <? 0) (Z.abs z) 0))
  | PyFloat f => finite (Py.create_decimal_from_float max_digits f)
  | PyDecimal d => finite d
  | PyStr s =>
      match Py.decimal_of_str s with
      | Some d => finite d
      | None => Raise (ValidationError [mkError "nota" msg_invalid_number])
      end
  end.

(** The value written to the column: [format_number] quantizes to two
    places in a context of [max_digits] digits. *)
Definition nota_db_value (v : pyval) : result Z :=
  d <- nota_to_python v ;;
  match d with
  | None => Raise IntegrityError
  | Some d =>
      let h := Py.hundredths d in
      if 10 ^ max_digits <=? Z.abs h then Raise InvalidOperation else Ok h
  end.

(** The checks of the table on a row written under [pk]: both foreign
    keys point at rows, and no other row has the pair
    ([unique_together]). *)
Definition constraints_ok (pk a k : Z) (db : DB) : bool :=
  existsb (fun x => alu_id x =? a) (alumnos db)
  && existsb (fun x => act_id x =? k) (actividades db)
  && negb (existsb (fun n => (nota_alumno n =? a) && (nota_actividad n =? k)
                             && negb (nota_id n =? pk)) (notas db)).

(** [models.Model.save] for a [Nota]: an UPDATE when the key names a
    row, else an INSERT, under a fresh key when the object has none. *)
Definition Model_save (o : NotaObj) (db : DB) : result (NotaObj * DB) :=
  h <- nota_db_value (obj_nota o) ;;
  match obj_alumno o, obj_actividad o with
  | Some a, Some k =>
      let pk := match obj_pk o with Some i => i | None => seq_nota db + 1 end in
      if constraints_ok pk a k db then
        let row := mkNota pk a k h in
        let rows :=
          if existsb (fun n => nota_id n =? pk) (notas db)
          then map (fun n => if nota_id n =? pk then row else n) (notas db)
          else notas db ++ [row] in
        Ok (mkNotaObj (Some pk) (Some a) (Some k) (obj_nota o),
            mkDB (materias db) (alumnos db) (actividades db) rows
                 (seq_materia db) (seq_alumno db) (seq_actividad db)
                 (Z.max (seq_nota db) pk))
      else Raise IntegrityError
  | _, _ => Raise IntegrityError
  end.

(** [Nota.save]: the validation, then the write. *)
Definition Nota_save (o : NotaObj) (db : DB) : result (NotaObj * DB) :=
  _ <- Nota_clean o ;;
  Model_save o db.

(** [Model.clean_fields] for the fields outside [exclude]: the errors,
    and the object with the cleaned values. *)
Definition excluded (f : string) (exclude : list string) : bool :=
  existsb (String.eqb f) exclude.

Definition clean_fk (name : string) (v : option Z) (present : Z -> bool)
  : list FormError :=
  match v with
  | None => [mkError name msg_null]
  | Some i => if present i then [] else [mkError name msg_fk_invalid]
  end.

Definition clean_nota_field (v : pyval) : list FormError * pyval :=
  match nota_to_python v with
  | Raise (ValidationError es) => (es, v)
  | Raise _ => ([mkError "nota" msg_invalid_number], v)
  | Ok None => ([mkError "nota" msg_null], v)
  | Ok (Some d) =>
      match DecimalValidator max_digits decimal_places d with
      | Some e => ([mkError "nota" (decimal_error_text e)], v)
      | None => ([], PyDecimal d)
      end
  end.

Definition Nota_clean_fields (exclude : list string) (o : NotaObj) (db : DB)
  : list FormError * NotaObj :=
  let e1 := if excluded "alumno" exclude then []
            else clean_fk "alumno" (obj_alumno o)
                   (fun i => existsb (fun x => alu_id x =? i) (alumnos db)) in
  let e2 := if excluded "actividad" exclude then []
            else clean_fk "actividad" (obj_actividad o)
                   (fun i => existsb (fun x => act_id x =? i) (actividades db)) in
  let '(e3, v) := if excluded "nota" exclude then ([], obj_nota o)
                  else clean_nota_field (obj_nota o) in
  (e1 ++ e2 ++ e3, mkNotaObj (obj_pk o) (obj_alumno o) (obj_actividad o) v).

(** [Model.validate_unique]: the pair of [unique_together] is looked up
    when neither field is excluded and both have a value; the row of the
    object itself does not count. *)
Definition Nota_validate_unique (exclude : list string) (o : NotaObj) (db : DB)
  : list FormError :=
  if excluded "alumno" exclude || excluded "actividad" exclude then []
  else
    match obj_alumno o, obj_actividad o with
    | Some a, Some k =>
        if existsb (fun n => (nota_alumno n =? a) && (nota_actividad n =? k)
                             && match obj_pk o with
                                | Some i => negb (nota_id n =? i)
                                | None => true
                                end) (notas db)
        then [mkError ALL msg_unique_together] else []
    | _, _ => []
    end.

(** [Model.full_clean(exclude, validate_unique)]: the fields, then
    [clean] whatever the fields gave, then the unique checks on the fields
    that passed; every [ValidationError] is gathered and raised at the
    end, any other exception of [clean] propagates at once. *)
Definition Nota_full_clean (exclude : list string) (validate_unique : bool)
  (o : NotaObj) (db : DB) : result NotaObj :=
  let '(e1, o1) := Nota_clean_fields exclude o db in
  e2 <- match Nota_clean o1 with
        | Ok _ => Ok []
        | Raise (ValidationError es) => Ok es
        | Raise e => Raise e
        end ;;
  let e3 := if validate_unique
            then Nota_validate_unique (exclude ++ map err_field e1) o1 db
            else [] in
  match e1 ++ e2 ++ e3 with
  | [] => Ok o1
  | es => Raise (ValidationError es)
  end.

(** ** Requests and responses *)

(** The views only ask whether the method is POST; [GET] stands for every
    other method. *)
Inductive method := GET | POST.

(** A request: the logged-in teacher if any, the method, and the form
    data as the pairs the client sent ([request.POST]). *)
Record request := mkRequest {
  req_user : option Z;
  req_method : method;
  req_POST : list (string * string)
}.

(** [QueryDict.get(key)]: the last value sent under the key. *)
Fixpoint post_get (key : string) (d : list (string * string)) : option string :=
  match d with
  | [] => None
  | (k, v) :: r =>
      match post_get key r with
      | Some x => Some x
      | None => if String.eqb k key then Some v else None
      end
  end.

(** [QueryDict.getlist(key)]. *)
Definition post_getlist (key : string) (d : list (string * string)) : list string :=
  map snd (filter (fun kv => String.eqb (fst kv) key) d).

(** Python's truth of [request.POST.get(key)]. *)
Definition truthy (v : option string) : bool :=
  match v with
  | Some s => negb (String.eqb s "")
  | None => false
  end.

Inductive mensaje :=
| MsgSuccess (texto : string)
| MsgError (texto : string).

(** What a template is given; the order of the rows is not modelled. *)
Inductive context :=
| CtxNotas (ns : list Nota) (als : list Alumno) (acts : list Actividad)
| CtxEditarAlumno (alumno : Alumno) (errors : list FormError).

(** [Http404] is the page the framework answers when
    [get_object_or_404] finds nothing; [ServerError] is an exception no
    handler of the view catches. *)
Inductive response :=
| Redirect (name : string)
| Render (template : string) (ctx : context)
| Http404
| ServerError (e : exn).

Record outcome := mkOutcome {
  out_response : response;
  out_messages : list mensaje;
  out_db : DB
}.

(** [@login_required]. *)
Definition login_required (view : Z -> request -> DB -> outcome)
  (req : request) (db : DB) : outcome :=
  match req_user req with
  | Some u => view u req db
  | None => mkOutcome (Redirect "login") [] db
  end.

(** ** Form fields ([forms.py]) *)

Definition required_error (name : string) : FormError := mkError name msg_required.

(** [ModelChoiceField.clean]: the text is a key of a row of the
    queryset. *)
Definition clean_choice {A : Type} (name : string) (get : Z -> option A)
  (v : option string) : list FormError * option A :=
  if truthy v then
    match v with
    | Some s =>
        match Py.int_of_str s with
        | Some i =>
            match get i with
            | Some x => ([], Some x)
            | None => ([mkError name msg_invalid_choice], None)
            end
        | None => ([mkError name msg_invalid_choice], None)
        end
    | None => ([required_error name], None)
    end
  else ([required_error name], None).

(** [forms.DecimalField(max_digits=5, decimal_places=2).clean]. *)
Definition clean_decimal (name : string) (v : option string)
  : list FormError * option Py.pydecimal :=
  if truthy v then
    match v with
    | Some s =>
        match Py.decimal_of_str s with
        | Some d =>
            match DecimalValidator max_digits decimal_places d with
            | Some e => ([mkError name (decimal_error_text e)], None)
            | None => ([], Some d)
            end
        | None => ([mkError name msg_invalid_number], None)
        end
    | None => ([required_error name], None)
    end
  else ([required_error name], None).

Definition has_null (s : string) : bool :=
  existsb (fun c => Py.code c =? 0) (list_ascii_of_string s).

(** [forms.CharField(max_length=100).clean]: the stripped text, not
    empty, within the length, without null characters. *)
Definition clean_char (name : string) (v : option string)
  : list FormError * string :=
  let s := match v with Some t => Py.str_strip t | None => EmptyString end in
  if String.eqb s "" then ([required_error name], s)
  else
    ((if 100 <? Z.of_nat (String.length s) then [mkError name msg_max_length] else [])
     ++ (if has_null s then [mkError name msg_null_chars] else []), s).

(** ** [NotaForm] *)

Definition msg_no_inscrito_form (alumno materia : string) : string :=
  alumno ++ " no está inscrito en " ++ materia ++ ".".

(** [actividad.materia.nombre]: following the foreign key. *)
Definition materia_de_actividad (k : Actividad) (db : DB) : result Materia :=
  match get_materia (act_materia k) (materias db) with
  | Some m => Ok m
  | None => Raise (DoesNotExist "Materia")
  end.

(** [NotaForm.clean]: the student is enrolled in the subject of the
    activity. *)
Definition NotaForm_clean (alumno : option Alumno) (actividad : option Actividad)
  (db : DB) : result (list FormError) :=
  match alumno, actividad with
  | Some a, Some k =>
      m <- materia_de_actividad k db ;;
      if mem (mat_id m) (alu_materias a) then Ok []
      else Ok [mkError ALL (msg_no_inscrito_form (alu_nombre a) (mat_nombre m))]
  | _, _ => Ok []
  end.

(** [NotaForm(request.POST, user=u)] after [is_valid()]: the errors and
    the instance.  The fields are cleaned against the teacher's
    querysets, then [NotaForm.clean], then the model's [full_clean] on the
    instance built from the fields that passed, then the unique check.  A
    field that failed is left unset in the instance and out of the model's
    field checks, but [Nota.clean] runs all the same. *)
Record NotaForm := mkNotaForm {
  form_errors : list FormError;
  form_instance : NotaObj
}.

Definition NotaForm_full_clean (u : Z) (post : list (string * string)) (db : DB)
  : result NotaForm :=
  let mis := materias_de u db in
  let '(ea, alumno) :=
    clean_choice "alumno" (fun i => get_alumno i (alumnos_en mis db))
                 (post_get "alumno" post) in
  let '(ek, actividad) :=
    clean_choice "actividad" (fun i => get_actividad i (actividades_en mis db))
                 (post_get "actividad" post) in
  let '(en, nota) := clean_decimal "nota" (post_get "nota" post) in
  let fields := ea ++ ek ++ en in
  ec <- NotaForm_clean alumno actividad db ;;
  let inst := mkNotaObj None (option_map alu_id alumno) (option_map act_id actividad)
                (match nota with Some d => PyDecimal d | None => PyNone end) in
  em <- match Nota_full_clean (map err_field fields) false inst db with
        | Ok _ => Ok []
        | Raise (ValidationError es) => Ok es
        | Raise e => Raise e
        end ;;
  let eu := Nota_validate_unique (map err_field (fields ++ em)) inst db in
  Ok (mkNotaForm (fields ++ ec ++ em ++ eu) inst).

Definition is_valid (f : NotaForm) : bool :=
  match form_errors f with [] => true | _ => false end.

(** ** The views on grades ([views.py]) *)

Definition msg_rango : string := "La nota debe estar entre 0 y 10.".
Definition msg_duplicado : string :=
  "No se puede calificar al alumno de la misma actividad dos veces.".
Definition msg_no_inscrito (alumno materia : string) : string :=
  "Error: El alumno " ++ alumno ++ " no está inscrito en la materia '"
  ++ materia ++ "'.".
Definition msg_registrada : string := "Calificación registrada correctamente.".
Definition msg_inesperado : string := "Error inesperado: ".
Definition msg_actualizada : string := "Nota actualizada correctamente.".
Definition msg_invalido : string := "Valor de nota inválido.".
Definition msg_eliminada : string := "Nota eliminada correctamente.".

Definition contains (sub s : string) : bool :=
  match String.index 0 sub s with Some _ => true | None => false end.

(** The page of grades the view renders for the teacher. *)
Definition pagina_notas (u : Z) (db : DB) : response :=
  let mis := materias_de u db in
  Render "sistemas/notas.html"
         (CtxNotas (notas_en mis db) (alumnos_en mis db) (actividades_en mis db)).

(** Step 1 of the manual checks: the value, when [float()] reads it, is
    outside 0..10.  A [ValueError] is passed over. *)
Definition fuera_de_rango (nota_str : option string) : bool :=
  if truthy nota_str then
    match nota_str with
    | Some s =>
        match Py.float_of_str s with
        | Some f => Py.float_lt f 0 || Py.float_gt f 10
        | None => false
        end
    | None => false
    end
  else false.

Inductive manual :=
| Pasa
| Rechaza (texto : string)
| Falla (e : exn).

(** Steps 2 and 3 of the manual checks, entered when both identifiers
    are given: the pair has no grade yet, and the student is enrolled in
    the subject of the activity.  The identifiers go through [int()] in
    the query; a student or activity that does not exist is passed
    over. *)
Definition duplicado_o_no_inscrito (alumno_id actividad_id : option string)
  (db : DB) : manual :=
  if truthy alumno_id && truthy actividad_id then
    match alumno_id, actividad_id with
    | Some sa, Some sk =>
        match Py.int_of_str sa, Py.int_of_str sk with
        | Some a, Some k =>
            if existe_nota a k db then Rechaza msg_duplicado
            else
              match get_alumno a (alumnos db), get_actividad k (actividades db) with
              | Some alumno_obj, Some actividad_obj =>
                  match materia_de_actividad actividad_obj db with
                  | Ok m =>
                      if mem (mat_id m) (alu_materias alumno_obj) then Pasa
                      else Rechaza (msg_no_inscrito (alu_nombre alumno_obj)
                                                    (mat_nombre m))
                  | Raise e => Falla e
                  end
              | _, _ => Pasa
              end
        | _, _ => Falla ValueError
        end
    | _, _ => Pasa
    end
  else Pasa.

(** [registro_de_notas]: the manual checks, then the form.  An exception
    of [form.is_valid()] is not handled; one of [form.save()] is flashed
    ([msg_inesperado] stands for the text with the exception appended). *)
Definition registro_de_notas (u : Z) (req : request) (db : DB) : outcome :=
  match req_method req with
  | GET => mkOutcome (pagina_notas u db) [] db
  | POST =>
      let post := req_POST req in
      if fuera_de_rango (post_get "nota" post) then
        mkOutcome (Redirect "registro_de_notas") [MsgError msg_rango] db
      else
        match duplicado_o_no_inscrito (post_get "alumno" post)
                                      (post_get "actividad" post) db with
        | Rechaza t => mkOutcome (Redirect "registro_de_notas") [MsgError t] db
        | Falla e => mkOutcome (ServerError e) [] db
        | Pasa =>
            match NotaForm_full_clean u post db with
            | Raise e => mkOutcome (ServerError e) [] db
            | Ok form =>
                if is_valid form then
                  match Nota_save (form_instance form) db with
                  | Ok (_, db') =>
                      mkOutcome (Redirect "registro_de_notas")
                                [MsgSuccess msg_registrada] db'
                  | Raise _ =>
                      mkOutcome (Redirect "registro_de_notas")
                                [MsgError msg_inesperado] db
                  end
                else
                  mkOutcome (pagina_notas u db)
                    (map (fun e => MsgError (err_text e))
                       (filter (fun e => negb (contains "already exists" (err_text e))
                                         && negb (contains "ya existe" (err_text e)))
                               (form_errors form)))
                    db
            end
        end
  end.

(** [get_object_or_404(Nota, id=nota_id, actividad__materia__in=mis_materias)]. *)
Definition nota_del_profesor (u id_nota : Z) (db : DB) : option Nota :=
  get_nota id_nota (notas_en (materias_de u db) db).

(** [editar_nota]: only [ValueError] and [TypeError] are handled. *)
Definition editar_nota (id_nota : Z) (u : Z) (req : request) (db : DB) : outcome :=
  match nota_del_profesor u id_nota db with
  | None => mkOutcome Http404 [] db
  | Some row =>
      match req_method req with
      | GET => mkOutcome (Redirect "registro_de_notas") [] db
      | POST =>
          let texto := match post_get "nota" (req_POST req) with
                       | Some s => s
                       | None => EmptyString
                       end in
          let body : result (list mensaje * DB) :=
            match Py.float_of_str texto with
            | None => Raise ValueError
            | Some nueva_nota =>
                if Py.float_ge nueva_nota 0 && Py.float_le nueva_nota 10 then
                  let nota_obj := obj_of_row row in
                  let nota_obj := mkNotaObj (obj_pk nota_obj) (obj_alumno nota_obj)
                                    (obj_actividad nota_obj) (PyFloat nueva_nota) in
                  nota_obj <- Nota_full_clean [] true nota_obj db ;;
                  saved <- Nota_save nota_obj db ;;
                  Ok ([MsgSuccess msg_actualizada], snd saved)
                else Ok ([MsgError msg_rango], db)
            end in
          match body with
          | Ok (ms, db') => mkOutcome (Redirect "registro_de_notas") ms db'
          | Raise ValueError | Raise TypeError =>
              mkOutcome (Redirect "registro_de_notas") [MsgError msg_invalido] db
          | Raise e => mkOutcome (ServerError e) [] db
          end
      end
  end.

(** [eliminar_nota]. *)
Definition eliminar_nota (id_nota : Z) (u : Z) (req : request) (db : DB) : outcome :=
  match nota_del_profesor u id_nota db with
  | None => mkOutcome Http404 [] db
  | Some row =>
      match req_method req with
      | POST => mkOutcome (Redirect "registro_de_notas") [MsgSuccess msg_eliminada]
                          (delete_nota (nota_id row) db)
      | GET => mkOutcome (Redirect "registro_de_notas") [] db
      end
  end.

(** ** Subjects *)

(** [MateriaForm]: the only field is [nombre]; nothing else of the
    request is read. *)
Definition MateriaForm_clean (post : list (string * string))
  : list FormError * string :=
  clean_char "nombre" (post_get "nombre" post).

(** [crear_materia]: the teacher of the new subject is [request.user]. *)
Definition crear_materia (u : Z) (req : request) (db : DB) : outcome :=
  match req_method req with
  | POST =>
      match MateriaForm_clean (req_POST req) with
      | ([], nombre) =>
          let materia := mkMateria (seq_materia db + 1) nombre u in
          mkOutcome (Redirect "lista_materias")
                    [MsgSuccess "Materia creada correctamente."]
                    (mkDB (materias db ++ [materia]) (alumnos db) (actividades db)
                          (notas db) (seq_materia db + 1) (seq_alumno db)
                          (seq_actividad db) (seq_nota db))
      | _ => mkOutcome (Redirect "lista_materias")
                       [MsgError "Error al crear la materia."] db
      end
  | GET => mkOutcome (Redirect "lista_materias") [] db
  end.

(** [get_object_or_404(Materia, id=materia_id, profesor=request.user)]. *)
Definition materia_del_profesor (u id_materia : Z) (db : DB) : option Materia :=
  get_materia id_materia (materias_de u db).

(** [editar_materia]. *)
Definition editar_materia (id_materia : Z) (u : Z) (req : request) (db : DB)
  : outcome :=
  match materia_del_profesor u id_materia db with
  | None => mkOutcome Http404 [] db
  | Some materia =>
      match req_method req with
      | POST =>
          match MateriaForm_clean (req_POST req) with
          | ([], nombre) =>
              mkOutcome (Redirect "lista_materias")
                [MsgSuccess "Materia actualizada correctamente."]
                (set_materias
                   (map (fun m => if mat_id m =? mat_id materia
                                  then mkMateria (mat_id m) nombre (mat_profesor m)
                                  else m) (materias db)) db)
          | _ => mkOutcome (Redirect "lista_materias")
                           [MsgError "Error al actualizar la materia."] db
          end
      | GET => mkOutcome (Redirect "lista_materias") [] db
      end
  end.

(** [eliminar_materia]. *)
Definition eliminar_materia (id_materia : Z) (u : Z) (req : request) (db : DB)
  : outcome :=
  match materia_del_profesor u id_materia db with
  | None => mkOutcome Http404 [] db
  | Some materia =>
      match req_method req with
      | POST => mkOutcome (Redirect "lista_materias")
                          [MsgSuccess "Materia eliminada correctamente."]
                          (delete_materia (mat_id materia) db)
      | GET => mkOutcome (Redirect "lista_materias") [] db
      end
  end.

(** ** Activities and students *)

(** Python's [str(i)]. *)
Definition str_of_int (i : Z) : string := NilZero.string_of_int (Z.to_int i).

Section Formularios.

(** Django's [EmailValidator], and [forms.DateField.to_python] on a text
    that is not empty (the day it reads, if any). *)
Variable valid_email : string -> bool.
Variable parse_fecha : string -> option Z.

(** [forms.EmailField(max_length=254).clean]. *)
Definition clean_email (name : string) (v : option string)
  : list FormError * string :=
  let s := match v with Some t => Py.str_strip t | None => EmptyString end in
  if String.eqb s "" then ([required_error name], s)
  else
    ((if 254 <? Z.of_nat (String.length s)
      then [mkError name "Ensure this value has at most 254 characters."] else [])
     ++ (if has_null s then [mkError name msg_null_chars] else [])
     ++ (if valid_email s then [] else [mkError name msg_invalid_email]), s).

(** [ModelMultipleChoiceField.clean] over the teacher's subjects: every
    value reads as a key, and is the text of the key of a subject of the
    queryset. *)
Definition clean_materias (mis : list Materia) (vs : list string)
  : list FormError * list Z :=
  match vs with
  | [] => ([mkError "materias" "¡Error, este campo es obligatorio!"], [])
  | _ =>
      if forallb (fun v => match Py.int_of_str v with Some _ => true | None => false end) vs
      then
        let chosen := filter (fun m => existsb (fun v =>
                          match Py.int_of_str v with
                          | Some i => i =? mat_id m
                          | None => false
                          end) vs) mis in
        if forallb (fun v => existsb (fun m => String.eqb v (str_of_int (mat_id m)))
                                     chosen) vs
        then ([], map mat_id chosen)
        else ([mkError "materias" msg_invalid_choice], [])
      else ([mkError "materias" msg_invalid_pk], [])
  end.

(** [AlumnoForm(request.POST, instance=..., user=u)] after [is_valid()]:
    [self_id] is the key of the instance being edited.  The address is
    unique among the other students. *)
Definition AlumnoForm_clean (u : Z) (self_id : option Z)
  (post : list (string * string)) (db : DB) : list FormError * Alumno :=
  let '(e1, nombre) := clean_char "nombre" (post_get "nombre" post) in
  let '(e2, correo) := clean_email "correo" (post_get "correo" post) in
  let '(e3, ms) := clean_materias (materias_de u db) (post_getlist "materias" post) in
  let e4 :=
    match e2 with
    | [] =>
        if existsb (fun a => String.eqb (alu_correo a) correo
                             && match self_id with
                                | Some i => negb (alu_id a =? i)
                                | None => true
                                end) (alumnos db)
        then [mkError "correo" msg_unique_correo] else []
    | _ => []
    end in
  (e1 ++ e2 ++ e3 ++ e4,
   mkAlumno (match self_id with Some i => i | None => seq_alumno db + 1 end)
            nombre correo ms).

(** [crear_alumno]. *)
Definition crear_alumno (u : Z) (req : request) (db : DB) : outcome :=
  match req_method req with
  | POST =>
      match AlumnoForm_clean u None (req_POST req) db with
      | ([], alumno) =>
          mkOutcome (Redirect "lista_alumnos")
                    [MsgSuccess "Alumno creado correctamente."]
                    (mkDB (materias db) (alumnos db ++ [alumno]) (actividades db)
                          (notas db) (seq_materia db) (seq_alumno db + 1)
                          (seq_actividad db) (seq_nota db))
      | _ => mkOutcome (Redirect "lista_alumnos")
               [MsgError "Error al crear el alumno. Por favor verifica los datos."] db
      end
  | GET => mkOutcome (Redirect "lista_alumnos") [] db
  end.

(** [editar_alumno]: the student is looked up by [id] alone. *)
Definition editar_alumno (id_alumno : Z) (u : Z) (req : request) (db : DB)
  : outcome :=
  match get_alumno id_alumno (alumnos db) with
  | None => mkOutcome Http404 [] db
  | Some alumno =>
      match req_method req with
      | POST =>
          match AlumnoForm_clean u (Some (alu_id alumno)) (req_POST req) db with
          | ([], nuevo) =>
              mkOutcome (Redirect "lista_alumnos")
                [MsgSuccess "Alumno actualizado correctamente."]
                (set_alumnos (map (fun a => if alu_id a =? alu_id alumno then nuevo else a)
                                  (alumnos db)) db)
          | (es, _) =>
              mkOutcome (Render "sistemas/editar_alumno.html" (CtxEditarAlumno alumno es))
                        [] db
          end
      | GET =>
          mkOutcome (Render "sistemas/editar_alumno.html" (CtxEditarAlumno alumno []))
                    [] db
      end
  end.

(** [eliminar_alumno]: the student is looked up by [id] alone. *)
Definition eliminar_alumno (id_alumno : Z) (u : Z) (req : request) (db : DB)
  : outcome :=
  match get_alumno id_alumno (alumnos db) with
  | None => mkOutcome Http404 [] db
  | Some alumno =>
      match req_method req with
      | POST => mkOutcome (Redirect "lista_alumnos")
                          [MsgSuccess "Alumno eliminado correctamente."]
                          (delete_alumno (alu_id alumno) db)
      | GET => mkOutcome (Redirect "lista_alumnos") [] db
      end
  end.

(** [ChoiceField.clean] over [CATEGORIAS]. *)
Definition clean_categoria (v : option string) : list FormError * string :=
  if truthy v then
    match v with
    | Some s =>
        if existsb (fun c => String.eqb (fst c) s) CATEGORIAS then ([], s)
        else ([mkError "categoria" msg_invalid_choice], s)
    | None => ([required_error "categoria"], EmptyString)
    end
  else ([required_error "categoria"], EmptyString).

(** [forms.DateField.clean]. *)
Definition clean_fecha (v : option string) : list FormError * Z :=
  if truthy v then
    match v with
    | Some s =>
        match parse_fecha s with
        | Some d => ([], d)
        | None => ([mkError "fecha" msg_invalid_date], 0)
        end
    | None => ([required_error "fecha"], 0)
    end
  else ([required_error "fecha"], 0).

(** [ActividadForm(request.POST, instance=..., user=u)] after
    [is_valid()]: the subject is one of the teacher's. *)
Definition ActividadForm_clean (u : Z) (pk : Z) (post : list (string * string))
  (db : DB) : list FormError * Actividad :=
  let '(e1, materia) :=
    clean_choice "materia" (fun i => get_materia i (materias_de u db))
                 (post_get "materia" post) in
  let '(e2, nombre) := clean_char "nombre" (post_get "nombre" post) in
  let '(e3, categoria) := clean_categoria (post_get "categoria" post) in
  let '(e4, fecha) := clean_fecha (post_get "fecha" post) in
  (e1 ++ e2 ++ e3 ++ e4,
   mkActividad pk (match materia with Some m => mat_id m | None => 0 end)
               nombre categoria fecha).

(** [crear_actividad]. *)
Definition crear_actividad (u : Z) (req : request) (db : DB) : outcome :=
  match req_method req with
  | POST =>
      match ActividadForm_clean u (seq_actividad db + 1) (req_POST req) db with
      | ([], actividad) =>
          mkOutcome (Redirect "registro_de_notas")
                    [MsgSuccess "Actividad creada correctamente."]
                    (mkDB (materias db) (alumnos db) (actividades db ++ [actividad])
                          (notas db) (seq_materia db) (seq_alumno db)
                          (seq_actividad db + 1) (seq_nota db))
      | _ => mkOutcome (Redirect "registro_de_notas")
                       [MsgError "Error al crear la actividad."] db
      end
  | GET => mkOutcome (Redirect "registro_de_notas") [] db
  end.

(** [get_object_or_404(Actividad, id=actividad_id, materia__in=mis_materias)]. *)
Definition actividad_del_profesor (u id_actividad : Z) (db : DB) : option Actividad :=
  get_actividad id_actividad (actividades_en (materias_de u db) db).

(** [editar_actividad]. *)
Definition editar_actividad (id_actividad : Z) (u : Z) (req : request) (db : DB)
  : outcome :=
  match actividad_del_profesor u id_actividad db with
  | None => mkOutcome Http404 [] db
  | Some actividad =>
      match req_method req with
      | POST =>
          match ActividadForm_clean u (act_id actividad) (req_POST req) db with
          | ([], nueva) =>
              mkOutcome (Redirect "registro_de_notas")
                [MsgSuccess "Actividad actualizada correctamente."]
                (set_actividades
                   (map (fun k => if act_id k =? act_id actividad then nueva else k)
                        (actividades db)) db)
          | _ => mkOutcome (Redirect "registro_de_notas")
                           [MsgError "Error al actualizar la actividad."] db
          end
      | GET => mkOutcome (Redirect "registro_de_notas") [] db
      end
  end.

(** [eliminar_actividad]. *)
Definition eliminar_actividad (id_actividad : Z) (u : Z) (req : request) (db : DB)
  : outcome :=
  match actividad_del_profesor u id_actividad db with
  | None => mkOutcome Http404 [] db
  | Some actividad =>
      match req_method req with
      | POST => mkOutcome (Redirect "registro_de_notas")
                          [MsgSuccess "Actividad eliminada correctamente."]
                          (delete_actividad (act_id actividad) db)
      | GET => mkOutcome (Redirect "registro_de_notas") [] db
      end
  end.

End Formularios.

(** ** Values, requests and runs *)

(** [lo <= d <= hi] on the exact value of a finite decimal. *)
Definition decimal_between (lo hi : Z) (d : Py.pydecimal) : Prop :=
  match d with
  | Py.Dec neg c x =>
      let sc := if neg then - c else c in
      if 0 <=? x then lo <= sc * 10 ^ x <= hi
      else lo * 10 ^ (- x) <= sc <= hi * 10 ^ (- x)
  | _ => False
  end.

(** [lo <= f <= hi] on the exact value of a float; an infinity or a NaN
    lies in no interval. *)
Definition float_between (lo hi : Z) (f : Py.pyfloat) : Prop :=
  match f with
  | Py.FFin neg m e =>
      let sm := if neg then - m else m in
      if 0 <=? e then lo <= sm * 2 ^ e <= hi
      else lo * 2 ^ (- e) <= sm <= hi * 2 ^ (- e)
  | _ => False
  end.

(** A grade of the table lies in 0..10: its hundredths in 0..1000. *)
Definition nota_en_rango (n : Nota) : Prop := 0 <= nota_nota n <= 1000.

(** The teacher [u] owns the subject of the activity [k]. *)
Definition actividad_de (u : Z) (k : Actividad) (db : DB) : Prop :=
  exists m, In m (materias db) /\ mat_id m = act_materia k /\ mat_profesor m = u.

(** A school with two teachers: teacher 1 owns Math, with Alice and
    Carol, the activity Midterm and Alice's grade 8.50; teacher 2 owns
    Art, with Bob and the activity Sketch. *)
Definition escuela : DB :=
  mkDB [mkMateria 1 "Math" 1; mkMateria 2 "Art" 2]
       [mkAlumno 1 "Alice" "alice@x.com" [1]; mkAlumno 2 "Bob" "bob@x.com" [2];
        mkAlumno 3 "Carol" "carol@x.com" [1]]
       [mkActividad 1 1 "Midterm" "EX" 19783; mkActividad 2 2 "Sketch" "TR" 19790]
       [mkNota 1 1 1 850]
       2 3 2 1.

(** A request to record a grade, as the form of the page sends it. *)
Definition pedir_nota (u : Z) (alumno actividad nota : string) : request :=
  mkRequest (Some u) POST
            [("alumno", alumno); ("actividad", actividad); ("nota", nota)]%string.

(** The first reason [registro_de_notas] gives among out-of-range,
    duplicate and not-enrolled, for a request on a pair that fails one of
    the last two. *)
Definition primer_motivo (nota_str : option string) (a k : Z) (no_inscrito : string)
  (db : DB) : string :=
  if fuera_de_rango nota_str then msg_rango
  else if existe_nota a k db then msg_duplicado
  else no_inscrito.

Section Ejecuciones.

Variable valid_email : string -> bool.
Variable parse_fecha : string -> option Z.

(** The views that change the database, as the URLs name them. *)
Inductive operacion :=
| CrearAlumno
| EditarAlumno (id_alumno : Z)
| EliminarAlumno (id_alumno : Z)
| CrearMateria
| EditarMateria (id_materia : Z)
| EliminarMateria (id_materia : Z)
| CrearActividad
| EditarActividad (id_actividad : Z)
| EliminarActividad (id_actividad : Z)
| RegistroDeNotas
| EditarNota (id_nota : Z)
| EliminarNota (id_nota : Z).

Definition vista (op : operacion) : request -> DB -> outcome :=
  login_required
    match op with
    | CrearAlumno => crear_alumno valid_email
    | EditarAlumno i => editar_alumno valid_email i
    | EliminarAlumno i => eliminar_alumno i
    | CrearMateria => crear_materia
    | EditarMateria i => editar_materia i
    | EliminarMateria i => eliminar_materia i
    | CrearActividad => crear_actividad parse_fecha
    | EditarActividad i => editar_actividad parse_fecha i
    | EliminarActividad i => eliminar_actividad i
    | RegistroDeNotas => registro_de_notas
    | EditarNota i => editar_nota i
    | EliminarNota i => eliminar_nota i
    end.

(** One step of a run: a view answers a request; or [Nota.save] is
    called on an object built by hand, with any value; or the other models
    are written or rows are deleted by hand, which adds no grade. *)
Inductive paso : DB -> DB -> Prop :=
| paso_vista (op : operacion) (req : request) (db : DB) :
    paso db (out_db (vista op req db))
| paso_save (o o' : NotaObj) (db db' : DB) :
    Nota_save o db = Ok (o', db') -> paso db db'
| paso_otro (db db' : DB) :
    incl (notas db') (notas db) -> paso db db'.

(** The databases a run reaches from the empty one. *)
Inductive alcanzable : DB -> Prop :=
| alcanzable_vacia : alcanzable empty_db
| alcanzable_paso (db db' : DB) : alcanzable db -> paso db db' -> alcanzable db'.

End Ejecuciones.

(** A float outside 0..10: an infinity, or a finite value not in the
    interval.  A NaN is neither inside nor outside. *)
Definition float_outside (f : Py.pyfloat) : Prop :=
  match f with
  | Py.FFin _ _ _ => ~ float_between 0 10 f
  | Py.FInf _ => True
  | Py.FNaN => False
  end.

(** The grade a creation request was accepted with is on the page's
    success message. *)
Definition registrada (o : outcome) : Prop :=
  out_messages o = [MsgSuccess msg_registrada].

(** A creation request of teacher [u] for the student [al] and the
    activity [ac]: both are rows, named by the request; the activity is of
    a subject of [u] in which the student is enrolled; the pair has no
    grade yet. *)
Definition para_calificar (u : Z) (req : request) (db : DB) (al : Alumno)
  (ac : Actividad) : Prop :=
  req_method req = POST
  /\ (exists sa, post_get "alumno" (req_POST req) = Some sa
                 /\ Py.int_of_str sa = Some (alu_id al))
  /\ (exists sk, post_get "actividad" (req_POST req) = Some sk
                 /\ Py.int_of_str sk = Some (act_id ac))
  /\ In al (alumnos db) /\ In ac (actividades db)
  /\ (exists m, In m (materias db) /\ mat_id m = act_materia ac
                /\ mat_profesor m = u /\ In (mat_id m) (alu_materias al))
  /\ existe_nota (alu_id al) (act_id ac) db = false.

(** A character that is no blank for [str.strip()]. *)
Definition no_space (c : ascii) : bool := negb (Py.str_isspace c).

(** An address validator that takes every address, and a date reader that
    reads every date as one day. *)
Definition siempre (_ : string) : bool := true.
Definition un_dia (_ : string) : option Z := Some 19783.

(** A run from the empty database: teacher 1 creates Math, enrols Alice,
    sets the Midterm and records 8.5 for her. *)
Definition aula : DB :=
  let pedir := mkRequest (Some 1) POST in
  let paso1 := out_db (vista siempre un_dia CrearMateria
                         (pedir [("nombre", "Math")]%string) empty_db) in
  let paso2 := out_db (vista siempre un_dia CrearAlumno
                         (pedir [("nombre", "Alice"); ("correo", "alice@x.com");
                                 ("materias", "1")]%string) paso1) in
  let paso3 := out_db (vista siempre un_dia CrearActividad
                         (pedir [("materia", "1"); ("nombre", "Midterm");
                                 ("categoria", "EX"); ("fecha", "2024-03-01")]%string)
                         paso2) in
  out_db (vista siempre un_dia RegistroDeNotas (pedir_nota 1 "1" "1" "8.5") paso3).

(** Alice's grade as an object whose value was set by hand to the float
    nearest to 9.99, and the database after [save()] on it. *)
Definition nota_a_mano : NotaObj :=
  mkNotaObj (Some 1) (Some 1) (Some 1) (PyFloat (Py.FFin false 5623870034678907 (-49))).

Definition aula_a_mano : DB :=
  match Nota_save nota_a_mano aula with
  | Ok (_, db) => db
  | Raise _ => aula
  end.

(** ** The list views and the maps of the grades page *)

(** What the three list views hand to their templates: [dashboard] the
    teacher's subjects and the number of distinct students in them;
    [lista_alumnos] the subjects, the students and the subjects the empty
    [AlumnoForm] offers; [lista_materias] the subjects. *)
Inductive pagina :=
| PaginaDashboard (ms : list Materia) (total_alumnos : Z)
| PaginaAlumnos (ms : list Materia) (als : list Alumno) (form_materias : list Materia)
| PaginaMaterias (ms : list Materia).

(** [dashboard]. *)
Definition dashboard (u : Z) (db : DB) : pagina :=
  let ms := materias_de u db in
  PaginaDashboard ms (Z.of_nat (List.length (alumnos_en ms db))).

(** [lista_alumnos]. *)
Definition lista_alumnos (u : Z) (db : DB) : pagina :=
  let ms := materias_de u db in
  PaginaAlumnos ms (alumnos_en ms db) (materias_de u db).

(** [lista_materias]. *)
Definition lista_materias (u : Z) (db : DB) : pagina :=
  PaginaMaterias (materias_de u db).

(** A Python [dict] built by a comprehension, as the pairs in the order
    they were set; [dict_get] reads the last value set under a key. *)
Fixpoint dict_get {A : Type} (key : string) (d : list (string * A)) : option A :=
  match d with
  | [] => None
  | (k, v) :: r =>
      match dict_get key r with
      | Some x => Some x
      | None => if String.eqb k key then Some v else None
      end
  end.

(** [actividad_materia_map] of [registro_de_notas]: from the text of the
    id of each activity of the teacher to the text of the id of its
    subject. *)
Definition actividad_materia_map (u : Z) (db : DB) : result (list (string * string)) :=
  let fix go (l : list Actividad) : result (list (string * string)) :=
    match l with
    | [] => Ok []
    | act :: r =>
        m <- materia_de_actividad act db ;;
        rest <- go r ;;
        Ok ((str_of_int (act_id act), str_of_int (mat_id m)) :: rest)
    end in
  go (actividades_en (materias_de u db) db).

(** [alumno_materias_map] of [registro_de_notas]: from the text of the id
    of each student of the teacher to the ids of all the subjects of the
    student. *)
Definition alumno_materias_map (u : Z) (db : DB) : list (string * list Z) :=
  map (fun al => (str_of_int (alu_id al), alu_materias al))
      (alumnos_en (materias_de u db) db).

(** ** The constraints of the tables *)

(** Primary keys: no two rows of a table share an id, and no id is above
    the last one the table gave out. *)
Definition tabla_ok {A : Type} (key : A -> Z) (l : list A) (seq : Z) : Prop :=
  NoDup (map key l) /\ forall x, In x l -> key x <= seq.

Definition claves_ok (db : DB) : Prop :=
  tabla_ok mat_id (materias db) (seq_materia db)
  /\ tabla_ok alu_id (alumnos db) (seq_alumno db)
  /\ tabla_ok act_id (actividades db) (seq_actividad db)
  /\ tabla_ok nota_id (notas db) (seq_nota db).

(** Foreign keys: the subject of an activity, the student and the
    activity of a grade and the subjects of a student are rows. *)
Record referencias_ok (db : DB) : Prop := mk_referencias_ok {
  ref_actividad_materia :
    forall k, In k (actividades db) -> In (act_materia k) (map mat_id (materias db));
  ref_nota_alumno :
    forall n, In n (notas db) -> In (nota_alumno n) (map alu_id (alumnos db));
  ref_nota_actividad :
    forall n, In n (notas db) -> In (nota_actividad n) (map act_id (actividades db));
  ref_alumno_materias :
    forall a i, In a (alumnos db) -> In i (alu_materias a) ->
                In i (map mat_id (materias db))
}.

(** [unique_together = ("alumno", "actividad")]. *)
Definition pares_unicos (db : DB) : Prop :=
  NoDup (map (fun n => (nota_alumno n, nota_actividad n)) (notas db)).

(** [correo = models.EmailField(unique=True)]. *)
Definition correos_unicos (db : DB) : Prop :=
  NoDup (map alu_correo (alumnos db)).

Section Historias.

Variable valid_email : string -> bool.
Variable parse_fecha : string -> option Z.

(** The databases the application itself produces from the empty one: by
    its views, on any requests, and by [Nota.save] on any object. *)
Inductive historia : DB -> Prop :=
| historia_vacia : historia empty_db
| historia_vista (op : operacion) (req : request) (db : DB) :
    historia db -> historia (out_db (vista valid_email parse_fecha op req db))
| historia_save (o o' : NotaObj) (db db' : DB) :
    historia db -> Nota_save o db = Ok (o', db') -> historia db'.

End Historias.


(** ** The fields of the rows *)

(** A name as [CharField(max_length=100)] takes it from a form: not
    empty, within the length, without null characters. *)
Definition nombre_ok (s : string) : Prop :=
  s <> EmptyString /\ Z.of_nat (String.length s) <= 100 /\ has_null s = false.

(** Every text field of every row is as its form field takes it. *)
Definition campos_ok (valid_email : string -> bool) (db : DB) : Prop :=
  (forall m, In m (materias db) -> nombre_ok (mat_nombre m))
  /\ (forall a, In a (alumnos db) ->
        nombre_ok (alu_nombre a) /\ valid_email (alu_correo a) = true)
  /\ (forall k, In k (actividades db) ->
        nombre_ok (act_nombre k) /\ In (act_categoria k) (map fst CATEGORIAS)).

(** * Properties *)

(** ** The Python layer on small inputs *)

Example int_of_str_blanks : Py.int_of_str " 12 " = Some 12.
Proof. reflexivity. Qed.

Example int_of_str_point : Py.int_of_str "12.0" = None.
Proof. reflexivity. Qed.

Example float_of_str_tenth :
  Py.float_of_str "0.1" = Some (Py.FFin false 7205759403792794 (-56)).
Proof. reflexivity. Qed.

Example float_of_str_rounds_to_ten :
  Py.float_of_str "10.0000000000000000001" = Py.float_of_str "10".
Proof. reflexivity. Qed.

Example float_of_str_text : Py.float_of_str "abc" = None.
Proof. reflexivity. Qed.

Example decimal_from_tenth :
  option_map (Py.create_decimal_from_float 5) (Py.float_of_str "0.1")
  = Some (Py.Dec false 10000 (-5)).
Proof. reflexivity. Qed.

Example decimal_from_half :
  option_map (Py.create_decimal_from_float 5) (Py.float_of_str "8.5")
  = Some (Py.Dec false 85 (-1)).
Proof. reflexivity. Qed.

Example validator_five_places :
  DecimalValidator 5 2 (Py.Dec false 10000 (-5)) = Some MaxDecimalPlaces.
Proof. reflexivity. Qed.

Example validator_two_places : DecimalValidator 5 2 (Py.Dec false 850 (-2)) = None.
Proof. reflexivity. Qed.

Example clean_of_none :
  Nota_clean (mkNotaObj None (Some 1) (Some 1) PyNone) = Raise TypeError.
Proof. reflexivity. Qed.

Example save_of_eleven :
  Nota_save (mkNotaObj None (Some 3) (Some 1) (PyInt 11)) escuela
  = Raise (ValidationError [mkError ALL msg_clean]).
Proof. reflexivity. Qed.

(** ** Lists and queries *)

Lemma mem_In (x : Z) (l : list Z) : mem x l = true <-> In x l.
Proof.
  unfold mem. rewrite existsb_exists. split.
  - intros [y [Hy Heq]]. apply Z.eqb_eq in Heq. now subst.
  - intros H. exists x. split; [assumption | apply Z.eqb_refl].
Qed.

Lemma existsb_key {A : Type} (key : A -> Z) (i : Z) (l : list A) :
  existsb (fun x => key x =? i) l = true <-> In i (map key l).
Proof.
  rewrite existsb_exists, in_map_iff. split.
  - intros [x [Hx He]]. apply Z.eqb_eq in He. now exists x.
  - intros [x [He Hx]]. exists x. split; [assumption | now apply Z.eqb_eq].
Qed.

Lemma find_key_none {A : Type} (key : A -> Z) (i : Z) (l : list A) :
  (forall x, In x l -> key x <> i) -> find (fun x => key x =? i) l = None.
Proof.
  intros H. destruct (find _ l) as [x|] eqn:E; [|reflexivity].
  apply find_some in E. destruct E as [Hin He].
  apply Z.eqb_eq in He. now apply H in Hin.
Qed.

Lemma find_key_some {A : Type} (key : A -> Z) (i : Z) (l : list A) (x : A) :
  find (fun y => key y =? i) l = Some x -> In x l /\ key x = i.
Proof.
  intros E. apply find_some in E. destruct E as [Hin He].
  apply Z.eqb_eq in He. now split.
Qed.

Lemma find_key_unique {A : Type} (key : A -> Z) (l : list A) (x : A) :
  NoDup (map key l) -> In x l -> find (fun y => key y =? key x) l = Some x.
Proof.
  induction l as [|y l IH]; simpl; intros Hnd Hin; [contradiction|].
  inversion Hnd as [|? ? Hy Hnd']; subst.
  destruct Hin as [-> | Hin].
  - now rewrite Z.eqb_refl.
  - destruct (key y =? key x) eqn:E.
    + apply Z.eqb_eq in E. exfalso. apply Hy. rewrite E. now apply in_map.
    + now apply IH.
Qed.

Lemma NoDup_map_filter {A : Type} (key : A -> Z) (p : A -> bool) (l : list A) :
  NoDup (map key l) -> NoDup (map key (filter p l)).
Proof.
  induction l as [|y l IH]; simpl; intros Hnd; [constructor|].
  inversion Hnd as [|? ? Hy Hnd']; subst.
  destruct (p y); simpl; [constructor|]; auto.
  intros Hin. apply Hy. apply in_map_iff in Hin. destruct Hin as [z [Hz Hin]].
  apply filter_In in Hin. rewrite <- Hz. apply in_map. tauto.
Qed.

Lemma In_materias_de (u : Z) (db : DB) (m : Materia) :
  In m (materias_de u db) <-> In m (materias db) /\ mat_profesor m = u.
Proof.
  unfold materias_de. rewrite filter_In, Z.eqb_eq. tauto.
Qed.

Lemma In_actividades_en (u : Z) (db : DB) (k : Actividad) :
  In k (actividades_en (materias_de u db) db)
  <-> In k (actividades db) /\ actividad_de u k db.
Proof.
  unfold actividades_en, actividad_de, ids_materias.
  rewrite filter_In, mem_In, in_map_iff. split.
  - intros [Hk [m [Hm Hin]]]. apply In_materias_de in Hin.
    split; [assumption|]. exists m. tauto.
  - intros [Hk [m [Hin [Hm Hu]]]]. split; [assumption|].
    exists m. split; [assumption|]. apply In_materias_de. tauto.
Qed.

Lemma In_notas_en (u : Z) (db : DB) (n : Nota) :
  In n (notas_en (materias_de u db) db)
  <-> In n (notas db)
      /\ exists k, In k (actividades db) /\ act_id k = nota_actividad n
                   /\ actividad_de u k db.
Proof.
  unfold notas_en. rewrite filter_In, mem_In, in_map_iff. split.
  - intros [Hn [k [Hk Hin]]]. apply In_actividades_en in Hin.
    split; [assumption|]. exists k. tauto.
  - intros [Hn [k [Hin [Hk Hu]]]]. split; [assumption|].
    exists k. split; [assumption|]. apply In_actividades_en. tauto.
Qed.

Lemma In_alumnos_en (u : Z) (db : DB) (a : Alumno) :
  In a (alumnos_en (materias_de u db) db)
  <-> In a (alumnos db)
      /\ exists m, In m (materias db) /\ mat_profesor m = u
                   /\ In (mat_id m) (alu_materias a).
Proof.
  unfold alumnos_en, ids_materias. rewrite filter_In, existsb_exists. split.
  - intros [Ha [i [Hi Hmem]]]. split; [assumption|].
    apply mem_In, in_map_iff in Hmem. destruct Hmem as [m [Hm Hin]].
    apply In_materias_de in Hin. exists m. subst i. tauto.
  - intros [Ha [m [Hin [Hu Hi]]]]. split; [assumption|].
    exists (mat_id m). split; [assumption|].
    apply mem_In, in_map. apply In_materias_de. tauto.
Qed.

(** ** Ownership: what lies outside a teacher's subjects is not found *)

Lemma materia_ajena (u i : Z) (db : DB) :
  (forall m, In m (materias db) -> mat_id m = i -> mat_profesor m <> u) ->
  materia_del_profesor u i db = None.
Proof.
  intros H. apply find_key_none. intros m Hm Hi.
  apply In_materias_de in Hm. destruct Hm as [Hm Hu]. now apply (H m).
Qed.

Lemma actividad_ajena (u i : Z) (db : DB) :
  (forall k, In k (actividades db) -> act_id k = i -> ~ actividad_de u k db) ->
  actividad_del_profesor u i db = None.
Proof.
  intros H. apply find_key_none. intros k Hk Hi.
  apply In_actividades_en in Hk. destruct Hk as [Hk Hu]. now apply (H k).
Qed.

Lemma nota_ajena (u i : Z) (db : DB) :
  (forall n k, In n (notas db) -> nota_id n = i -> In k (actividades db) ->
               act_id k = nota_actividad n -> ~ actividad_de u k db) ->
  nota_del_profesor u i db = None.
Proof.
  intros H. apply find_key_none. intros n Hn Hi.
  apply In_notas_en in Hn. destruct Hn as [Hn [k [Hk [Hid Hu]]]].
  now apply (H n k).
Qed.

(** C6. For a teacher [u] and the id of a subject, of an activity or of a
    grade that lies outside what [u] owns (no subject with the id belongs
    to [u]; no activity with the id is under a subject of [u]; no grade
    with the id is on such an activity), editing and deleting answer
    not-found and leave the database as it was, whatever the request. *)
Theorem fuera_de_alcance_no_encontrado
  (parse_fecha : string -> option Z) (u im ik iN : Z) (req : request) (db : DB) :
  (forall m, In m (materias db) -> mat_id m = im -> mat_profesor m <> u) ->
  (forall k, In k (actividades db) -> act_id k = ik -> ~ actividad_de u k db) ->
  (forall n k, In n (notas db) -> nota_id n = iN -> In k (actividades db) ->
               act_id k = nota_actividad n -> ~ actividad_de u k db) ->
  editar_materia im u req db = mkOutcome Http404 [] db
  /\ eliminar_materia im u req db = mkOutcome Http404 [] db
  /\ editar_actividad parse_fecha ik u req db = mkOutcome Http404 [] db
  /\ eliminar_actividad ik u req db = mkOutcome Http404 [] db
  /\ editar_nota iN u req db = mkOutcome Http404 [] db
  /\ eliminar_nota iN u req db = mkOutcome Http404 [] db.
Proof.
  intros Hm Hk Hn.
  unfold editar_materia, eliminar_materia, editar_actividad, eliminar_actividad,
    editar_nota, eliminar_nota.
  rewrite (materia_ajena _ _ _ Hm), (actividad_ajena _ _ _ Hk), (nota_ajena _ _ _ Hn).
  repeat split.
Qed.

(** Teacher 2 asks for subject 1, activity 1 and grade 1, which exist
    and belong to teacher 1. *)
Lemma fuera_de_alcance_no_encontrado_witness :
  let req := mkRequest (Some 2) POST [("nombre", "Mine"); ("nota", "0")]%string in
  editar_materia 1 2 req escuela = mkOutcome Http404 [] escuela
  /\ eliminar_materia 1 2 req escuela = mkOutcome Http404 [] escuela
  /\ editar_actividad (fun _ => None) 1 2 req escuela = mkOutcome Http404 [] escuela
  /\ eliminar_actividad 1 2 req escuela = mkOutcome Http404 [] escuela
  /\ editar_nota 1 2 req escuela = mkOutcome Http404 [] escuela
  /\ eliminar_nota 1 2 req escuela = mkOutcome Http404 [] escuela.
Proof.
  intros req.
  assert (Hk : forall k, In k (actividades escuela) -> act_id k = 1 ->
                         ~ actividad_de 2 k escuela).
  { simpl. intros k [<- | [<- | []]]; simpl; intros Hi [m [Hm [Hmk Hu]]];
      [|lia]. simpl in Hm. destruct Hm as [<- | [<- | []]]; simpl in *; lia. }
  apply (fuera_de_alcance_no_encontrado (fun _ => None) 2 1 1 1 req escuela).
  - simpl. intros m [<- | [<- | []]]; simpl; intros; lia.
  - exact Hk.
  - intros n k Hn Hi Hin Hid. apply Hk; [assumption|].
    simpl in Hn. destruct Hn as [<- | []]. exact Hid.
Defined.

(** ** Deleting a subject *)

Lemma delete_materia_actividades (i : Z) (db : DB) (k : Actividad) :
  In k (actividades (delete_materia i db))
  <-> In k (actividades db) /\ act_materia k <> i.
Proof.
  unfold delete_materia. simpl. rewrite filter_In, negb_true_iff, Z.eqb_neq. tauto.
Qed.

Lemma delete_materia_notas (i : Z) (db : DB) (n : Nota) :
  In n (notas (delete_materia i db))
  <-> In n (notas db)
      /\ forall k, In k (actividades db) -> act_materia k = i ->
                   nota_actividad n <> act_id k.
Proof.
  unfold delete_materia. simpl. rewrite filter_In, negb_true_iff.
  rewrite <- not_true_iff_false, mem_In, in_map_iff. split.
  - intros [Hn Hgone]. split; [assumption|]. intros k Hk Hm Hid.
    apply Hgone. exists k. split; [congruence|].
    apply filter_In. split; [assumption | now apply Z.eqb_eq].
  - intros [Hn H]. split; [assumption|]. intros [k [Hid Hk]].
    apply filter_In in Hk. destruct Hk as [Hk Hm]. apply Z.eqb_eq in Hm.
    now apply (H k).
Qed.

(** C7. After the owner's delete of a subject, the subject is gone, no
    activity of the subject remains, no grade on one of its activities
    remains, and no orphan is left: if every grade was on an activity of
    the table before, every grade is on an activity of the table after. *)
Theorem eliminar_materia_en_cascada (i u : Z) (req : request) (db : DB) (s : Materia) :
  materia_del_profesor u i db = Some s ->
  req_method req = POST ->
  let db' := out_db (eliminar_materia i u req db) in
  ~ In i (map mat_id (materias db'))
  /\ (forall k, In k (actividades db') -> act_materia k <> i)
  /\ (forall n k, In n (notas db') -> In k (actividades db) -> act_materia k = i ->
                  nota_actividad n <> act_id k)
  /\ ((forall n, In n (notas db) -> In (nota_actividad n) (map act_id (actividades db))) ->
      forall n, In n (notas db') -> In (nota_actividad n) (map act_id (actividades db'))).
Proof.
  intros Hs Hpost. unfold eliminar_materia. rewrite Hs, Hpost. simpl out_db.
  apply find_key_some in Hs. destruct Hs as [_ Hid]. rewrite Hid.
  repeat split.
  - unfold delete_materia. simpl. rewrite in_map_iff. intros [m [Hm Hin]].
    apply filter_In in Hin. destruct Hin as [_ Hne].
    rewrite negb_true_iff, Z.eqb_neq in Hne. contradiction.
  - intros k Hk. now apply delete_materia_actividades in Hk.
  - intros n k Hn. apply delete_materia_notas in Hn. destruct Hn as [_ H]. apply H.
  - intros Hfk n Hn. apply delete_materia_notas in Hn. destruct Hn as [Hn Hkeep].
    specialize (Hfk n Hn). apply in_map_iff in Hfk. destruct Hfk as [k [Hid' Hk]].
    apply in_map_iff. exists k. split; [assumption|].
    apply delete_materia_actividades. split; [assumption|].
    intros Hm. now apply (Hkeep k).
Qed.

(** Teacher 1 deletes Math: the Midterm and Alice's grade go with it. *)
Lemma eliminar_materia_en_cascada_witness :
  let req := mkRequest (Some 1) POST [] in
  let db' := out_db (eliminar_materia 1 1 req escuela) in
  (actividades db' = [mkActividad 2 2 "Sketch" "TR" 19790] /\ notas db' = [])
  /\ ~ In 1 (map mat_id (materias db'))
  /\ (forall k, In k (actividades db') -> act_materia k <> 1)
  /\ (forall n k, In n (notas db') -> In k (actividades escuela) -> act_materia k = 1 ->
                  nota_actividad n <> act_id k)
  /\ ((forall n, In n (notas escuela) ->
                 In (nota_actividad n) (map act_id (actividades escuela))) ->
      forall n, In n (notas db') -> In (nota_actividad n) (map act_id (actividades db'))).
Proof.
  intros req db'. split.
  - split; reflexivity.
  - apply (eliminar_materia_en_cascada 1 1 req escuela (mkMateria 1 "Math" 1));
      reflexivity.
Defined.

(** ** Creating a subject *)



(** ** Students are looked up without the teacher's filter *)

(** The teacher plays no part in the lookup: the two views answer any
    teacher alike. *)
Lemma alumno_sin_filtro (valid_email : string -> bool) (i u u' : Z) (req : request)
  (db : DB) (a : Alumno) :
  get_alumno i (alumnos db) = Some a ->
  req_method req = POST ->
  eliminar_alumno i u req db = eliminar_alumno i u' req db
  /\ out_db (eliminar_alumno i u req db) = delete_alumno (alu_id a) db
  /\ out_response (editar_alumno valid_email i u (mkRequest (req_user req) GET []) db)
     = Render "sistemas/editar_alumno.html" (CtxEditarAlumno a []).
Proof.
  intros Ha Hpost. unfold eliminar_alumno, editar_alumno. rewrite Ha, Hpost.
  repeat split.
Qed.

(** C4. Bob is enrolled only in Art, a subject of teacher 2, so he is not
    among the students of teacher 1 and an unknown student [9] is answered
    not-found.  Yet for teacher 1 the edit page shows Bob's record, an edit
    (with an address the validator takes) rewrites it and moves him to
    Math, and the delete removes him:
    [editar_alumno] and [eliminar_alumno] do not behave as for a student
    that is not found. *)
Theorem alumno_ajeno_editado_y_eliminado :
  let bob := mkAlumno 2 "Bob" "bob@x.com" [2] in
  let ver := mkRequest (Some 1) GET [] in
  let borrar := mkRequest (Some 1) POST [] in
  let cambiar := mkRequest (Some 1) POST
                   [("nombre", "Robert"); ("correo", "r@x.com"); ("materias", "1")]%string in
  get_alumno 2 (alumnos_en (materias_de 1 escuela) escuela) = None
  /\ eliminar_alumno 9 1 borrar escuela = mkOutcome Http404 [] escuela
  /\ (forall valid_email,
        out_response (editar_alumno valid_email 2 1 ver escuela)
        = Render "sistemas/editar_alumno.html" (CtxEditarAlumno bob []))
  /\ get_alumno 2 (alumnos (out_db (editar_alumno (fun _ => true) 2 1 cambiar escuela)))
     = Some (mkAlumno 2 "Robert" "r@x.com" [1])
  /\ out_response (eliminar_alumno 2 1 borrar escuela) = Redirect "lista_alumnos"
  /\ get_alumno 2 (alumnos (out_db (eliminar_alumno 2 1 borrar escuela))) = None.
Proof.
  intros bob ver borrar cambiar. repeat split.
Qed.

(** ** Updating a grade *)

(** Text that [float()] does not read is reported to the request. *)
Lemma editar_nota_no_numero (i u : Z) (req : request) (db : DB) (row : Nota) :
  nota_del_profesor u i db = Some row ->
  req_method req = POST ->
  (forall s, post_get "nota" (req_POST req) = Some s -> Py.float_of_str s = None) ->
  editar_nota i u req db
  = mkOutcome (Redirect "registro_de_notas") [MsgError msg_invalido] db.
Proof.
  intros Hrow Hpost Hs. unfold editar_nota. rewrite Hrow, Hpost.
  destruct (post_get "nota" (req_POST req)) as [s|]; [|reflexivity].
  now rewrite (Hs s eq_refl).
Qed.

(** A float in 0..10 whose decimal of five digits does not pass the
    validator of the field makes [full_clean] raise, and the view lets the
    [ValidationError] through; the database is left as it was. *)
Lemma editar_nota_precision (i u : Z) (req : request) (db : DB) (row : Nota)
  (s : string) (f : Py.pyfloat) (e : decimal_error) :
  nota_del_profesor u i db = Some row ->
  req_method req = POST ->
  post_get "nota" (req_POST req) = Some s ->
  Py.float_of_str s = Some f ->
  Py.float_ge f 0 && Py.float_le f 10 = true ->
  DecimalValidator max_digits decimal_places (Py.create_decimal_from_float max_digits f)
  = Some e ->
  exists es, editar_nota i u req db = mkOutcome (ServerError (ValidationError es)) [] db.
Proof.
  intros Hrow Hpost Hs Hf Hr Hv. unfold editar_nota. rewrite Hrow, Hpost, Hs, Hf, Hr.
  unfold Nota_full_clean, Nota_clean_fields, bind.
  cbn [excluded existsb obj_of_row obj_pk obj_alumno obj_actividad obj_nota].
  assert (Hfield : exists er, clean_nota_field (PyFloat f) = ([er], PyFloat f)).
  { unfold clean_nota_field, nota_to_python.
    destruct (Py.is_finite _); [rewrite Hv|]; eexists; reflexivity. }
  destruct Hfield as [er ->].
  assert (Hclean : Nota_clean (mkNotaObj (Some (nota_id row)) (Some (nota_alumno row))
                                 (Some (nota_actividad row)) (PyFloat f)) = Ok tt).
  { unfold Nota_clean, py_lt, py_gt, py_compare, bind. cbn [obj_nota].
    unfold Py.float_ge, Py.float_le in Hr.
    destruct (Py.float_compare f 0) as [[]|]; try discriminate;
      destruct (Py.float_compare f 10) as [[]|]; try discriminate; reflexivity. }
  rewrite Hclean.
  destruct (clean_fk "alumno" _ _ ++ clean_fk "actividad" _ _ ++ [er]) as [|e0 l] eqn:E.
  - exfalso. destruct (clean_fk "alumno" _ _); [|discriminate].
    destruct (clean_fk "actividad" _ _); discriminate.
  - cbn [app]. eexists. reflexivity.
Qed.

(** C9. An update of Alice's grade by her teacher with the value [1.234],
    which is in range and has three decimal places (and likewise [0.1],
    which the float conversion turns into [0.10000]), ends in a
    [ValidationError] of [full_clean] that the view does not handle; the
    stored grade keeps its value.  Text that is no number and a value out
    of range are reported to the request. *)
Theorem editar_nota_error_no_manejado :
  let pedir v := mkRequest (Some 1) POST [("nota", v)]%string in
  let decimales := ValidationError [mkError "nota" (decimal_error_text MaxDecimalPlaces)] in
  editar_nota 1 1 (pedir "1.234"%string) escuela
  = mkOutcome (ServerError decimales) [] escuela
  /\ editar_nota 1 1 (pedir "0.1"%string) escuela
     = mkOutcome (ServerError decimales) [] escuela
  /\ editar_nota 1 1 (pedir "abc"%string) escuela
     = mkOutcome (Redirect "registro_de_notas") [MsgError msg_invalido] escuela
  /\ editar_nota 1 1 (pedir "11"%string) escuela
     = mkOutcome (Redirect "registro_de_notas") [MsgError msg_rango] escuela
  /\ notas (out_db (editar_nota 1 1 (pedir "9.5"%string) escuela)) = [mkNota 1 1 1 950].
Proof.
  repeat split; vm_compute; reflexivity.
Qed.

(** ** Recording a grade: the manual checks *)

Lemma truthy_int (s : string) (i : Z) : Py.int_of_str s = Some i -> truthy (Some s) = true.
Proof.
  intros H. unfold truthy. destruct (String.eqb s "") eqn:E; [|reflexivity].
  apply String.eqb_eq in E. subst s. discriminate H.
Qed.

Lemma existe_nota_In (a k : Z) (db : DB) :
  existe_nota a k db = true
  <-> exists n, In n (notas db) /\ nota_alumno n = a /\ nota_actividad n = k.
Proof.
  unfold existe_nota. rewrite existsb_exists. split.
  - intros [n [Hn Hb]]. apply andb_true_iff in Hb. destruct Hb as [Ha Hk].
    apply Z.eqb_eq in Ha, Hk. now exists n.
  - intros [n [Hn [Ha Hk]]]. exists n. split; [assumption|].
    apply andb_true_iff. split; now apply Z.eqb_eq.
Qed.

Lemma registro_fuera_de_rango (u : Z) (req : request) (db : DB) :
  req_method req = POST ->
  fuera_de_rango (post_get "nota" (req_POST req)) = true ->
  registro_de_notas u req db
  = mkOutcome (Redirect "registro_de_notas") [MsgError msg_rango] db.
Proof.
  intros Hpost Hf. unfold registro_de_notas. now rewrite Hpost, Hf.
Qed.

Lemma manual_duplicado (sa sk : string) (a k : Z) (db : DB) :
  Py.int_of_str sa = Some a -> Py.int_of_str sk = Some k ->
  existe_nota a k db = true ->
  duplicado_o_no_inscrito (Some sa) (Some sk) db = Rechaza msg_duplicado.
Proof.
  intros Ha Hk He. unfold duplicado_o_no_inscrito.
  rewrite (truthy_int _ _ Ha), (truthy_int _ _ Hk), Ha, Hk, He. reflexivity.
Qed.

Lemma manual_no_inscrito (sa sk : string) (al : Alumno) (ac : Actividad) (m : Materia)
  (db : DB) :
  Py.int_of_str sa = Some (alu_id al) -> Py.int_of_str sk = Some (act_id ac) ->
  existe_nota (alu_id al) (act_id ac) db = false ->
  get_alumno (alu_id al) (alumnos db) = Some al ->
  get_actividad (act_id ac) (actividades db) = Some ac ->
  get_materia (act_materia ac) (materias db) = Some m ->
  mem (mat_id m) (alu_materias al) = false ->
  duplicado_o_no_inscrito (Some sa) (Some sk) db
  = Rechaza (msg_no_inscrito (alu_nombre al) (mat_nombre m)).
Proof.
  intros Ha Hk He Hal Hac Hm Hmem. unfold duplicado_o_no_inscrito, materia_de_actividad.
  rewrite (truthy_int _ _ Ha), (truthy_int _ _ Hk), Ha, Hk, He, Hal, Hac, Hm, Hmem.
  reflexivity.
Qed.

Lemma registro_rechaza (u : Z) (req : request) (db : DB) (t : string) :
  req_method req = POST ->
  fuera_de_rango (post_get "nota" (req_POST req)) = false ->
  duplicado_o_no_inscrito (post_get "alumno" (req_POST req))
                          (post_get "actividad" (req_POST req)) db = Rechaza t ->
  registro_de_notas u req db
  = mkOutcome (Redirect "registro_de_notas") [MsgError t] db.
Proof.
  intros Hpost Hf Hm. unfold registro_de_notas. now rewrite Hpost, Hf, Hm.
Qed.




Lemma no_inscrito_sin_duplicado (u : Z) (sa sk : string) (req : request) (db : DB)
  (al : Alumno) (ac : Actividad) (m : Materia) :
  NoDup (map alu_id (alumnos db)) ->
  NoDup (map act_id (actividades db)) ->
  NoDup (map mat_id (materias db)) ->
  req_method req = POST ->
  post_get "alumno" (req_POST req) = Some sa -> Py.int_of_str sa = Some (alu_id al) ->
  post_get "actividad" (req_POST req) = Some sk -> Py.int_of_str sk = Some (act_id ac) ->
  In al (alumnos db) -> In ac (actividades db) ->
  In m (materias db) -> mat_id m = act_materia ac ->
  ~ In (mat_id m) (alu_materias al) ->
  registro_de_notas u req db
  = mkOutcome (Redirect "registro_de_notas")
      [MsgError (primer_motivo (post_get "nota" (req_POST req)) (alu_id al) (act_id ac)
                               (msg_no_inscrito (alu_nombre al) (mat_nombre m)) db)]
      db.
Proof.
  intros Hal Hac Hma Hpost Hsa Ha Hsk Hk Hia Hik Him Hmid Hno.
  unfold primer_motivo. destruct (fuera_de_rango _) eqn:Hf.
  - now apply registro_fuera_de_rango.
  - apply registro_rechaza; try assumption. rewrite Hsa, Hsk.
    destruct (existe_nota _ _ db) eqn:He.
    + now apply (manual_duplicado sa sk (alu_id al) (act_id ac)).
    + apply (manual_no_inscrito sa sk al ac m); try assumption.
      * now apply find_key_unique.
      * now apply find_key_unique.
      * rewrite <- Hmid. now apply find_key_unique.
      * apply not_true_iff_false. intros Hmem. now apply mem_In in Hmem.
Qed.




(** ** Recording a grade: the order of the checks *)

Lemma no_numero_no_fuera_de_rango (nota_str : option string) :
  (forall s, nota_str = Some s -> Py.float_of_str s = None) ->
  fuera_de_rango nota_str = false.
Proof.
  intros H. unfold fuera_de_rango. destruct nota_str as [s|]; [|reflexivity].
  rewrite (H s eq_refl). now destruct (truthy (Some s)).
Qed.



(** When the three manual checks pass, a text that is no number reaches
    the form, which leaves [nota] unset; [Nota.clean] then compares [None]
    with 0. *)
Example no_numero_en_el_formulario :
  registro_de_notas 1 (pedir_nota 1 "3" "1" "abc") escuela
  = mkOutcome (ServerError TypeError) [] escuela.
Proof. reflexivity. Qed.


(** ** Rounding keeps a value inside integer bounds *)

Lemma div_half_even_between (n d lo hi : Z) :
  0 < d -> lo * d <= n <= hi * d ->
  lo <= Py.div_half_even n d <= hi.
Proof.
  intros Hd [Hlo Hhi]. unfold Py.div_half_even.
  pose proof (Z.div_mod n d ltac:(lia)) as Hdm.
  pose proof (Z.mod_pos_bound n d Hd) as Hr.
  set (q := n / d) in *. set (r := n mod d) in *. clearbody q r.
  assert (Hq1 : lo <= q).
  { assert (lo * d < (q + 1) * d) by lia.
    apply Z.mul_lt_mono_pos_r in H; lia. }
  assert (Hq2 : q <= hi).
  { assert (q * d <= hi * d) by lia.
    apply Z.mul_le_mono_pos_r in H; lia. }
  destruct ((d <? 2 * r) || ((2 * r =? d) && Z.odd q)) eqn:E; [|lia].
  assert (Hr0 : 0 < r).
  { apply orb_true_iff in E. destruct E as [E | E].
    - apply Z.ltb_lt in E. lia.
    - apply andb_true_iff in E. destruct E as [E _]. apply Z.eqb_eq in E. lia. }
  split; [lia|].
  assert (q * d < hi * d) by lia.
  apply Z.mul_lt_mono_pos_r in H; lia.
Qed.

Lemma pow10_pos (k : Z) : 0 <= k -> 0 < 10 ^ k.
Proof. intros H. now apply Z.pow_pos_nonneg. Qed.

Lemma pow2_pos (k : Z) : 0 <= k -> 0 < 2 ^ k.
Proof. intros H. now apply Z.pow_pos_nonneg. Qed.

(** A decimal with an exponent that is not positive, read in one way. *)
Lemma decimal_between_scaled (lo hi : Z) (neg : bool) (c x : Z) :
  x <= 0 ->
  (decimal_between lo hi (Py.Dec neg c x)
   <-> lo * 10 ^ (- x) <= (if neg then - c else c) <= hi * 10 ^ (- x)).
Proof.
  intros Hx. unfold decimal_between. destruct (0 <=? x) eqn:E; [|tauto].
  apply Z.leb_le in E. assert (x = 0) as -> by lia. simpl. lia.
Qed.

(** The hundredths written for a decimal in 0..10 are in 0..1000. *)
Lemma hundredths_between (d : Py.pydecimal) :
  decimal_between 0 10 d -> 0 <= Py.hundredths d <= 1000.
Proof.
  destruct d as [neg c x| |]; unfold decimal_between, Py.hundredths;
    try contradiction.
  destruct (0 <=? x) eqn:E0.
  - apply Z.leb_le in E0. intros H.
    assert (E2 : (-2 <=? x) = true) by (apply Z.leb_le; lia). rewrite E2.
    rewrite Z.pow_add_r by lia. change (10 ^ 2) with 100.
    destruct neg; lia.
  - apply Z.leb_gt in E0. intros H. destruct (-2 <=? x) eqn:E2.
    + apply Z.leb_le in E2.
      assert (Hx : x = -1 \/ x = -2) by lia.
      destruct Hx as [-> | ->]; cbn in H |- *; destruct neg; lia.
    + apply Z.leb_gt in E2.
      assert (Hp : 10 ^ (- x) = 100 * 10 ^ (- x - 2)).
      { change 100 with (10 ^ 2). rewrite <- Z.pow_add_r by lia.
        f_equal. lia. }
      pose proof (pow10_pos (- x - 2) ltac:(lia)) as Hpos.
      destruct neg.
      * pose proof (div_half_even_between c (10 ^ (- x - 2)) (-1000) 0 Hpos
                      ltac:(lia)). lia.
      * pose proof (div_half_even_between c (10 ^ (- x - 2)) 0 1000 Hpos
                      ltac:(lia)). lia.
Qed.

(** *** From a float to a decimal *)

Lemma power_of_two_quotient (n g : Z) :
  0 <= n -> 0 < g -> (g | 2 ^ n) -> 2 ^ Z.log2 (2 ^ n / g) = 2 ^ n / g.
Proof.
  intros Hn Hg Hdiv.
  pose proof (pow2_pos n Hn) as Hp.
  assert (Hq : (2 ^ n / g | 2 ^ n)).
  { exists g. now apply Znumtheory.Zdivide_Zdiv_eq. }
  assert (Hqpos : 0 < 2 ^ n / g).
  { apply Z.div_str_pos. split; [assumption|]. now apply Z.divide_pos_le. }
  destruct (Zpow_facts.Zdivide_power_2 (2 ^ n / g) 2 n Hn ltac:(lia)
              (proj1 (prime_alt 2) Z.prime_2) Hq) as [j Hj].
  assert (0 <= j).
  { destruct (Z.lt_ge_cases j 0) as [Hneg|]; [|assumption].
    rewrite (Z.pow_neg_r 2 j Hneg) in Hj. lia. }
  rewrite Hj, Z.log2_pow2; [reflexivity | assumption].
Qed.

(** [Decimal.from_float] is exact. *)
Lemma decimal_from_float_between (lo hi : Z) (f : Py.pyfloat) :
  float_between lo hi f -> decimal_between lo hi (Py.decimal_from_float f).
Proof.
  destruct f as [neg m e| |]; unfold float_between, Py.decimal_from_float;
    try contradiction.
  destruct (0 <=? e) eqn:E.
  - unfold decimal_between. change (0 <=? 0) with true. cbv iota.
    change (10 ^ 0) with 1. destruct neg; lia.
  - apply Z.leb_gt in E. intros H.
    set (g := Z.gcd m (2 ^ (- e))). set (q := 2 ^ (- e) / g).
    pose proof (pow2_pos (- e) ltac:(lia)) as Hp.
    assert (Hg : 0 < g).
    { pose proof (Z.gcd_nonneg m (2 ^ (- e))).
      destruct (Z.eq_dec g 0) as [Hz|]; [|fold g in H0; lia].
      apply Z.gcd_eq_0_r in Hz. lia. }
    assert (Hgm : m = g * (m / g)).
    { apply Znumtheory.Zdivide_Zdiv_eq; [assumption | apply Z.gcd_divide_l]. }
    assert (Hgp : 2 ^ (- e) = g * q).
    { apply Znumtheory.Zdivide_Zdiv_eq; [assumption | apply Z.gcd_divide_r]. }
    assert (Hq : 2 ^ Z.log2 q = q).
    { apply power_of_two_quotient; [lia | assumption | apply Z.gcd_divide_r]. }
    apply decimal_between_scaled; [pose proof (Z.log2_nonneg q); lia|].
    rewrite Z.opp_involutive.
    replace (10 ^ Z.log2 q) with (q * 5 ^ Z.log2 q)
      by (change 10 with (2 * 5); rewrite Z.pow_mul_l; now rewrite Hq).
    pose proof (pow_pos_5 := Z.pow_pos_nonneg 5 (Z.log2 q) ltac:(lia) (Z.log2_nonneg q)).
    set (p5 := 5 ^ Z.log2 q) in *. set (mg := m / g) in *.
    rewrite Hgp in H. rewrite Hgm in H.
    destruct neg; nia.
Qed.

Lemma digits_upto_le (fuel : nat) (n j : Z) :
  1 <= j -> n < 10 ^ j -> Py.digits_upto fuel n <= j.
Proof.
  revert n j. induction fuel as [|k IH]; intros n j Hj Hn; cbn [Py.digits_upto];
    [assumption|].
  destruct (n <? 10) eqn:E; [assumption|]. apply Z.ltb_ge in E.
  assert (2 <= j).
  { destruct (Z.eq_dec j 1) as [->|]; [|lia]. change (10 ^ 1) with 10 in Hn. lia. }
  assert (Hp : 10 ^ j = 10 * 10 ^ (j - 1)).
  { change 10 with (10 ^ 1) at 2. rewrite <- Z.pow_add_r by lia. f_equal. lia. }
  assert (Hdiv : n / 10 < 10 ^ (j - 1)).
  { apply Z.div_lt_upper_bound; lia. }
  specialize (IH (n / 10) (j - 1) ltac:(lia) Hdiv). lia.
Qed.

Lemma num_digits_le (n j : Z) : 1 <= j -> n < 10 ^ j -> Py.num_digits n <= j.
Proof. apply digits_upto_le. Qed.

(** Rounding to five digits keeps a decimal inside 0..10. *)
Lemma fix_prec_between (d : Py.pydecimal) :
  decimal_between 0 10 d -> decimal_between 0 10 (Py.fix_prec max_digits d).
Proof.
  destruct d as [neg c x| |]; try (simpl; tauto).
  unfold Py.fix_prec, max_digits. intros H.
  destruct ((c =? 0) || (Py.num_digits c <=? 5)) eqn:E; [assumption|].
  apply orb_false_iff in E. destruct E as [Ec El].
  apply Z.eqb_neq in Ec. apply Z.leb_gt in El.
  set (len := Py.num_digits c) in *.
  assert (Hc5 : 10 ^ 5 <= c).
  { destruct (Z.lt_ge_cases c (10 ^ 5)) as [Hlt|]; [|assumption].
    pose proof (num_digits_le c 5 ltac:(lia) Hlt). fold len in H0. lia. }
  change (10 ^ 5) with 100000 in *.
  unfold decimal_between in H. destruct (0 <=? x) eqn:Ex.
  { apply Z.leb_le in Ex. pose proof (pow10_pos x Ex). destruct neg; nia. }
  apply Z.leb_gt in Ex. destruct neg; [lia|].
  set (j := - x) in *.
  assert (Hlen : len <= j + 2).
  { apply num_digits_le; [lia|].
    replace (j + 2) with (1 + j + 1) by lia.
    rewrite Z.pow_add_r, Z.pow_add_r by lia. change (10 ^ 1) with 10.
    pose proof (pow10_pos j ltac:(lia)). lia. }
  set (drop := len - 5) in *.
  assert (Hpj : 10 ^ j = 10 ^ (j - drop) * 10 ^ drop).
  { rewrite <- Z.pow_add_r by lia. f_equal. lia. }
  pose proof (pow10_pos drop ltac:(lia)) as Hd.
  pose proof (pow10_pos (j - drop) ltac:(lia)) as Hjd.
  pose proof (div_half_even_between c (10 ^ drop) 0 (10 * 10 ^ (j - drop)) Hd
                ltac:(nia)) as Hq.
  set (q := Py.div_half_even c (10 ^ drop)) in *.
  destruct (q =? 100000) eqn:Eq.
  - apply Z.eqb_eq in Eq. change (10 ^ (5 - 1)) with 10000.
    unfold decimal_between.
    assert (Hne : j - drop <> 0).
    { intros Hz. rewrite Hz in Hq. simpl in Hq. lia. }
    assert (Ex' : (0 <=? x + drop + 1) = (x + drop + 1 =? 0)).
    { unfold j in *. destruct (Z.eq_dec (x + drop + 1) 0) as [Hz|Hz].
      - rewrite Hz. reflexivity.
      - rewrite (proj2 (Z.eqb_neq _ _) Hz). apply Z.leb_gt. lia. }
    rewrite Ex'. destruct (x + drop + 1 =? 0) eqn:Ez.
    + apply Z.eqb_eq in Ez. rewrite Ez. simpl.
      replace (j - drop) with 1 in Hq by (unfold j; lia). simpl in Hq. lia.
    + apply Z.eqb_neq in Ez.
      replace (j - drop) with (1 + (- (x + drop + 1))) in Hq by (unfold j; lia).
      rewrite Z.pow_add_r in Hq by (unfold j in *; lia).
      change (10 ^ 1) with 10 in Hq. lia.
  - apply decimal_between_scaled; [unfold j in *; lia|].
    replace (- (x + drop)) with (j - drop) by (unfold j; lia). lia.
Qed.

Lemma create_decimal_from_float_between (f : Py.pyfloat) :
  float_between 0 10 f ->
  decimal_between 0 10 (Py.create_decimal_from_float max_digits f).
Proof.
  intros H. apply fix_prec_between. now apply decimal_from_float_between.
Qed.

(** ** What [Nota.save] writes *)

(** [Nota.clean] passes on a number in 0..10 (and on a float NaN, which
    compares with nothing), and on nothing else. *)
Lemma Nota_clean_rango (o : NotaObj) :
  Nota_clean o = Ok tt ->
  match obj_nota o with
  | PyInt z => 0 <= z <= 10
  | PyFloat f => f = Py.FNaN \/ float_between 0 10 f
  | PyDecimal d => decimal_between 0 10 d
  | PyNone | PyStr _ => False
  end.
Proof.
  unfold Nota_clean, py_lt, py_gt, py_compare, bind.
  destruct (obj_nota o) as [|z|f|d|s]; try discriminate.
  - destruct (Z.compare_spec z 0), (Z.compare_spec z 10); try discriminate; lia.
  - destruct f as [neg m e|neg|]; [| destruct neg; discriminate | now left].
    unfold Py.float_compare, float_between. intros H. right.
    destruct (0 <=? e).
    + destruct (Z.compare_spec ((if neg then - m else m) * 2 ^ e) 0),
        (Z.compare_spec ((if neg then - m else m) * 2 ^ e) 10);
        try discriminate; lia.
    + destruct (Z.compare_spec (if neg then - m else m) (0 * 2 ^ (- e))),
        (Z.compare_spec (if neg then - m else m) (10 * 2 ^ (- e)));
        try discriminate; lia.
  - destruct d as [neg c x|neg|]; [| destruct neg; discriminate | discriminate].
    unfold Py.decimal_compare, decimal_between. intros H.
    destruct (0 <=? x).
    + destruct (Z.compare_spec ((if neg then - c else c) * 10 ^ x) 0),
        (Z.compare_spec ((if neg then - c else c) * 10 ^ x) 10);
        try discriminate; lia.
    + destruct (Z.compare_spec (if neg then - c else c) (0 * 10 ^ (- x))),
        (Z.compare_spec (if neg then - c else c) (10 * 10 ^ (- x)));
        try discriminate; lia.
Qed.

Lemma finite_is_Dec (d : Py.pydecimal) :
  Py.is_finite d = true -> exists neg c x, d = Py.Dec neg c x.
Proof. destruct d as [neg c x| |]; try discriminate. intros _. now exists neg, c, x. Qed.

(** The value written after a [clean] that passed is in 0..10. *)
Lemma nota_db_value_rango (o : NotaObj) (h : Z) :
  Nota_clean o = Ok tt -> nota_db_value (obj_nota o) = Ok h -> 0 <= h <= 1000.
Proof.
  intros Hc. apply Nota_clean_rango in Hc. unfold nota_db_value, nota_to_python, bind.
  destruct (obj_nota o) as [|z|f|d|s]; try contradiction.
  - unfold Py.hundredths. change (-2 <=? 0) with true. cbv iota.
    change (10 ^ (0 + 2)) with 100.
    assert (E : (z <? 0) = false) by (apply Z.ltb_ge; lia). rewrite E.
    destruct (_ <=? _); intros H; inversion H; lia.
  - destruct Hc as [-> | Hf]; [discriminate|].
    apply create_decimal_from_float_between in Hf.
    destruct (Py.is_finite _); [|discriminate].
    apply hundredths_between in Hf.
    destruct (_ <=? _); intros H; inversion H; subst; assumption.
  - destruct (Py.is_finite d); [|discriminate].
    apply hundredths_between in Hc.
    destruct (_ <=? _); intros H; inversion H; subst; assumption.
Qed.

(** [Nota.save] changes the table of grades by one row, which is in
    range, and no other table. *)
Lemma Nota_save_notas (o o' : NotaObj) (db db' : DB) :
  Nota_save o db = Ok (o', db') ->
  forall n, In n (notas db') -> In n (notas db) \/ nota_en_rango n.
Proof.
  unfold Nota_save, Model_save, bind.
  destruct (Nota_clean o) as [[]|] eqn:Hc; [|discriminate].
  destruct (nota_db_value (obj_nota o)) as [h|] eqn:Hh; [|discriminate].
  pose proof (nota_db_value_rango o h Hc Hh) as Hr.
  destruct (obj_alumno o) as [a|]; [|discriminate].
  destruct (obj_actividad o) as [k|]; [|discriminate].
  destruct (constraints_ok _ a k db); [|discriminate].
  intros H. inversion H; subst; clear H. simpl. intros n Hn.
  destruct (existsb _ (notas db)).
  - apply in_map_iff in Hn. destruct Hn as [n0 [Hn0 Hin]].
    destruct (nota_id n0 =? _); subst; [now right | now left].
  - apply in_app_iff in Hn. destruct Hn as [Hn | [<- | []]]; [now left | now right].
Qed.

(** ** Every view keeps the grades in range *)

Lemma filter_notas_incl (p : Nota -> bool) (l : list Nota) (n : Nota) :
  In n (filter p l) -> In n l.
Proof. intros H. now apply filter_In in H. Qed.

Lemma registro_de_notas_notas (u : Z) (req : request) (db : DB) (n : Nota) :
  In n (notas (out_db (registro_de_notas u req db))) ->
  In n (notas db) \/ nota_en_rango n.
Proof.
  unfold registro_de_notas.
  destruct (req_method req); [now left|].
  destruct (fuera_de_rango _); [now left|].
  destruct (duplicado_o_no_inscrito _ _ db); try (now left).
  destruct (NotaForm_full_clean u _ db) as [form|]; [|now left].
  destruct (is_valid form); [|now left].
  destruct (Nota_save (form_instance form) db) as [[o' db']|] eqn:Hs; [|now left].
  simpl. now apply (Nota_save_notas _ _ _ _ Hs).
Qed.

Lemma editar_nota_notas (i u : Z) (req : request) (db : DB) (n : Nota) :
  In n (notas (out_db (editar_nota i u req db))) ->
  In n (notas db) \/ nota_en_rango n.
Proof.
  unfold editar_nota.
  destruct (nota_del_profesor u i db) as [row|]; [|now left].
  destruct (req_method req); [now left|].
  destruct (Py.float_of_str _) as [f|]; [|now left].
  destruct (_ && _); [|now left].
  unfold bind.
  destruct (Nota_full_clean _ _ _ db) as [o1|e]; [|destruct e; now left].
  destruct (Nota_save o1 db) as [[o' db']|e] eqn:Hs; [|destruct e; now left].
  simpl. now apply (Nota_save_notas _ _ _ _ Hs).
Qed.

Lemma vista_notas (valid_email : string -> bool) (parse_fecha : string -> option Z)
  (op : operacion) (req : request) (db : DB) (n : Nota) :
  In n (notas (out_db (vista valid_email parse_fecha op req db))) ->
  In n (notas db) \/ nota_en_rango n.
Proof.
  unfold vista, login_required. destruct (req_user req) as [u|]; [|now left].
  destruct op as [|i|i| |i|i| |i|i| |i|i].
  - unfold crear_alumno. destruct (req_method req); [now left|].
    destruct (AlumnoForm_clean _ _ _ _ db) as [[|e es] r]; now left.
  - unfold editar_alumno. destruct (get_alumno i _); [|now left].
    destruct (req_method req); [now left|].
    destruct (AlumnoForm_clean _ _ _ _ db) as [[|e es] r]; now left.
  - unfold eliminar_alumno. destruct (get_alumno i _); [|now left].
    destruct (req_method req); [now left|]. simpl. intros H. left.
    now apply filter_notas_incl in H.
  - unfold crear_materia. destruct (req_method req); [now left|].
    destruct (MateriaForm_clean _) as [[|e es] r]; now left.
  - unfold editar_materia. destruct (materia_del_profesor u i db); [|now left].
    destruct (req_method req); [now left|].
    destruct (MateriaForm_clean _) as [[|e es] r]; now left.
  - unfold eliminar_materia. destruct (materia_del_profesor u i db); [|now left].
    destruct (req_method req); [now left|]. simpl. intros H. left.
    now apply filter_notas_incl in H.
  - unfold crear_actividad. destruct (req_method req); [now left|].
    destruct (ActividadForm_clean _ _ _ _ db) as [[|e es] r]; now left.
  - unfold editar_actividad. destruct (actividad_del_profesor u i db); [|now left].
    destruct (req_method req); [now left|].
    destruct (ActividadForm_clean _ _ _ _ db) as [[|e es] r]; now left.
  - unfold eliminar_actividad. destruct (actividad_del_profesor u i db); [|now left].
    destruct (req_method req); [now left|]. simpl. intros H. left.
    now apply filter_notas_incl in H.
  - apply registro_de_notas_notas.
  - apply editar_nota_notas.
  - unfold eliminar_nota. destruct (nota_del_profesor u i db); [|now left].
    destruct (req_method req); [now left|]. simpl. intros H. left.
    now apply filter_notas_incl in H.
Qed.

Lemma paso_conserva_rango (valid_email : string -> bool)
  (parse_fecha : string -> option Z) (db db' : DB) :
  paso valid_email parse_fecha db db' ->
  (forall n, In n (notas db) -> nota_en_rango n) ->
  forall n, In n (notas db') -> nota_en_rango n.
Proof.
  intros Hp Hinv n Hn. destruct Hp as [op req db | o o' db db' Hs | db db' Hincl].
  - apply vista_notas in Hn. destruct Hn; auto.
  - apply (Nota_save_notas _ _ _ _ Hs) in Hn. destruct Hn; auto.
  - auto.
Qed.

(** C10. In every database a run reaches from the empty one, by the views
    on any requests, by [Nota.save] called directly on any object, holding
    any Python value, and by writes that add no grade, every grade of the
    table is in 0..10 (its hundredths in 0..1000): a grade is only written
    by [Nota.save], after [Nota.clean] passed. *)
Theorem notas_alcanzables_en_rango (valid_email : string -> bool)
  (parse_fecha : string -> option Z) (db : DB) :
  alcanzable valid_email parse_fecha db ->
  forall n, In n (notas db) -> nota_en_rango n.
Proof.
  intros H. induction H as [|db db' _ IH Hp].
  - intros n [].
  - now apply (paso_conserva_rango valid_email parse_fecha db db').
Qed.

(** The run of [aula] ends with Alice's grade 8.50; a [save()] by hand with
    the float 9.99 then leaves 9.99; both are in range. *)
Lemma notas_alcanzables_en_rango_witness :
  notas aula = [mkNota 1 1 1 850]
  /\ notas aula_a_mano = [mkNota 1 1 1 999]
  /\ (forall n, In n (notas aula) -> nota_en_rango n)
  /\ (forall n, In n (notas aula_a_mano) -> nota_en_rango n).
Proof.
  assert (Haula : alcanzable siempre un_dia aula).
  { unfold aula. repeat (eapply alcanzable_paso; [|apply paso_vista]).
    apply alcanzable_vacia. }
  split; [vm_compute; reflexivity|]. split; [vm_compute; reflexivity|]. split.
  - exact (notas_alcanzables_en_rango siempre un_dia aula Haula).
  - apply (notas_alcanzables_en_rango siempre un_dia).
    apply (alcanzable_paso siempre un_dia aula aula_a_mano Haula).
    apply (paso_save siempre un_dia nota_a_mano nota_a_mano aula aula_a_mano).
    vm_compute. reflexivity.
Defined.

(** ** The float of a literal in range is in range *)

Lemma binary64_between (n d : Z) :
  0 <= n -> 0 < d -> n <= 10 * d -> float_between 0 10 (Py.binary64 false n d).
Proof.
  intros Hn Hd Hle. unfold Py.binary64.
  destruct (n =? 0) eqn:En; [cbn; lia|]. apply Z.eqb_neq in En.
  set (e0 := Z.log2 n - Z.log2 d - 52).
  destruct (Py.scale2 n d e0) as [n0 d0].
  set (e := Z.max (if d0 * 2 ^ 52 <=? n0 then e0 else e0 - 1) (-1074)).
  assert (He : e < 0).
  { assert (Z.log2 n <= 4 + Z.log2 d).
    { rewrite <- (Z.log2_mul_pow2 d 4) by lia. apply Z.log2_le_mono.
      change (2 ^ 4) with 16. lia. }
    unfold e, e0. destruct (d0 * 2 ^ 52 <=? n0); lia. }
  clearbody e. unfold Py.scale2.
  assert (E : (0 <=? e) = false) by (apply Z.leb_gt; assumption). rewrite E.
  pose proof (pow2_pos (- e) ltac:(lia)) as Hp.
  pose proof (div_half_even_between (n * 2 ^ (- e)) d 0 (10 * 2 ^ (- e)) Hd
                ltac:(nia)) as Hm.
  set (m := Py.div_half_even (n * 2 ^ (- e)) d) in *. clearbody m.
  destruct (m =? 0) eqn:Em; [cbn; lia|]. apply Z.eqb_neq in Em.
  assert (Hov : (1024 <=? Z.log2 m + e) = false).
  { apply Z.leb_gt.
    assert (Z.log2 m < 4 - e); [|lia].
    apply Z.log2_lt_pow2; [lia|].
    replace (4 - e) with (4 + - e) by lia. rewrite Z.pow_add_r by lia.
    change (2 ^ 4) with 16. lia. }
  rewrite Hov. unfold float_between. rewrite E. lia.
Qed.

Lemma literal_float_between (neg : bool) (c x : Z) :
  0 <= c -> decimal_between 0 10 (Py.Dec neg c x) ->
  float_between 0 10 (Py.float_of_literal (Py.LitNum neg c x)).
Proof.
  intros Hc. unfold decimal_between, Py.float_of_literal.
  destruct (0 <=? x) eqn:Ex.
  - apply Z.leb_le in Ex. pose proof (pow10_pos x Ex) as Hp. intros H.
    destruct neg.
    + assert (c = 0) as -> by nia. cbn. lia.
    + apply binary64_between; nia.
  - apply Z.leb_gt in Ex. pose proof (pow10_pos (- x) ltac:(lia)) as Hp. intros H.
    destruct neg.
    + assert (c = 0) as -> by lia. cbn. lia.
    + apply binary64_between; lia.
Qed.

(** The view's two comparisons against the exact value of the float. *)
Lemma float_lt_gt_outside (f : Py.pyfloat) :
  Py.float_lt f 0 || Py.float_gt f 10 = true <-> float_outside f.
Proof.
  unfold Py.float_lt, Py.float_gt, Py.float_compare, float_outside, float_between.
  destruct f as [neg m e|neg|]; [| destruct neg; simpl; tauto | simpl; intuition discriminate].
  destruct (0 <=? e).
  - destruct (Z.compare_spec ((if neg then - m else m) * 2 ^ e) 0),
      (Z.compare_spec ((if neg then - m else m) * 2 ^ e) 10);
      cbn [orb]; (split; [intros Hb Hbet | intros Hno]);
      first [discriminate | reflexivity | lia | (contradict Hno; lia)].
  - destruct (Z.compare_spec (if neg then - m else m) (0 * 2 ^ (- e))),
      (Z.compare_spec (if neg then - m else m) (10 * 2 ^ (- e)));
      cbn [orb]; (split; [intros Hb Hbet | intros Hno]);
      first [discriminate | reflexivity | lia | (contradict Hno; lia)].
Qed.

Lemma float_ge_le_between (f : Py.pyfloat) :
  Py.float_ge f 0 && Py.float_le f 10 = true <-> float_between 0 10 f.
Proof.
  unfold Py.float_ge, Py.float_le, Py.float_compare, float_between.
  destruct f as [neg m e|neg|]; [| destruct neg; simpl; intuition discriminate
                                 | simpl; intuition discriminate].
  destruct (0 <=? e).
  - destruct (Z.compare_spec ((if neg then - m else m) * 2 ^ e) 0),
      (Z.compare_spec ((if neg then - m else m) * 2 ^ e) 10);
      cbn [andb]; split; intros; try discriminate; try reflexivity; lia.
  - destruct (Z.compare_spec (if neg then - m else m) (0 * 2 ^ (- e))),
      (Z.compare_spec (if neg then - m else m) (10 * 2 ^ (- e)));
      cbn [andb]; split; intros; try discriminate; try reflexivity; lia.
Qed.

Lemma float_between_not_outside (f : Py.pyfloat) :
  float_between 0 10 f -> Py.float_lt f 0 || Py.float_gt f 10 = false.
Proof.
  intros H. apply not_true_iff_false. intros Ho. apply float_lt_gt_outside in Ho.
  destruct f; simpl in *; tauto.
Qed.

(** ** Recording a grade: the form and the save *)

Lemma read_digits_nonneg (s : list ascii) (acc cnt v n : Z) (r : list ascii) :
  Py.read_digits acc cnt s = (v, n, r) -> 0 <= acc -> 0 <= v.
Proof.
  revert acc cnt. induction s as [|c s IH]; intros acc cnt; cbn [Py.read_digits].
  - intros H; inversion H; subst; auto.
  - destruct (Py.is_digit c) eqn:Ed.
    + intros H Hacc. apply (IH _ _ H). unfold Py.is_digit in Ed.
      apply andb_true_iff in Ed. destruct Ed as [Ed _]. apply Z.leb_le in Ed.
      unfold Py.digit_val. lia.
    + intros H; inversion H; subst; auto.
Qed.

Lemma read_number_nonneg (neg neg' : bool) (s : list ascii) (c x : Z) :
  Py.read_number neg s = Some (Py.LitNum neg' c x) -> 0 <= c.
Proof.
  unfold Py.read_number.
  destruct (Py.read_digits 0 0 s) as [[ip ni] s2] eqn:E1.
  pose proof (read_digits_nonneg _ _ _ _ _ _ E1 (Z.le_refl 0)) as Hip.
  assert (Hco : forall co nf s3,
             match s2 with
             | ch :: r => if Ascii.eqb ch "."%char then Py.read_digits ip 0 r
                          else (ip, 0, s2)
             | [] => (ip, 0, s2)
             end = (co, nf, s3) -> 0 <= co).
  { intros co nf s3. destruct s2 as [|ch r].
    - intros H; inversion H; subst; auto.
    - destruct (Ascii.eqb ch "."%char).
      + intros H. apply (read_digits_nonneg _ _ _ _ _ _ H Hip).
      + intros H; inversion H; subst; auto. }
  destruct (match s2 with [] => _ | _ => _ end) as [[co nf] s3] eqn:E2.
  specialize (Hco _ _ _ eq_refl).
  destruct (ni + nf =? 0); [discriminate|].
  destruct s3 as [|ch r].
  - intros H; inversion H; subst; auto.
  - destruct (Ascii.eqb (Py.lower ch) "e"%char); [|discriminate].
    destruct (Py.read_sign r) as [eneg r1].
    destruct (Py.read_digits 0 0 r1) as [[ev ne] r2].
    destruct r2; [|discriminate]. destruct (ne =? 0); [discriminate|].
    intros H; inversion H; subst; auto.
Qed.

Lemma decimal_of_str_nonneg (s : string) (neg : bool) (c x : Z) :
  Py.decimal_of_str s = Some (Py.Dec neg c x) -> 0 <= c.
Proof.
  unfold Py.decimal_of_str, Py.decimal_literal.
  destruct (Py.read_sign _) as [sg s1].
  destruct (_ || _); [discriminate|].
  assert (Hnum : option_map Py.decimal_of_literal (Py.read_number sg s1)
                 = Some (Py.Dec neg c x) -> 0 <= c).
  { destruct (Py.read_number sg s1) as [[n' c' x'| |]|] eqn:E; try discriminate.
    intros H; inversion H; subst. now apply read_number_nonneg in E. }
  destruct (map Py.lower s1) as [|c1 l]; [assumption|].
  repeat match goal with
         | |- context [match ?l with [] => _ | _ :: _ => _ end] =>
             destruct l; try assumption
         | |- context [match ?c with Ascii _ _ _ _ _ _ _ _ => _ end] =>
             destruct c as [[] [] [] [] [] [] [] []]; try assumption
         | |- context [if ?b then Some (Py.LitNaN _) else None] =>
             destruct b; try discriminate
         end.
Qed.

Lemma truthy_float (s : string) (f : Py.pyfloat) :
  Py.float_of_str s = Some f -> truthy (Some s) = true.
Proof.
  intros H. unfold truthy. destruct (String.eqb s "") eqn:E; [|reflexivity].
  apply String.eqb_eq in E. subst s. discriminate H.
Qed.

Lemma truthy_decimal (s : string) (d : Py.pydecimal) :
  Py.decimal_of_str s = Some d -> truthy (Some s) = true.
Proof.
  intros H. unfold truthy. destruct (String.eqb s "") eqn:E; [|reflexivity].
  apply String.eqb_eq in E. subst s. discriminate H.
Qed.

(** The first manual check rejects exactly the texts that [float()] reads
    as a number outside 0..10. *)
Lemma fuera_de_rango_spec (nota_str : option string) :
  fuera_de_rango nota_str = true
  <-> exists s f, nota_str = Some s /\ Py.float_of_str s = Some f /\ float_outside f.
Proof.
  unfold fuera_de_rango. split.
  - destruct (truthy nota_str); [|discriminate].
    destruct nota_str as [s|]; [|discriminate].
    destruct (Py.float_of_str s) as [f|] eqn:Hf; [|discriminate].
    intros H. exists s, f. split; [reflexivity|]. split; [assumption|].
    now apply float_lt_gt_outside.
  - intros (s & f & -> & Hf & Ho). rewrite (truthy_float _ _ Hf), Hf.
    now apply float_lt_gt_outside.
Qed.

(** A text both readers take as the same literal, in range as a decimal,
    passes the view's float check. *)
Lemma en_rango_no_fuera (s : string) (d : Py.pydecimal) :
  Py.decimal_of_str s = Some d ->
  Py.float_literal s = None \/ Py.float_literal s = Py.decimal_literal s ->
  decimal_between 0 10 d ->
  fuera_de_rango (Some s) = false.
Proof.
  intros Hd Hagree Hb. unfold fuera_de_rango.
  rewrite (truthy_decimal _ _ Hd). unfold Py.float_of_str.
  destruct Hagree as [-> | ->]; [reflexivity|].
  unfold Py.decimal_of_str in Hd.
  destruct (Py.decimal_literal s) as [l|] eqn:El; [|discriminate].
  simpl in Hd. injection Hd as <-. simpl.
  destruct l as [neg c x|neg|neg]; simpl in Hb; try contradiction.
  apply float_between_not_outside. apply literal_float_between; [|assumption].
  apply (decimal_of_str_nonneg s neg c x). unfold Py.decimal_of_str. now rewrite El.
Qed.

(** ** [float()] and [Decimal()] read the same literal *)

Lemma lstrip_all (sp : ascii -> bool) (l : list ascii) :
  forallb (fun c => negb (sp c)) l = true -> Py.lstrip sp l = l.
Proof.
  destruct l as [|c r]; [reflexivity|]. cbn [forallb Py.lstrip].
  intros H. apply andb_true_iff in H. destruct H as [H _].
  apply negb_true_iff in H. now rewrite H.
Qed.

Lemma lstrip_lstrip (sp1 sp2 : ascii -> bool) (l : list ascii) :
  (forall c, sp1 c = true -> sp2 c = true) ->
  Py.lstrip sp2 (Py.lstrip sp1 l) = Py.lstrip sp2 l.
Proof.
  intros Hsub. induction l as [|c r IH]; [reflexivity|]. cbn [Py.lstrip].
  destruct (sp1 c) eqn:E1; [|reflexivity].
  now rewrite (Hsub c E1).
Qed.

Lemma lstrip_split (sp : ascii -> bool) (l : list ascii) :
  exists pre, l = pre ++ Py.lstrip sp l /\ forallb sp pre = true.
Proof.
  induction l as [|c r [pre [Heq Hpre]]]; [now exists []|]. cbn [Py.lstrip].
  destruct (sp c) eqn:E.
  - exists (c :: pre). cbn [app forallb]. rewrite E, Hpre. split; [now f_equal | reflexivity].
  - now exists [].
Qed.

Lemma lstrip_app (sp : ascii -> bool) (pre l : list ascii) :
  forallb sp pre = true -> Py.lstrip sp (pre ++ l) = Py.lstrip sp l.
Proof.
  induction pre as [|c r IH]; [reflexivity|]. cbn [forallb app Py.lstrip].
  intros H. apply andb_true_iff in H. destruct H as [Hc Hr]. rewrite Hc. now apply IH.
Qed.

Lemma strip_wider (sp1 sp2 : ascii -> bool) (x : list ascii) :
  (forall c, sp1 c = true -> sp2 c = true) ->
  Py.strip sp1 x <> [] ->
  forallb (fun c => negb (sp2 c)) (Py.strip sp1 x) = true ->
  Py.strip sp2 x = Py.strip sp1 x.
Proof.
  intros Hsub Hne Hok. unfold Py.strip in *.
  set (x1 := Py.lstrip sp1 x) in *. set (z := Py.lstrip sp1 (rev x1)) in *.
  destruct (lstrip_split sp1 (rev x1)) as [pre [Heq Hpre]]. fold z in Heq.
  assert (Hx1 : x1 = rev z ++ rev pre).
  { rewrite <- (rev_involutive x1), Heq. apply rev_app_distr. }
  assert (Hz : forallb (fun c => negb (sp2 c)) z = true).
  { apply forallb_forall. intros c Hc. rewrite forallb_forall in Hok.
    apply Hok. now apply in_rev in Hc. }
  assert (H1 : Py.lstrip sp2 x = x1).
  { rewrite <- (lstrip_lstrip sp1 sp2 x Hsub). fold x1. rewrite Hx1.
    destruct (rev z) as [|c r] eqn:Er; [contradiction|].
    cbn [forallb] in Hok. apply andb_true_iff in Hok. destruct Hok as [Hc _].
    apply negb_true_iff in Hc. cbn [app Py.lstrip]. now rewrite Hc. }
  rewrite H1, Heq, lstrip_app.
  - now rewrite (lstrip_all sp2 z Hz).
  - apply forallb_forall. intros c Hc. rewrite forallb_forall in Hpre. auto.
Qed.

Lemma drop_remove_underscores (b : bool) (y s : list ascii) :
  Py.drop_underscores b y = Some s ->
  Py.remove_underscores y = s
  /\ (forallb no_space s = true -> forallb no_space y = true)
  /\ (s <> [] -> y <> []).
Proof.
  revert b s. induction y as [|c r IH]; intros b s; cbn [Py.drop_underscores].
  - intros H. injection H as <-. repeat split; auto.
  - unfold Py.remove_underscores. cbn [filter].
    destruct (Ascii.eqb c "_"%char) eqn:Ec.
    + apply Ascii.eqb_eq in Ec. subst c. cbn [negb].
      destruct r as [|d r']; [discriminate|].
      destruct (b && Py.is_digit d); [|discriminate].
      intros H. destruct (IH _ _ H) as (H1 & H2 & H3).
      repeat split; [assumption | | discriminate].
      intros Hs.
      change (forallb no_space ("_"%char :: d :: r')) with (forallb no_space (d :: r')).
      exact (H2 Hs).
    + cbn [negb]. destruct (Py.drop_underscores (Py.is_digit c) r) as [s'|] eqn:E;
        [|discriminate].
      intros H. injection H as <-. destruct (IH _ _ E) as (H1 & H2 & H3).
      repeat split; [now f_equal | | discriminate].
      cbn [forallb]. intros Hs. apply andb_true_iff in Hs. destruct Hs as [Hc Hs].
      now rewrite Hc, (H2 Hs).
Qed.

Lemma read_digits_split (s : list ascii) (acc cnt v n : Z) (r : list ascii) :
  Py.read_digits acc cnt s = (v, n, r) ->
  exists ds, s = ds ++ r /\ forallb Py.is_digit ds = true.
Proof.
  revert acc cnt. induction s as [|c s IH]; intros acc cnt; cbn [Py.read_digits].
  - intros H. injection H as _ _ <-. now exists [].
  - destruct (Py.is_digit c) eqn:Ed.
    + intros H. destruct (IH _ _ H) as [ds [Heq Hds]]. exists (c :: ds).
      cbn [app forallb]. rewrite Ed, Hds. split; [now f_equal | reflexivity].
    + intros H. injection H as _ _ <-. now exists [].
Qed.

Lemma digit_no_space (c : ascii) : Py.is_digit c = true -> no_space c = true.
Proof.
  unfold Py.is_digit, no_space, Py.str_isspace, Py.is_space. intros H.
  apply andb_true_iff in H. destruct H as [H _]. apply Z.leb_le in H.
  apply negb_true_iff, orb_false_iff. split; [apply orb_false_iff; split|].
  - apply andb_false_iff. right. apply Z.leb_gt. lia.
  - apply Z.eqb_neq. lia.
  - apply andb_false_iff. right. apply Z.leb_gt. lia.
Qed.

Lemma digits_no_space (ds : list ascii) :
  forallb Py.is_digit ds = true -> forallb no_space ds = true.
Proof.
  rewrite !forallb_forall. intros H c Hc. apply digit_no_space. auto.
Qed.

Lemma lower_no_space (c : ascii) : no_space (Py.lower c) = true -> no_space c = true.
Proof.
  destruct c as [[] [] [] [] [] [] [] []]; vm_compute; intros H; exact H.
Qed.

Lemma map_lower_no_space (s w : list ascii) :
  map Py.lower s = w -> forallb no_space w = true -> forallb no_space s = true.
Proof.
  revert w. induction s as [|c s IH]; intros w; [reflexivity|]. cbn [map].
  intros <-. cbn [forallb]. intros H. apply andb_true_iff in H. destruct H as [Hc Hs].
  rewrite (lower_no_space c Hc). now apply (IH _ eq_refl).
Qed.

Lemma eqb_nocase_spec (s : list ascii) (w : string) :
  Py.eqb_nocase s w = true -> map Py.lower s = list_ascii_of_string w.
Proof.
  unfold Py.eqb_nocase. intros H. apply String.eqb_eq in H. rewrite <- H.
  now rewrite list_ascii_of_string_of_list_ascii.
Qed.

Lemma read_sign_split (s s1 : list ascii) (neg : bool) :
  Py.read_sign s = (neg, s1) ->
  s = s1 \/ exists c, s = c :: s1 /\ no_space c = true.
Proof.
  destruct s as [|c r]; cbn [Py.read_sign].
  - intros H. injection H as _ <-. now left.
  - destruct (Ascii.eqb c "-"%char) eqn:E1.
    + apply Ascii.eqb_eq in E1. subst c. intros H. injection H as _ <-.
      right. now exists "-"%char.
    + destruct (Ascii.eqb c "+"%char) eqn:E2.
      * apply Ascii.eqb_eq in E2. subst c. intros H. injection H as _ <-.
        right. now exists "+"%char.
      * intros H. injection H as _ <-. now left.
Qed.

(** A number starts with a digit or the point, and has no blank. *)
Lemma read_number_shape (neg : bool) (s : list ascii) (l : Py.numlit) :
  Py.read_number neg s = Some l ->
  forallb no_space s = true
  /\ exists c r, s = c :: r /\ (Py.is_digit c = true \/ c = "."%char).
Proof.
  unfold Py.read_number.
  destruct (Py.read_digits 0 0 s) as [[ip ni] s2] eqn:E1.
  destruct (read_digits_split _ _ _ _ _ _ E1) as [ds1 [Hs Hds1]].
  destruct (match s2 with [] => _ | _ => _ end) as [[co nf] s3] eqn:E2.
  destruct (ni + nf =? 0) eqn:En; [discriminate|]. apply Z.eqb_neq in En.
  intros Hl.
  assert (Htail : forallb no_space s3 = true).
  { destruct s3 as [|ch r]; [reflexivity|].
    destruct (Ascii.eqb (Py.lower ch) "e"%char) eqn:Ee; [|discriminate].
    apply Ascii.eqb_eq in Ee.
    destruct (Py.read_sign r) as [eneg r1] eqn:Es.
    destruct (Py.read_digits 0 0 r1) as [[ev ne] r2] eqn:E3.
    destruct r2; [|discriminate].
    destruct (read_digits_split _ _ _ _ _ _ E3) as [ds3 [Hr1 Hds3]].
    rewrite app_nil_r in Hr1. subst r1.
    cbn [forallb]. rewrite (lower_no_space ch) by now rewrite Ee.
    destruct (read_sign_split _ _ _ Es) as [-> | [c [-> Hc]]].
    - now apply digits_no_space.
    - cbn [forallb]. rewrite Hc. now apply digits_no_space. }
  assert (Hs2 : forallb no_space s2 = true
                /\ (ds1 = [] -> exists r, s2 = "."%char :: r)).
  { destruct s2 as [|ch r].
    - injection E2 as _ <- _. subst s. rewrite app_nil_r in E1.
      split; [reflexivity|]. intros ->. cbn in E1. injection E1 as _ <-. lia.
    - destruct (Ascii.eqb ch "."%char) eqn:Ep.
      + apply Ascii.eqb_eq in Ep. subst ch.
        destruct (read_digits_split _ _ _ _ _ _ E2) as [ds2 [Hr Hds2]]. subst r.
        split; [|intros _; now eexists].
        cbn [forallb]. rewrite forallb_app, (digits_no_space _ Hds2), Htail. reflexivity.
      + injection E2 as _ <- <-. split; [assumption|]. intros ->.
        cbn [app] in Hs. subst s. cbn [Py.read_digits] in E1.
        destruct (Py.is_digit ch) eqn:Ed.
        * destruct (read_digits_split _ _ _ _ _ _ E1) as [ds [Hr _]].
          exfalso.
          assert (Hlen : List.length r = List.length (ds ++ ch :: r)) by now rewrite <- Hr.
          rewrite List.length_app in Hlen. cbn in Hlen. lia.
        * injection E1 as _ <-. lia. }
  destruct Hs2 as [Hs2 Hdot]. split.
  - rewrite Hs, forallb_app, (digits_no_space _ Hds1), Hs2. reflexivity.
  - destruct ds1 as [|c ds]; [destruct (Hdot eq_refl) as [r Hr]|].
    + exists "."%char, r. split; [now rewrite Hs, Hr | now right].
    + exists c, (ds ++ s2). split; [now rewrite Hs|]. left.
      cbn [forallb] in Hds1. now apply andb_true_iff in Hds1.
Qed.

Lemma float_literal_decimal_literal (t : string) (l : Py.numlit) :
  Py.float_literal t = Some l -> Py.decimal_literal t = Some l.
Proof.
  unfold Py.float_literal, Py.decimal_literal.
  set (x := list_ascii_of_string t).
  destruct (Py.drop_underscores false (Py.strip Py.is_space x)) as [s|] eqn:Ed;
    [|discriminate].
  destruct (drop_remove_underscores _ _ _ Ed) as (Hrem & Hok & Hne).
  destruct (Py.read_sign s) as [neg s1] eqn:Es. intros Hl.
  assert (Hshape : forallb no_space s1 = true /\ s1 <> []).
  { destruct (Py.eqb_nocase s1 "inf" || Py.eqb_nocase s1 "infinity") eqn:Ei.
    - apply orb_true_iff in Ei. destruct Ei as [Ei | Ei];
        apply eqb_nocase_spec in Ei; (split; [now apply (map_lower_no_space _ _ Ei)|]);
        intros ->; discriminate.
    - destruct (Py.eqb_nocase s1 "nan") eqn:En.
      + apply eqb_nocase_spec in En. split; [now apply (map_lower_no_space _ _ En)|].
        intros ->; discriminate.
      + destruct (read_number_shape _ _ _ Hl) as [H [c [r [-> _]]]].
        split; [assumption | discriminate]. }
  destruct Hshape as [Hs1 Hne1].
  assert (Hs : forallb no_space s = true /\ s <> []).
  { destruct (read_sign_split _ _ _ Es) as [-> | [c [-> Hc]]].
    - now split.
    - split; [|discriminate]. cbn [forallb]. now rewrite Hc. }
  destruct Hs as [Hs Hnes].
  assert (Hstrip : Py.strip Py.str_isspace x = Py.strip Py.is_space x).
  { apply strip_wider.
    - intros c Hc. unfold Py.str_isspace. now rewrite Hc.
    - now apply Hne.
    - specialize (Hok Hs). unfold no_space in Hok. exact Hok. }
  rewrite Hstrip, Hrem, Es.
  destruct (Py.eqb_nocase s1 "inf" || Py.eqb_nocase s1 "infinity"); [assumption|].
  destruct (Py.eqb_nocase s1 "nan") eqn:En.
  - apply eqb_nocase_spec in En. rewrite En. exact Hl.
  - destruct (read_number_shape _ _ _ Hl) as [_ [c [r [-> Hc]]]]. cbn [map].
    destruct c as [[] [] [] [] [] [] [] []];
      try (exfalso; destruct Hc as [Hc | Hc]; vm_compute in Hc; discriminate);
      exact Hl.
Qed.

Lemma literals_agree (s : string) :
  Py.float_literal s = None \/ Py.float_literal s = Py.decimal_literal s.
Proof.
  destruct (Py.float_literal s) as [l|] eqn:E; [right | now left].
  symmetry. now apply float_literal_decimal_literal.
Qed.

Lemma Nota_clean_decimal (o : NotaObj) (d : Py.pydecimal) :
  obj_nota o = PyDecimal d -> decimal_between 0 10 d -> Nota_clean o = Ok tt.
Proof.
  intros Ho. unfold Nota_clean, py_lt, py_gt, py_compare, bind. rewrite Ho.
  destruct d as [neg c x| |]; try contradiction.
  unfold decimal_between, Py.decimal_compare. destruct (0 <=? x); intros H.
  - destruct (Z.compare_spec ((if neg then - c else c) * 10 ^ x) 0),
      (Z.compare_spec ((if neg then - c else c) * 10 ^ x) 10);
      try reflexivity; lia.
  - destruct (Z.compare_spec (if neg then - c else c) (0 * 10 ^ (- x))),
      (Z.compare_spec (if neg then - c else c) (10 * 10 ^ (- x)));
      try reflexivity; lia.
Qed.

Lemma validator_finite (d : Py.pydecimal) :
  DecimalValidator max_digits decimal_places d = None -> Py.is_finite d = true.
Proof. destruct d; [reflexivity | discriminate | discriminate]. Qed.

Lemma clean_decimal_ok (s : string) (d : Py.pydecimal) :
  Py.decimal_of_str s = Some d ->
  clean_decimal "nota" (Some s)
  = match DecimalValidator max_digits decimal_places d with
    | Some e => ([mkError "nota" (decimal_error_text e)], None)
    | None => ([], Some d)
    end.
Proof.
  intros Hd. unfold clean_decimal. now rewrite (truthy_decimal _ _ Hd), Hd.
Qed.

Lemma clean_choice_ok {A : Type} (name s : string) (i : Z) (get : Z -> option A) (x : A) :
  Py.int_of_str s = Some i -> get i = Some x ->
  clean_choice name get (Some s) = ([], Some x).
Proof.
  intros Hs Hg. unfold clean_choice. now rewrite (truthy_int _ _ Hs), Hs, Hg.
Qed.

Lemma existsb_pair_false (a k : Z) (db : DB) (p : Nota -> bool) :
  existe_nota a k db = false ->
  existsb (fun n => (nota_alumno n =? a) && (nota_actividad n =? k) && p n) (notas db)
  = false.
Proof.
  unfold existe_nota. intros H. apply not_true_iff_false. intros He.
  apply not_true_iff_false in H. apply H.
  apply existsb_exists in He. destruct He as [n [Hn Hb]].
  apply existsb_exists. exists n. split; [assumption|].
  apply andb_true_iff in Hb. tauto.
Qed.

Lemma Nota_full_clean_sin_nota (exclude : list string) (b : bool) (a k : option Z)
  (db : DB) :
  excluded "nota" exclude = true ->
  Nota_full_clean exclude b (mkNotaObj None a k PyNone) db = Raise TypeError.
Proof.
  intros He. unfold Nota_full_clean, Nota_clean_fields. rewrite He.
  cbn [obj_nota obj_pk obj_alumno obj_actividad]. reflexivity.
Qed.

Lemma Nota_clean_finite (o : NotaObj) (neg : bool) (c x : Z) :
  obj_nota o = PyDecimal (Py.Dec neg c x) ->
  Nota_clean o = Ok tt
  \/ Nota_clean o = Raise (ValidationError [mkError ALL msg_clean]).
Proof.
  intros Ho. unfold Nota_clean, py_lt, py_gt, py_compare, bind. rewrite Ho.
  unfold Py.decimal_compare.
  destruct (if 0 <=? x then _ else _); try (now right);
    destruct (if 0 <=? x then _ else _); try (now right); now left.
Qed.

Section Registro.

Variables (u : Z) (req : request) (db : DB) (al : Alumno) (ac : Actividad).
Variables (s : string) (d : Py.pydecimal).

Hypothesis Hal : NoDup (map alu_id (alumnos db)).
Hypothesis Hac : NoDup (map act_id (actividades db)).
Hypothesis Hma : NoDup (map mat_id (materias db)).
Hypothesis Hreq : para_calificar u req db al ac.
Hypothesis Hnota : post_get "nota" (req_POST req) = Some s.
Hypothesis Hdec : Py.decimal_of_str s = Some d.

Lemma registro_manual_pasa :
  duplicado_o_no_inscrito (post_get "alumno" (req_POST req))
                          (post_get "actividad" (req_POST req)) db = Pasa.
Proof.
  destruct Hreq as (_ & (sa & Hsa & Ha) & (sk & Hsk & Hk) & Hia & Hik
                    & (m & Him & Hmid & Hmu & Hmem) & He).
  rewrite Hsa, Hsk. unfold duplicado_o_no_inscrito, materia_de_actividad.
  rewrite (truthy_int _ _ Ha), (truthy_int _ _ Hk), Ha, Hk, He.
  unfold get_alumno, get_actividad, get_materia.
  rewrite (find_key_unique alu_id _ al Hal Hia), (find_key_unique act_id _ ac Hac Hik).
  rewrite <- Hmid, (find_key_unique mat_id _ m Hma Him).
  apply mem_In in Hmem. now rewrite Hmem.
Qed.

(** The form on such a request: a value outside the declared precision
    leaves [nota] unset and [Nota.clean] raises [TypeError] on it; a value
    inside it gives the instance, with the error of [Nota.clean] if the
    value is out of range. *)
Lemma registro_form :
  NotaForm_full_clean u (req_POST req) db
  = match DecimalValidator max_digits decimal_places d with
    | Some _ => Raise TypeError
    | None =>
        let inst := mkNotaObj None (Some (alu_id al)) (Some (act_id ac)) (PyDecimal d) in
        Ok (mkNotaForm (match Nota_clean inst with
                        | Ok _ => []
                        | Raise _ => [mkError ALL msg_clean]
                        end) inst)
    end.
Proof.
  destruct Hreq as (_ & (sa & Hsa & Ha) & (sk & Hsk & Hk) & Hia & Hik
                    & (m & Him & Hmid & Hmu & Hmem) & He).
  unfold NotaForm_full_clean. rewrite Hsa, Hsk, Hnota.
  assert (Hga : get_alumno (alu_id al) (alumnos_en (materias_de u db) db) = Some al).
  { apply find_key_unique; [now apply NoDup_map_filter|].
    apply In_alumnos_en. split; [assumption|]. now exists m. }
  assert (Hgk : get_actividad (act_id ac) (actividades_en (materias_de u db) db)
                = Some ac).
  { apply find_key_unique; [now apply NoDup_map_filter|].
    apply In_actividades_en. split; [assumption|]. now exists m. }
  rewrite (clean_choice_ok "alumno" sa _ _ al Ha Hga).
  rewrite (clean_choice_ok "actividad" sk _ _ ac Hk Hgk).
  rewrite (clean_decimal_ok _ _ Hdec).
  assert (Hclean : NotaForm_clean (Some al) (Some ac) db = Ok []).
  { unfold NotaForm_clean, materia_de_actividad, get_materia, bind.
    rewrite <- Hmid, (find_key_unique mat_id _ m Hma Him).
    apply mem_In in Hmem. now rewrite Hmem. }
  destruct (DecimalValidator max_digits decimal_places d) as [e|] eqn:Ev.
  - cbn [app map err_field option_map]. rewrite Hclean. cbn [bind].
    rewrite Nota_full_clean_sin_nota; reflexivity.
  - cbn [app map err_field option_map]. rewrite Hclean. cbn [bind].
    cbv zeta.
    set (inst := mkNotaObj None (Some (alu_id al)) (Some (act_id ac)) (PyDecimal d)).
    assert (Hfields : Nota_clean_fields [] inst db = ([], inst)).
    { unfold Nota_clean_fields, clean_nota_field, nota_to_python, clean_fk, inst.
      cbn [excluded existsb obj_alumno obj_actividad obj_nota obj_pk].
      rewrite (proj2 (existsb_key alu_id (alu_id al) (alumnos db)) (in_map _ _ _ Hia)).
      rewrite (proj2 (existsb_key act_id (act_id ac) (actividades db)) (in_map _ _ _ Hik)).
      now rewrite (validator_finite _ Ev), Ev. }
    assert (Hunique : forall ex, Nota_validate_unique ex inst db = []).
    { intros ex. unfold Nota_validate_unique, inst.
      destruct (_ || _); [reflexivity|].
      cbn [obj_alumno obj_actividad obj_pk].
      now rewrite (existsb_pair_false _ _ db (fun _ => true) He). }
    unfold Nota_full_clean. rewrite Hfields.
    destruct (finite_is_Dec d (validator_finite _ Ev)) as (neg & c & x & Hd).
    destruct (Nota_clean_finite inst neg c x ltac:(now rewrite <- Hd)) as [Hc | Hc];
      rewrite Hc; cbn [bind app map err_field]; rewrite Hunique; reflexivity.
Qed.

(** The save of the instance of the form, for a value in range. *)
Lemma registro_save :
  decimal_between 0 10 d ->
  exists o' db',
    Nota_save (mkNotaObj None (Some (alu_id al)) (Some (act_id ac)) (PyDecimal d)) db
    = Ok (o', db')
    /\ In (mkNota (seq_nota db + 1) (alu_id al) (act_id ac) (Py.hundredths d))
          (notas db').
Proof.
  intros Hb.
  destruct Hreq as (_ & _ & _ & Hia & Hik & _ & He).
  unfold Nota_save.
  rewrite (Nota_clean_decimal
             (mkNotaObj None (Some (alu_id al)) (Some (act_id ac)) (PyDecimal d))
             d eq_refl Hb).
  cbn [bind].
  unfold Model_save, nota_db_value, nota_to_python. cbn [obj_nota].
  pose proof (hundredths_between d Hb) as Hh.
  destruct d as [neg c x| |]; try contradiction. cbn [Py.is_finite bind].
  assert (Hsmall : (10 ^ max_digits <=? Z.abs (Py.hundredths (Py.Dec neg c x))) = false).
  { apply Z.leb_gt. change (10 ^ max_digits) with 100000. lia. }
  rewrite Hsmall. cbn [obj_alumno obj_actividad obj_pk].
  unfold constraints_ok.
  rewrite (proj2 (existsb_key alu_id (alu_id al) (alumnos db)) (in_map _ _ _ Hia)).
  rewrite (proj2 (existsb_key act_id (act_id ac) (actividades db)) (in_map _ _ _ Hik)).
  rewrite (existsb_pair_false _ _ db _ He). cbn [andb negb].
  eexists. eexists. split; [reflexivity|]. cbn [notas].
  destruct (existsb (fun n => nota_id n =? seq_nota db + 1) (notas db)) eqn:Ex.
  - apply existsb_exists in Ex. destruct Ex as [n [Hn Hid]].
    apply in_map_iff. exists n. split; [now rewrite Hid | assumption].
  - apply in_app_iff. right. now left.
Qed.

(** On such a request the grade is accepted exactly when the value is in
    0..10 and within the declared precision; it is then stored, in
    hundredths, under the next key; otherwise the database is left as it
    was. *)
Lemma registro_aceptada_ssi :
  let o := registro_de_notas u req db in
  (registrada o
   <-> decimal_between 0 10 d /\ DecimalValidator max_digits decimal_places d = None)
  /\ (registrada o ->
      In (mkNota (seq_nota db + 1) (alu_id al) (act_id ac) (Py.hundredths d))
         (notas (out_db o)))
  /\ (~ registrada o -> out_db o = db).
Proof.
  assert (Hpost : req_method req = POST) by apply Hreq.
  unfold registro_de_notas, registrada. rewrite Hpost, Hnota.
  destruct (fuera_de_rango (Some s)) eqn:Hf.
  { cbn [out_messages out_db]. repeat split; try discriminate.
    intros [Hb _]. rewrite (en_rango_no_fuera s d Hdec (literals_agree s) Hb) in Hf. discriminate. }
  rewrite registro_manual_pasa, registro_form.
  destruct (DecimalValidator max_digits decimal_places d) as [e|] eqn:Ev.
  { cbn [out_messages out_db]. repeat split; try discriminate.
    intros [_ Hv]. discriminate. }
  cbv zeta.
  destruct (Nota_clean (mkNotaObj None (Some (alu_id al)) (Some (act_id ac))
                                  (PyDecimal d))) as [[]|e] eqn:Hc.
  - apply Nota_clean_rango in Hc. cbn [obj_nota] in Hc.
    destruct (registro_save Hc) as (o' & db' & Hs & Hin).
    cbn [is_valid form_errors form_instance]. rewrite Hs.
    cbn [out_messages out_db]. repeat split; auto. intros H. now contradiction H.
  - cbn [is_valid form_errors form_instance out_messages out_db].
    repeat split; try discriminate.
    intros [Hb _].
    rewrite (Nota_clean_decimal
               (mkNotaObj None (Some (alu_id al)) (Some (act_id ac)) (PyDecimal d))
               d eq_refl Hb) in Hc.
    discriminate.
Qed.

End Registro.

Lemma editar_nota_fuera_de_rango (i u : Z) (req : request) (db : DB) (row : Nota)
  (s : string) (f : Py.pyfloat) :
  nota_del_profesor u i db = Some row ->
  req_method req = POST ->
  post_get "nota" (req_POST req) = Some s ->
  Py.float_of_str s = Some f ->
  ~ float_between 0 10 f ->
  editar_nota i u req db
  = mkOutcome (Redirect "registro_de_notas") [MsgError msg_rango] db.
Proof.
  intros Hrow Hpost Hs Hf Hno. unfold editar_nota. rewrite Hrow, Hpost, Hs, Hf.
  destruct (Py.float_ge f 0 && Py.float_le f 10) eqn:E; [|reflexivity].
  apply float_ge_le_between in E. contradiction.
Qed.

Lemma editar_nota_aceptada (i u : Z) (req : request) (db : DB) :
  out_messages (editar_nota i u req db) = [MsgSuccess msg_actualizada] ->
  exists s f, post_get "nota" (req_POST req) = Some s
              /\ Py.float_of_str s = Some f /\ float_between 0 10 f.
Proof.
  unfold editar_nota.
  destruct (nota_del_profesor u i db) as [row|]; [|discriminate].
  destruct (req_method req); [discriminate|].
  destruct (post_get "nota" (req_POST req)) as [s|] eqn:Hs; [|discriminate].
  destruct (Py.float_of_str s) as [f|] eqn:Hf; [|discriminate].
  destruct (Py.float_ge f 0 && Py.float_le f 10) eqn:E; [|discriminate].
  intros _. exists s, f. split; [reflexivity|]. split; [assumption|].
  now apply float_ge_le_between.
Qed.




(** * Further properties of the views *)

(** ** Requests that change nothing *)

Lemma vista_sin_post (valid_email : string -> bool) (parse_fecha : string -> option Z)
  (op : operacion) (req : request) (db : DB) :
  req_method req = GET \/ req_user req = None ->
  out_db (vista valid_email parse_fecha op req db) = db
  /\ out_messages (vista valid_email parse_fecha op req db) = [].
Proof.
  intros H. unfold vista, login_required.
  destruct (req_user req) as [u|]; [|now split].
  destruct H as [Hget | H]; [|discriminate].
  destruct op as [|i|i| |i|i| |i|i| |i|i];
    unfold crear_alumno, editar_alumno, eliminar_alumno, crear_materia, editar_materia,
      eliminar_materia, crear_actividad, editar_actividad, eliminar_actividad,
      registro_de_notas, editar_nota, eliminar_nota;
    rewrite ?Hget;
    repeat match goal with
           | |- context [match ?x with Some _ => _ | None => _ end] =>
               destruct x; rewrite ?Hget
           end;
    now split.
Qed.

(** X1. A request that is not a POST, or that carries no logged-in user,
    changes nothing and flashes nothing, whichever of the twelve views
    that write it is sent to. *)
Theorem sin_post_no_hay_cambios (valid_email : string -> bool)
  (parse_fecha : string -> option Z) (op : operacion) (req : request) (db : DB) :
  req_method req = GET \/ req_user req = None ->
  out_db (vista valid_email parse_fecha op req db) = db
  /\ out_messages (vista valid_email parse_fecha op req db) = [].
Proof. exact (vista_sin_post valid_email parse_fecha op req db). Qed.

(** A GET on the delete of Alice's grade by her teacher leaves it. *)
Lemma sin_post_no_hay_cambios_witness :
  out_db (vista siempre un_dia (EliminarNota 1) (mkRequest (Some 1) GET []) escuela)
  = escuela
  /\ out_messages (vista siempre un_dia (EliminarNota 1) (mkRequest (Some 1) GET [])
                         escuela) = [].
Proof.
  apply (sin_post_no_hay_cambios siempre un_dia (EliminarNota 1)
           (mkRequest (Some 1) GET []) escuela).
  left. reflexivity.
Defined.

(** ** The list views show a teacher's own rows *)

Lemma materias_de_disjuntas (u u' : Z) (db : DB) (m : Materia) :
  u <> u' -> In m (materias_de u db) -> ~ In m (materias_de u' db).
Proof.
  intros Hne H H'. apply In_materias_de in H, H'. destruct H as [_ H], H' as [_ H'].
  congruence.
Qed.

Lemma length_filter_le {A : Type} (p : A -> bool) (l : list A) :
  (List.length (filter p l) <= List.length l)%nat.
Proof.
  induction l as [|x l IH]; simpl; [lia|]. destruct (p x); simpl; lia.
Qed.

(** X2. [dashboard], [lista_materias] and [lista_alumnos] show a teacher
    only subjects he owns, none of which another teacher is shown, and
    only students enrolled in one of them; the count of the dashboard is
    the number of students the list shows, each student of the table
    counted at most once. *)
Theorem listas_del_profesor (u u' : Z) (db : DB) :
  u <> u' ->
  exists ms als ms',
    dashboard u db = PaginaDashboard ms (Z.of_nat (List.length als))
    /\ lista_alumnos u db = PaginaAlumnos ms als ms
    /\ lista_materias u db = PaginaMaterias ms
    /\ lista_materias u' db = PaginaMaterias ms'
    /\ (forall m, In m ms <-> In m (materias db) /\ mat_profesor m = u)
    /\ (forall m, In m ms -> ~ In m ms')
    /\ (forall a, In a als <->
                  In a (alumnos db)
                  /\ exists m, In m ms /\ In (mat_id m) (alu_materias a))
    /\ (List.length als <= List.length (alumnos db))%nat.
Proof.
  intros Hne.
  exists (materias_de u db), (alumnos_en (materias_de u db) db), (materias_de u' db).
  split; [reflexivity|]. split; [reflexivity|]. split; [reflexivity|].
  split; [reflexivity|].
  split; [intros m; apply In_materias_de|].
  split; [intros m; now apply materias_de_disjuntas|].
  split; [|apply length_filter_le].
  intros a. rewrite In_alumnos_en. split.
  - intros [Ha [m [Hm [Hu Hi]]]]. split; [assumption|].
    exists m. split; [|assumption]. apply In_materias_de. tauto.
  - intros [Ha [m [Hm Hi]]]. split; [assumption|].
    apply In_materias_de in Hm. exists m. tauto.
Qed.

(** Teacher 1 is shown Math with Alice and Carol, not Art or Bob. *)
Lemma listas_del_profesor_witness :
  dashboard 1 escuela = PaginaDashboard [mkMateria 1 "Math" 1] 2
  /\ exists ms als ms',
      dashboard 1 escuela = PaginaDashboard ms (Z.of_nat (List.length als))
      /\ lista_alumnos 1 escuela = PaginaAlumnos ms als ms
      /\ lista_materias 1 escuela = PaginaMaterias ms
      /\ lista_materias 2 escuela = PaginaMaterias ms'
      /\ (forall m, In m ms <-> In m (materias escuela) /\ mat_profesor m = 1)
      /\ (forall m, In m ms -> ~ In m ms')
      /\ (forall a, In a als <->
                    In a (alumnos escuela)
                    /\ exists m, In m ms /\ In (mat_id m) (alu_materias a))
      /\ (List.length als <= List.length (alumnos escuela))%nat.
Proof.
  split; [reflexivity|]. apply (listas_del_profesor 1 2 escuela). discriminate.
Defined.

(** ** Deleting an activity, a student, a grade *)

(** X3. The delete of an activity by its teacher removes the activity and
    the grades on it, and nothing else: the other activities and grades,
    the subjects and the students stay as they were. *)
Theorem eliminar_actividad_en_cascada (i u : Z) (req : request) (db : DB)
  (k : Actividad) :
  actividad_del_profesor u i db = Some k ->
  req_method req = POST ->
  let db' := out_db (eliminar_actividad i u req db) in
  (forall k', In k' (actividades db') <-> In k' (actividades db) /\ act_id k' <> i)
  /\ (forall n, In n (notas db') <-> In n (notas db) /\ nota_actividad n <> i)
  /\ materias db' = materias db
  /\ alumnos db' = alumnos db.
Proof.
  intros Hk Hpost. cbv zeta. unfold eliminar_actividad. rewrite Hk, Hpost.
  apply find_key_some in Hk. destruct Hk as [_ Hid]. rewrite Hid.
  unfold delete_actividad. cbn [out_db actividades notas materias alumnos set_actividades
                                  set_notas].
  split; [|split; [|split; reflexivity]].
  - intros x. rewrite filter_In, negb_true_iff, Z.eqb_neq. tauto.
  - intros x. rewrite filter_In, negb_true_iff, Z.eqb_neq. tauto.
Qed.

(** Teacher 1 deletes the Midterm: Alice's grade goes, the Sketch stays. *)
Lemma eliminar_actividad_en_cascada_witness :
  let db' := out_db (eliminar_actividad 1 1 (mkRequest (Some 1) POST []) escuela) in
  (actividades db' = [mkActividad 2 2 "Sketch" "TR" 19790] /\ notas db' = [])
  /\ (forall k', In k' (actividades db') <-> In k' (actividades escuela) /\ act_id k' <> 1)
  /\ (forall n, In n (notas db') <-> In n (notas escuela) /\ nota_actividad n <> 1)
  /\ materias db' = materias escuela
  /\ alumnos db' = alumnos escuela.
Proof.
  intros db'. split; [split; reflexivity|].
  apply (eliminar_actividad_en_cascada 1 1 (mkRequest (Some 1) POST []) escuela
           (mkActividad 1 1 "Midterm" "EX" 19783)); reflexivity.
Defined.

(** X4. The delete of a student removes the student and the grades of the
    student, and nothing else; it is carried out for any teacher. *)
Theorem eliminar_alumno_en_cascada (i u : Z) (req : request) (db : DB) (a : Alumno) :
  get_alumno i (alumnos db) = Some a ->
  req_method req = POST ->
  let db' := out_db (eliminar_alumno i u req db) in
  (forall a', In a' (alumnos db') <-> In a' (alumnos db) /\ alu_id a' <> i)
  /\ (forall n, In n (notas db') <-> In n (notas db) /\ nota_alumno n <> i)
  /\ materias db' = materias db
  /\ actividades db' = actividades db.
Proof.
  intros Ha Hpost. cbv zeta. unfold eliminar_alumno. rewrite Ha, Hpost.
  apply find_key_some in Ha. destruct Ha as [_ Hid]. rewrite Hid.
  unfold delete_alumno. cbn [out_db actividades notas materias alumnos set_alumnos
                               set_notas].
  split; [|split; [|split; reflexivity]].
  - intros x. rewrite filter_In, negb_true_iff, Z.eqb_neq. tauto.
  - intros x. rewrite filter_In, negb_true_iff, Z.eqb_neq. tauto.
Qed.

(** Alice is deleted, and her grade with her. *)
Lemma eliminar_alumno_en_cascada_witness :
  let db' := out_db (eliminar_alumno 1 1 (mkRequest (Some 1) POST []) escuela) in
  notas db' = []
  /\ (forall a', In a' (alumnos db') <-> In a' (alumnos escuela) /\ alu_id a' <> 1)
  /\ (forall n, In n (notas db') <-> In n (notas escuela) /\ nota_alumno n <> 1)
  /\ materias db' = materias escuela
  /\ actividades db' = actividades escuela.
Proof.
  intros db'. split; [reflexivity|].
  apply (eliminar_alumno_en_cascada 1 1 (mkRequest (Some 1) POST []) escuela
           (mkAlumno 1 "Alice" "alice@x.com" [1])); reflexivity.
Defined.

Lemma id_unico_en_tabla {A B : Type} (key : A -> B) (l : list A) (x y : A) :
  NoDup (map key l) -> In x l -> In y l -> key x = key y -> x = y.
Proof.
  induction l as [|z l IH]; simpl; [contradiction|].
  intros Hnd Hx Hy Heq. inversion Hnd as [|? ? Hz Hnd']; subst.
  destruct Hx as [-> | Hx], Hy as [-> | Hy]; auto.
  - exfalso. apply Hz. rewrite Heq. now apply in_map.
  - exfalso. apply Hz. rewrite <- Heq. now apply in_map.
Qed.

(** X5. The delete of a grade by the teacher of its activity removes that
    grade and no other, where the ids of the grades are unique; the other
    tables stay as they were. *)
Theorem eliminar_nota_solo_esa (i u : Z) (req : request) (db : DB) (n0 : Nota) :
  NoDup (map nota_id (notas db)) ->
  nota_del_profesor u i db = Some n0 ->
  req_method req = POST ->
  let db' := out_db (eliminar_nota i u req db) in
  (forall n, In n (notas db') <-> In n (notas db) /\ n <> n0)
  /\ materias db' = materias db
  /\ alumnos db' = alumnos db
  /\ actividades db' = actividades db.
Proof.
  intros Hnd Hn Hpost. cbv zeta. unfold eliminar_nota. rewrite Hn, Hpost.
  apply find_key_some in Hn. destruct Hn as [Hin Hid].
  apply In_notas_en in Hin. destruct Hin as [Hin _].
  unfold delete_nota. cbn [out_db actividades notas materias alumnos set_notas].
  split; [|repeat split]. intros n. rewrite filter_In, negb_true_iff, Z.eqb_neq. split.
  - intros [H1 H2]. split; [assumption|]. intros ->. contradiction.
  - intros [H1 H2]. split; [assumption|]. intros Heq. apply H2.
    now apply (id_unico_en_tabla nota_id (notas db)).
Qed.

(** Teacher 1 deletes Alice's grade, the only one. *)
Lemma eliminar_nota_solo_esa_witness :
  let db' := out_db (eliminar_nota 1 1 (mkRequest (Some 1) POST []) escuela) in
  notas db' = []
  /\ (forall n, In n (notas db') <-> In n (notas escuela) /\ n <> mkNota 1 1 1 850)
  /\ materias db' = materias escuela
  /\ alumnos db' = alumnos escuela
  /\ actividades db' = actividades escuela.
Proof.
  intros db'. split; [reflexivity|].
  apply (eliminar_nota_solo_esa 1 1 (mkRequest (Some 1) POST []) escuela
           (mkNota 1 1 1 850)); try reflexivity.
  repeat constructor. simpl. tauto.
Defined.

(** ** What the delete of a subject keeps *)

(** X6. The delete of a subject by its owner keeps every other subject,
    the activities of the other subjects and the grades on them, and every
    student, with the same id, name and address; each student loses the
    enrolment in the deleted subject and no other. *)
Theorem eliminar_materia_conserva (i u : Z) (req : request) (db : DB) (s : Materia) :
  materia_del_profesor u i db = Some s ->
  req_method req = POST ->
  let db' := out_db (eliminar_materia i u req db) in
  (forall m, In m (materias db') <-> In m (materias db) /\ mat_id m <> i)
  /\ (forall k, In k (actividades db') <-> In k (actividades db) /\ act_materia k <> i)
  /\ (forall n, In n (notas db) ->
                (forall k, In k (actividades db) -> act_id k = nota_actividad n ->
                           act_materia k <> i) ->
                In n (notas db'))
  /\ map alu_id (alumnos db') = map alu_id (alumnos db)
  /\ map alu_nombre (alumnos db') = map alu_nombre (alumnos db)
  /\ map alu_correo (alumnos db') = map alu_correo (alumnos db)
  /\ map (fun a => alu_materias a) (alumnos db')
     = map (fun a => filter (fun m => negb (m =? i)) (alu_materias a)) (alumnos db)
  /\ (forall a, In a (alumnos db') -> ~ In i (alu_materias a)).
Proof.
  intros Hs Hpost. cbv zeta. unfold eliminar_materia. rewrite Hs, Hpost.
  apply find_key_some in Hs. destruct Hs as [_ Hid]. rewrite Hid. cbn [out_db].
  split; [|split; [|split; [|split; [|split; [|split; [|split]]]]]].
  - intros m. unfold delete_materia. cbn [materias set_materias].
    rewrite filter_In, negb_true_iff, Z.eqb_neq. tauto.
  - apply delete_materia_actividades.
  - intros n Hn Hk. apply delete_materia_notas. split; [assumption|].
    intros k Hin Hm He. apply (Hk k Hin); congruence.
  - unfold delete_materia. cbn [alumnos set_materias set_alumnos].
    rewrite map_map. reflexivity.
  - unfold delete_materia. cbn [alumnos set_materias set_alumnos].
    rewrite map_map. reflexivity.
  - unfold delete_materia. cbn [alumnos set_materias set_alumnos].
    rewrite map_map. reflexivity.
  - unfold delete_materia. cbn [alumnos set_materias set_alumnos].
    rewrite map_map. reflexivity.
  - unfold delete_materia. cbn [alumnos set_materias set_alumnos].
    intros a Ha. apply in_map_iff in Ha. destruct Ha as [a0 [<- _]].
    cbn [alu_materias]. rewrite filter_In, negb_true_iff, Z.eqb_neq. tauto.
Qed.

(** Teacher 2 deletes Art: Math, the Midterm and Alice's grade stay, Bob
    stays without a subject. *)
Lemma eliminar_materia_conserva_witness :
  let db' := out_db (eliminar_materia 2 2 (mkRequest (Some 2) POST []) escuela) in
  (notas db' = notas escuela
   /\ get_alumno 2 (alumnos db') = Some (mkAlumno 2 "Bob" "bob@x.com" []))
  /\ (forall m, In m (materias db') <-> In m (materias escuela) /\ mat_id m <> 2)
  /\ (forall k, In k (actividades db') <-> In k (actividades escuela) /\ act_materia k <> 2)
  /\ (forall n, In n (notas escuela) ->
                (forall k, In k (actividades escuela) -> act_id k = nota_actividad n ->
                           act_materia k <> 2) ->
                In n (notas db'))
  /\ map alu_id (alumnos db') = map alu_id (alumnos escuela)
  /\ map alu_nombre (alumnos db') = map alu_nombre (alumnos escuela)
  /\ map alu_correo (alumnos db') = map alu_correo (alumnos escuela)
  /\ map (fun a => alu_materias a) (alumnos db')
     = map (fun a => filter (fun m => negb (m =? 2)) (alu_materias a)) (alumnos escuela)
  /\ (forall a, In a (alumnos db') -> ~ In 2 (alu_materias a)).
Proof.
  intros db'. split; [split; reflexivity|].
  apply (eliminar_materia_conserva 2 2 (mkRequest (Some 2) POST []) escuela
           (mkMateria 2 "Art" 2)); reflexivity.
Defined.

(** ** Editing a subject *)

Lemma map_reemplaza_clave {A : Type} (key : A -> Z) (i : Z) (f : A -> A) (l : list A) :
  (forall x, key (f x) = key x) ->
  map key (map (fun x => if key x =? i then f x else x) l) = map key l.
Proof.
  intros Hf. rewrite map_map. apply map_ext. intros x.
  destruct (key x =? i); [apply Hf | reflexivity].
Qed.

(** X7. [editar_materia], on any request, changes at most the name of the
    subject it is asked for: the ids and the owners of the subjects stay
    as they were, in the same order, every subject with another id stays,
    and so do the students, the activities and the grades. *)
Theorem editar_materia_solo_nombre (i u : Z) (req : request) (db : DB) :
  let db' := out_db (editar_materia i u req db) in
  map mat_id (materias db') = map mat_id (materias db)
  /\ map mat_profesor (materias db') = map mat_profesor (materias db)
  /\ (forall m, In m (materias db) -> mat_id m <> i -> In m (materias db'))
  /\ alumnos db' = alumnos db
  /\ actividades db' = actividades db
  /\ notas db' = notas db.
Proof.
  cbv zeta. unfold editar_materia.
  destruct (materia_del_profesor u i db) as [s|] eqn:Hs; [|cbn; tauto].
  apply find_key_some in Hs. destruct Hs as [_ Hid].
  destruct (req_method req); [cbn; tauto|].
  destruct (MateriaForm_clean (req_POST req)) as [[|e es] nombre]; [|cbn; tauto].
  cbn [out_db materias alumnos actividades notas set_materias]. rewrite Hid.
  split; [|split; [|split; [|repeat split]]].
  - rewrite map_map. apply map_ext. intros m. now destruct (mat_id m =? i).
  - rewrite map_map. apply map_ext. intros m. now destruct (mat_id m =? i).
  - intros m Hm Hne. apply in_map_iff. exists m. split; [|assumption].
    apply Z.eqb_neq in Hne. now rewrite Hne.
Qed.

(** Teacher 1 renames Math. *)
Lemma editar_materia_solo_nombre_witness :
  let db' := out_db (editar_materia 1 1
                       (mkRequest (Some 1) POST [("nombre", " Algebra ")]%string)
                       escuela) in
  materias db' = [mkMateria 1 "Algebra" 1; mkMateria 2 "Art" 2]
  /\ map mat_id (materias db') = map mat_id (materias escuela)
  /\ map mat_profesor (materias db') = map mat_profesor (materias escuela)
  /\ (forall m, In m (materias escuela) -> mat_id m <> 1 -> In m (materias db'))
  /\ alumnos db' = alumnos escuela
  /\ actividades db' = actividades escuela
  /\ notas db' = notas escuela.
Proof.
  intros db'. split; [reflexivity|].
  exact (editar_materia_solo_nombre 1 1
           (mkRequest (Some 1) POST [("nombre", " Algebra ")]%string) escuela).
Defined.

(** ** What the forms let through *)

Lemma clean_choice_inv {A : Type} (name : string) (get : Z -> option A)
  (v : option string) (r : option A) :
  clean_choice name get v = ([], r) ->
  exists s i x, v = Some s /\ Py.int_of_str s = Some i /\ get i = Some x /\ r = Some x.
Proof.
  unfold clean_choice, required_error. destruct (truthy v); [|discriminate].
  destruct v as [s|]; [|discriminate].
  destruct (Py.int_of_str s) as [i|] eqn:Hi; [|discriminate].
  destruct (get i) as [x|] eqn:Hx; [|discriminate].
  intros H. inversion H; subst. now exists s, i, x.
Qed.

Lemma clean_char_inv (name : string) (v : option string) (s : string) :
  clean_char name v = ([], s) ->
  s <> EmptyString /\ Z.of_nat (String.length s) <= 100 /\ has_null s = false
  /\ exists t, v = Some t /\ s = Py.str_strip t.
Proof.
  unfold clean_char, required_error.
  destruct (String.eqb _ "") eqn:He; [discriminate|].
  destruct (100 <? _) eqn:Hl; [discriminate|].
  destruct (has_null _) eqn:Hn; [discriminate|].
  intros H. inversion H as [Hs]. rewrite Hs in *. clear H.
  apply String.eqb_neq in He. apply Z.ltb_ge in Hl.
  split; [assumption|]. split; [assumption|]. split; [assumption|].
  destruct v as [t|]; [now exists t|]. now elim He.
Qed.

Lemma clean_materias_inv (mis : list Materia) (vs : list string) (ms : list Z) :
  clean_materias mis vs = ([], ms) ->
  ms <> [] /\ forall j, In j ms -> exists m, In m mis /\ mat_id m = j.
Proof.
  unfold clean_materias. destruct vs as [|v vs]; [discriminate|].
  destruct (forallb _ (v :: vs)); [|discriminate].
  set (chosen := filter _ mis).
  destruct (forallb _ (v :: vs)) eqn:Hall; [|discriminate].
  intros H. inversion H; subst; clear H. split.
  - cbn [forallb] in Hall. apply andb_true_iff in Hall. destruct Hall as [Hv _].
    destruct chosen; [discriminate|discriminate].
  - intros j Hj. apply in_map_iff in Hj. destruct Hj as [m [<- Hm]].
    exists m. split; [|reflexivity]. unfold chosen in Hm.
    now apply filter_In in Hm.
Qed.

Lemma ActividadForm_clean_inv (parse_fecha : string -> option Z) (u pk : Z)
  (post : list (string * string)) (db : DB) (k : Actividad) :
  ActividadForm_clean parse_fecha u pk post db = ([], k) ->
  act_id k = pk
  /\ (exists m, In m (materias db) /\ mat_profesor m = u /\ mat_id m = act_materia k)
  /\ act_nombre k <> EmptyString
  /\ In (act_categoria k) (map fst CATEGORIAS).
Proof.
  unfold ActividadForm_clean.
  destruct (clean_choice _ _ _) as [e1 materia] eqn:H1.
  destruct (clean_char _ _) as [e2 nombre] eqn:H2.
  destruct (clean_categoria _) as [e3 categoria] eqn:H3.
  destruct (clean_fecha _ _) as [e4 fecha].
  intros H. inversion H as [[He Hk]]. clear H.
  destruct e1; [|discriminate]. destruct e2; [|discriminate].
  destruct e3; [|discriminate]. cbn [act_id act_materia act_nombre act_categoria].
  split; [reflexivity|].
  apply clean_choice_inv in H1. destruct H1 as [s [i [m [_ [_ [Hm ->]]]]]].
  apply find_key_some in Hm. destruct Hm as [Hm _]. apply In_materias_de in Hm.
  apply clean_char_inv in H2. destruct H2 as [Hn _].
  split; [exists m; tauto|]. split; [assumption|].
  unfold clean_categoria, required_error in H3.
  destruct (truthy _); [|discriminate].
  destruct (post_get "categoria" post) as [c|]; [|discriminate].
  destruct (existsb _ CATEGORIAS) eqn:Hc; [|discriminate].
  inversion H3; subst. apply existsb_exists in Hc. destruct Hc as [p [Hp Heq]].
  apply String.eqb_eq in Heq. subst. now apply in_map.
Qed.

Lemma AlumnoForm_clean_inv (valid_email : string -> bool) (u : Z) (self_id : option Z)
  (post : list (string * string)) (db : DB) (a : Alumno) :
  AlumnoForm_clean valid_email u self_id post db = ([], a) ->
  alu_id a = match self_id with Some i => i | None => seq_alumno db + 1 end
  /\ alu_nombre a <> EmptyString
  /\ valid_email (alu_correo a) = true
  /\ (forall b, In b (alumnos db) -> alu_correo b = alu_correo a ->
                self_id = Some (alu_id b))
  /\ alu_materias a <> []
  /\ (forall j, In j (alu_materias a) ->
                exists m, In m (materias db) /\ mat_profesor m = u /\ mat_id m = j).
Proof.
  unfold AlumnoForm_clean.
  destruct (clean_char _ _) as [e1 nombre] eqn:H1.
  destruct (clean_email _ _ _) as [e2 correo] eqn:H2.
  destruct (clean_materias _ _) as [e3 ms] eqn:H3.
  intros H. inversion H as [[He Hk]]. clear H.
  destruct e1; [|discriminate]. destruct e2; [|discriminate].
  destruct e3; [|discriminate]. cbn [app] in He.
  cbn [alu_id alu_nombre alu_correo alu_materias].
  split; [reflexivity|].
  apply clean_char_inv in H1. destruct H1 as [Hn _]. split; [assumption|].
  apply clean_materias_inv in H3. destruct H3 as [Hne Hms].
  split; [|split; [|split; [assumption|]]].
  - unfold clean_email, required_error in H2.
    destruct (String.eqb _ ""); [discriminate|].
    destruct (254 <? _); [discriminate|]. destruct (has_null _); [discriminate|].
    destruct (valid_email _) eqn:Hv; [|discriminate]. inversion H2; subst. exact Hv.
  - intros b Hb Hc. destruct (existsb _ (alumnos db)) eqn:Hex; [discriminate|].
    assert (Hf : (String.eqb (alu_correo b) correo
                  && match self_id with
                     | Some i => negb (alu_id b =? i)
                     | None => true
                     end) = false).
    { destruct (_ && _) eqn:Hp; [|reflexivity].
      assert (existsb (fun a0 => String.eqb (alu_correo a0) correo
                                 && match self_id with
                                    | Some i => negb (alu_id a0 =? i)
                                    | None => true
                                    end) (alumnos db) = true) as Ht
          by (apply existsb_exists; now exists b).
      rewrite Ht in Hex. discriminate. }
    rewrite Hc, String.eqb_refl in Hf. cbn [andb] in Hf.
    destruct self_id as [i|]; [|discriminate].
    apply negb_false_iff, Z.eqb_eq in Hf. now rewrite Hf.
  - intros j Hj. destruct (Hms j Hj) as [m [Hm Hid]].
    apply In_materias_de in Hm. exists m. tauto.
Qed.

(** ** Creating and editing an activity *)



(** X9. [editar_actividad], on any request, changes at most the activity
    it is asked for, an activity of the teacher: what is written keeps the
    id and is under a subject of the teacher, with a name and a category of
    [CATEGORIAS]; the ids stay as they were, in the same order, every
    activity with another id stays, and so do the other tables. *)
Theorem editar_actividad_en_materia_propia (parse_fecha : string -> option Z)
  (i u : Z) (req : request) (db : DB) :
  let db' := out_db (editar_actividad parse_fecha i u req db) in
  (forall k, In k (actividades db') ->
     In k (actividades db)
     \/ (act_id k = i
         /\ (exists m, In m (materias db) /\ mat_profesor m = u
                       /\ mat_id m = act_materia k)
         /\ act_nombre k <> EmptyString
         /\ In (act_categoria k) (map fst CATEGORIAS)))
  /\ map act_id (actividades db') = map act_id (actividades db)
  /\ (forall k, In k (actividades db) -> act_id k <> i -> In k (actividades db'))
  /\ materias db' = materias db
  /\ alumnos db' = alumnos db
  /\ notas db' = notas db.
Proof.
  cbv zeta. unfold editar_actividad.
  destruct (actividad_del_profesor u i db) as [k0|] eqn:Hk0;
    [|cbn; repeat split; auto].
  apply find_key_some in Hk0. destruct Hk0 as [_ Hid]. rewrite Hid.
  destruct (req_method req); [cbn; repeat split; auto|].
  destruct (ActividadForm_clean _ _ _ _ db) as [[|e es] k1] eqn:Hf;
    [|cbn; repeat split; auto].
  apply ActividadForm_clean_inv in Hf. destruct Hf as [Hpk Hf].
  cbn [out_db actividades materias alumnos notas set_actividades].
  split; [|split; [|split; [|repeat split]]].
  - intros k Hk. apply in_map_iff in Hk. destruct Hk as [k2 [Hk2 Hin]].
    destruct (act_id k2 =? i); subst; [right; now split | now left].
  - rewrite map_map. apply map_ext. intros k.
    destruct (act_id k =? i) eqn:He; [|reflexivity].
    apply Z.eqb_eq in He. congruence.
  - intros k Hk Hne. apply in_map_iff. exists k. split; [|assumption].
    apply Z.eqb_neq in Hne. now rewrite Hne.
Qed.

(** Teacher 1 renames the Midterm; moving it to Art is refused. *)
Lemma editar_actividad_en_materia_propia_witness :
  let final (materia : string) :=
    mkRequest (Some 1) POST
      [("materia", materia); ("nombre", "Final"); ("categoria", "EX");
       ("fecha", "2024-03-08")]%string in
  let db' := out_db (editar_actividad un_dia 1 1 (final "1"%string) escuela) in
  (actividades db' = [mkActividad 1 1 "Final" "EX" 19783;
                      mkActividad 2 2 "Sketch" "TR" 19790]
   /\ out_db (editar_actividad un_dia 1 1 (final "2"%string) escuela) = escuela)
  /\ (forall k, In k (actividades db') ->
        In k (actividades escuela)
        \/ (act_id k = 1
            /\ (exists m, In m (materias escuela) /\ mat_profesor m = 1
                          /\ mat_id m = act_materia k)
            /\ act_nombre k <> EmptyString
            /\ In (act_categoria k) (map fst CATEGORIAS)))
  /\ map act_id (actividades db') = map act_id (actividades escuela)
  /\ (forall k, In k (actividades escuela) -> act_id k <> 1 -> In k (actividades db'))
  /\ materias db' = materias escuela
  /\ alumnos db' = alumnos escuela
  /\ notas db' = notas escuela.
Proof.
  intros final db'. split; [split; reflexivity|].
  exact (editar_actividad_en_materia_propia un_dia 1 1 (final "1"%string) escuela).
Defined.

(** ** Creating and editing a student *)



(** X11. [editar_alumno], on any request and for any teacher, changes at
    most the student it is asked for: what is written keeps the id, has
    an address no other student has, and is enrolled only in subjects of
    the teacher who edits, at least one; so the enrolments of the student
    in subjects of other teachers are dropped.  The ids stay as they were,
    every student with another id stays, and so do the other tables. *)
Theorem editar_alumno_en_materias_propias (valid_email : string -> bool)
  (i u : Z) (req : request) (db : DB) :
  let db' := out_db (editar_alumno valid_email i u req db) in
  (forall a, In a (alumnos db') ->
     In a (alumnos db)
     \/ (alu_id a = i
         /\ alu_nombre a <> EmptyString
         /\ valid_email (alu_correo a) = true
         /\ (forall b, In b (alumnos db) -> alu_id b <> i ->
                       alu_correo b <> alu_correo a)
         /\ alu_materias a <> []
         /\ (forall j, In j (alu_materias a) ->
               exists m, In m (materias db) /\ mat_profesor m = u /\ mat_id m = j)))
  /\ map alu_id (alumnos db') = map alu_id (alumnos db)
  /\ (forall a, In a (alumnos db) -> alu_id a <> i -> In a (alumnos db'))
  /\ materias db' = materias db
  /\ actividades db' = actividades db
  /\ notas db' = notas db.
Proof.
  cbv zeta. unfold editar_alumno.
  destruct (get_alumno i (alumnos db)) as [a0|] eqn:Ha0; [|cbn; repeat split; auto].
  apply find_key_some in Ha0. destruct Ha0 as [_ Hid]. rewrite Hid.
  destruct (req_method req); [cbn; repeat split; auto|].
  destruct (AlumnoForm_clean _ _ _ _ db) as [[|e es] a1] eqn:Hf;
    [|cbn; repeat split; auto].
  apply AlumnoForm_clean_inv in Hf.
  destruct Hf as [Hpk [Hn [Hv [Hc [Hne Hms]]]]].
  cbn [out_db actividades materias alumnos notas set_alumnos].
  split; [|split; [|split; [|repeat split]]].
  - intros a Ha. apply in_map_iff in Ha. destruct Ha as [a2 [Ha2 Hin]].
    destruct (alu_id a2 =? i); subst; [|now left].
    right. split; [assumption|]. split; [assumption|]. split; [assumption|].
    split; [|split; assumption].
    intros b Hb Hbi Heq. specialize (Hc b Hb Heq). congruence.
  - rewrite map_map. apply map_ext. intros a.
    destruct (alu_id a =? i) eqn:He; [|reflexivity].
    apply Z.eqb_eq in He. congruence.
  - intros a Ha Hne'. apply in_map_iff. exists a. split; [|assumption].
    apply Z.eqb_neq in Hne'. now rewrite Hne'.
Qed.

(** Teacher 2 edits Alice, a student of teacher 1: she ends up in Art
    alone. *)
Lemma editar_alumno_en_materias_propias_witness :
  let req := mkRequest (Some 2) POST
               [("nombre", "Alice"); ("correo", "alice@x.com");
                ("materias", "2")]%string in
  let db' := out_db (editar_alumno siempre 1 2 req escuela) in
  get_alumno 1 (alumnos db') = Some (mkAlumno 1 "Alice" "alice@x.com" [2])
  /\ (forall a, In a (alumnos db') ->
        In a (alumnos escuela)
        \/ (alu_id a = 1
            /\ alu_nombre a <> EmptyString
            /\ siempre (alu_correo a) = true
            /\ (forall b, In b (alumnos escuela) -> alu_id b <> 1 ->
                          alu_correo b <> alu_correo a)
            /\ alu_materias a <> []
            /\ (forall j, In j (alu_materias a) ->
                  exists m, In m (materias escuela) /\ mat_profesor m = 2
                            /\ mat_id m = j)))
  /\ map alu_id (alumnos db') = map alu_id (alumnos escuela)
  /\ (forall a, In a (alumnos escuela) -> alu_id a <> 1 -> In a (alumnos db'))
  /\ materias db' = materias escuela
  /\ actividades db' = actividades escuela
  /\ notas db' = notas escuela.
Proof.
  intros req db'. split; [reflexivity|].
  exact (editar_alumno_en_materias_propias siempre 1 2 req escuela).
Defined.

(** ** What [Nota.save] writes *)

Lemma Nota_save_inv (o o' : NotaObj) (db db' : DB) :
  Nota_save o db = Ok (o', db') ->
  exists a k h,
    obj_alumno o = Some a /\ obj_actividad o = Some k /\ 0 <= h <= 1000
    /\ constraints_ok (match obj_pk o with Some i => i | None => seq_nota db + 1 end)
                      a k db = true
    /\ db' = mkDB (materias db) (alumnos db) (actividades db)
               (let pk := match obj_pk o with Some i => i | None => seq_nota db + 1 end in
                if existsb (fun n => nota_id n =? pk) (notas db)
                then map (fun n => if nota_id n =? pk then mkNota pk a k h else n)
                         (notas db)
                else notas db ++ [mkNota pk a k h])
               (seq_materia db) (seq_alumno db) (seq_actividad db)
               (Z.max (seq_nota db)
                      (match obj_pk o with Some i => i | None => seq_nota db + 1 end)).
Proof.
  unfold Nota_save, Model_save, bind.
  destruct (Nota_clean o) as [[]|] eqn:Hc; [|discriminate].
  destruct (nota_db_value (obj_nota o)) as [h|] eqn:Hh; [|discriminate].
  pose proof (nota_db_value_rango o h Hc Hh) as Hr.
  destruct (obj_alumno o) as [a|]; [|discriminate].
  destruct (obj_actividad o) as [k|]; [|discriminate].
  destruct (constraints_ok _ a k db) eqn:Hco; [|discriminate].
  intros H. inversion H; subst; clear H. exists a, k, h. now repeat split.
Qed.

Lemma constraints_ok_inv (pk a k : Z) (db : DB) :
  constraints_ok pk a k db = true ->
  In a (map alu_id (alumnos db)) /\ In k (map act_id (actividades db))
  /\ forall n, In n (notas db) -> nota_alumno n = a -> nota_actividad n = k ->
               nota_id n = pk.
Proof.
  unfold constraints_ok. rewrite !andb_true_iff, negb_true_iff.
  intros [[Ha Hk] Hn]. split; [|split].
  - apply existsb_exists in Ha. destruct Ha as [x [Hx He]]. apply Z.eqb_eq in He.
    subst. now apply in_map.
  - apply existsb_exists in Hk. destruct Hk as [x [Hx He]]. apply Z.eqb_eq in He.
    subst. now apply in_map.
  - intros n Hin Hna Hnk.
    destruct (nota_id n =? pk) eqn:He; [now apply Z.eqb_eq|].
    assert (existsb (fun n => (nota_alumno n =? a) && (nota_actividad n =? k)
                              && negb (nota_id n =? pk)) (notas db) = true) as Ht.
    { apply existsb_exists. exists n. split; [assumption|].
      rewrite He. subst. now rewrite !Z.eqb_refl. }
    rewrite Ht in Hn. discriminate.
Qed.

(** ** Recording a grade *)

Lemma NotaForm_valid_inv (u : Z) (post : list (string * string)) (db : DB)
  (form : NotaForm) :
  NotaForm_full_clean u post db = Ok form ->
  is_valid form = true ->
  exists al ac sa sk,
    post_get "alumno" post = Some sa /\ Py.int_of_str sa = Some (alu_id al)
    /\ post_get "actividad" post = Some sk /\ Py.int_of_str sk = Some (act_id ac)
    /\ In al (alumnos_en (materias_de u db) db)
    /\ In ac (actividades_en (materias_de u db) db)
    /\ In (act_materia ac) (alu_materias al)
    /\ obj_pk (form_instance form) = None
    /\ obj_alumno (form_instance form) = Some (alu_id al)
    /\ obj_actividad (form_instance form) = Some (act_id ac).
Proof.
  unfold NotaForm_full_clean, is_valid, bind.
  destruct (clean_choice "alumno" _ _) as [ea alumno] eqn:Ha.
  destruct (clean_choice "actividad" _ _) as [ek actividad] eqn:Hk.
  destruct (clean_decimal _ _) as [en nota].
  destruct (NotaForm_clean alumno actividad db) as [ec|] eqn:Hc; [|discriminate].
  destruct (Nota_full_clean _ _ _ db) as [o1|[]]; try discriminate;
    (intros H; inversion H; subst; clear H; cbn [form_errors form_instance];
     destruct ea; [|discriminate]; destruct ek; [|discriminate];
     destruct en; [|discriminate]; destruct ec; [|discriminate]; intros _;
     apply clean_choice_inv in Ha; destruct Ha as [sa [a [al [Hsa [Hia [Hal ->]]]]]];
     apply clean_choice_inv in Hk; destruct Hk as [sk [k [ac [Hsk [Hik [Hac ->]]]]]];
     apply find_key_some in Hal; destruct Hal as [Hal <-];
     apply find_key_some in Hac; destruct Hac as [Hac <-];
     exists al, ac, sa, sk; repeat (split; [assumption || reflexivity|]);
     split; [|repeat split];
     unfold NotaForm_clean, materia_de_actividad, bind in Hc;
     destruct (get_materia (act_materia ac) (materias db)) as [m|] eqn:Hm;
       [|discriminate];
     destruct (mem (mat_id m) (alu_materias al)) eqn:Hmem; [|discriminate];
     apply find_key_some in Hm; destruct Hm as [_ Hid]; rewrite <- Hid;
     now apply mem_In).
Qed.

Lemma manual_pasa_sin_nota (sa sk : string) (a k : Z) (db : DB) :
  Py.int_of_str sa = Some a -> Py.int_of_str sk = Some k ->
  duplicado_o_no_inscrito (Some sa) (Some sk) db = Pasa ->
  existe_nota a k db = false.
Proof.
  intros Ha Hk. unfold duplicado_o_no_inscrito.
  rewrite (truthy_int _ _ Ha), (truthy_int _ _ Hk), Ha, Hk. cbn [andb].
  destruct (existe_nota a k db); [discriminate | reflexivity].
Qed.

Lemma registro_nueva_nota (u : Z) (req : request) (db : DB) (n : Nota) :
  In n (notas (out_db (registro_de_notas u req db))) ->
  In n (notas db)
  \/ (nota_id n = seq_nota db + 1
      /\ nota_en_rango n
      /\ existe_nota (nota_alumno n) (nota_actividad n) db = false
      /\ exists al ac,
           In al (alumnos db) /\ alu_id al = nota_alumno n
           /\ In ac (actividades db) /\ act_id ac = nota_actividad n
           /\ actividad_de u ac db
           /\ In (act_materia ac) (alu_materias al)).
Proof.
  unfold registro_de_notas.
  destruct (req_method req); [now left|].
  destruct (fuera_de_rango _); [now left|].
  destruct (duplicado_o_no_inscrito _ _ db) eqn:Hman; try (now left).
  destruct (NotaForm_full_clean u _ db) as [form|] eqn:Hform; [|now left].
  destruct (is_valid form) eqn:Hv; [|now left].
  destruct (Nota_save (form_instance form) db) as [[o' db']|] eqn:Hs; [|now left].
  destruct (NotaForm_valid_inv _ _ _ _ Hform Hv)
    as [al [ac [sa [sk [Hsa [Hia [Hsk [Hik [Hal [Hac [Hins [Hpk [Hoa Hok]]]]]]]]]]]]].
  apply Nota_save_inv in Hs. destruct Hs as [a [k [h [Ha [Hk [Hh [_ ->]]]]]]].
  rewrite Hpk. rewrite Hoa in Ha. rewrite Hok in Hk.
  inversion Ha; subst a. inversion Hk; subst k.
  cbn [out_db notas]. intros Hn.
  assert (Hn' : In n (notas db)
                \/ n = mkNota (seq_nota db + 1) (alu_id al) (act_id ac) h).
  { destruct (existsb _ (notas db)).
    - apply in_map_iff in Hn. destruct Hn as [n0 [Hn0 Hin]].
      destruct (nota_id n0 =? _); subst; [now right | now left].
    - apply in_app_iff in Hn. destruct Hn as [Hn | [<- | []]]; [now left | now right]. }
  destruct Hn' as [Hn' | ->]; [now left|]. right.
  cbn [nota_id nota_alumno nota_actividad]. split; [reflexivity|].
  split; [exact Hh|]. rewrite Hsa, Hsk in Hman. split.
  - now apply (manual_pasa_sin_nota sa sk).
  - apply In_alumnos_en in Hal. apply In_actividades_en in Hac.
    exists al, ac. split; [tauto|]. split; [reflexivity|]. split; [tauto|].
    split; [reflexivity|]. split; [|assumption].
    destruct Hac as [_ [m Hm]]. exists m. tauto.
Qed.



(** ** Editing a grade *)

Lemma Nota_full_clean_campos (exclude : list string) (b : bool) (o o1 : NotaObj)
  (db : DB) :
  Nota_full_clean exclude b o db = Ok o1 ->
  obj_pk o1 = obj_pk o /\ obj_alumno o1 = obj_alumno o
  /\ obj_actividad o1 = obj_actividad o.
Proof.
  unfold Nota_full_clean, Nota_clean_fields, bind.
  destruct (if excluded "nota" exclude then _ else _) as [e3 v].
  destruct (Nota_clean _) as [[]|[]]; try discriminate;
    (destruct (_ ++ _ ++ _); [|discriminate]; intros H; inversion H; now subst).
Qed.

(** X13. [editar_nota], on any request, changes at most the value of the
    grade it is asked for, a grade on an activity of the teacher: what is
    written keeps the id, the student and the activity, and its value is
    in 0..10.  The ids stay as they were, in the same order, every grade
    with another id stays, and so do the other tables. *)
Theorem editar_nota_solo_valor (i u : Z) (req : request) (db : DB) :
  let db' := out_db (editar_nota i u req db) in
  (forall n, In n (notas db') ->
     In n (notas db)
     \/ (nota_id n = i /\ nota_en_rango n
         /\ exists row, nota_del_profesor u i db = Some row
                        /\ nota_alumno n = nota_alumno row
                        /\ nota_actividad n = nota_actividad row))
  /\ map nota_id (notas db') = map nota_id (notas db)
  /\ (forall n, In n (notas db) -> nota_id n <> i -> In n (notas db'))
  /\ materias db' = materias db
  /\ alumnos db' = alumnos db
  /\ actividades db' = actividades db.
Proof.
  cbv zeta. unfold editar_nota.
  destruct (nota_del_profesor u i db) as [row|] eqn:Hrow; [|cbn; repeat split; auto].
  destruct (req_method req); [cbn; repeat split; auto|].
  destruct (Py.float_of_str _) as [f|]; [|cbn; repeat split; auto].
  destruct (_ && _); [|cbn; repeat split; auto].
  unfold bind.
  destruct (Nota_full_clean _ _ _ db) as [o1|e] eqn:Hfc;
    [|destruct e; cbn; repeat split; auto].
  destruct (Nota_save o1 db) as [[o' db']|e] eqn:Hs;
    [|destruct e; cbn; repeat split; auto].
  apply Nota_full_clean_campos in Hfc. cbn in Hfc. destruct Hfc as [Hpk [Hoa Hok]].
  apply Nota_save_inv in Hs. destruct Hs as [a [k [h [Ha [Hk [Hh [_ ->]]]]]]].
  rewrite Hpk. rewrite Hoa in Ha. rewrite Hok in Hk.
  inversion Ha; subst a. inversion Hk; subst k. clear Ha Hk.
  pose proof Hrow as Hrow'. apply find_key_some in Hrow'. destruct Hrow' as [Hin Hid].
  apply In_notas_en in Hin. destruct Hin as [Hin _]. rewrite Hid.
  assert (Hex : existsb (fun n => nota_id n =? i) (notas db) = true).
  { apply existsb_exists. exists row. split; [assumption|]. now apply Z.eqb_eq. }
  cbn [out_db snd notas materias alumnos actividades]. rewrite Hex.
  split; [|split; [|split; [|repeat split]]].
  - intros n Hn. apply in_map_iff in Hn. destruct Hn as [n0 [Hn0 Hin0]].
    destruct (nota_id n0 =? i); subst; [|now left].
    right. cbn [nota_id nota_alumno nota_actividad]. split; [reflexivity|].
    split; [exact Hh|]. now exists row.
  - rewrite map_map. apply map_ext. intros n.
    destruct (nota_id n =? i) eqn:He; [|reflexivity].
    apply Z.eqb_eq in He. now rewrite He.
  - intros n Hn Hne. apply in_map_iff. exists n. split; [|assumption].
    apply Z.eqb_neq in Hne. now rewrite Hne.
Qed.

(** Teacher 1 changes Alice's grade to 9.5. *)
Lemma editar_nota_solo_valor_witness :
  let req := mkRequest (Some 1) POST [("nota", "9.5")]%string in
  let db' := out_db (editar_nota 1 1 req escuela) in
  notas db' = [mkNota 1 1 1 950]
  /\ (forall n, In n (notas db') ->
        In n (notas escuela)
        \/ (nota_id n = 1 /\ nota_en_rango n
            /\ exists row, nota_del_profesor 1 1 escuela = Some row
                           /\ nota_alumno n = nota_alumno row
                           /\ nota_actividad n = nota_actividad row))
  /\ map nota_id (notas db') = map nota_id (notas escuela)
  /\ (forall n, In n (notas escuela) -> nota_id n <> 1 -> In n (notas db'))
  /\ materias db' = materias escuela
  /\ alumnos db' = alumnos escuela
  /\ actividades db' = actividades escuela.
Proof.
  intros req db'. split; [vm_compute; reflexivity|].
  exact (editar_nota_solo_valor 1 1 req escuela).
Defined.

(** * The constraints of the tables, along every history *)

(** ** Lists of rows *)

Lemma NoDup_map_filter_gen {A B : Type} (campo : A -> B) (queda : A -> bool)
  (filas : list A) :
  NoDup (map campo filas) -> NoDup (map campo (filter queda filas)).
Proof.
  induction filas as [|x filas IH]; simpl; [trivial|].
  intros H. inversion H as [|? ? Hx Hl]; subst.
  destruct (queda x); [|now apply IH]. simpl. constructor; [|now apply IH].
  intros Hin. apply Hx. apply in_map_iff in Hin. destruct Hin as [y [Hy Hin]].
  apply filter_In in Hin. rewrite <- Hy. apply in_map. tauto.
Qed.

Lemma NoDup_map_nuevo {A B : Type} (f : A -> B) (l : list A) (x : A) :
  NoDup (map f l) -> (forall y, In y l -> f y <> f x) -> NoDup (map f (l ++ [x])).
Proof.
  intros Hl Hx. rewrite map_app. cbn [map]. induction l as [|y l IH]; cbn.
  - constructor; [tauto | constructor].
  - inversion Hl as [|? ? Hy Hl']; subst. constructor.
    + rewrite in_app_iff. intros [H | [H | []]]; [contradiction|].
      apply (Hx y); [now left | now symmetry].
    + apply IH; [assumption|]. intros z Hz. apply Hx. now right.
Qed.

Lemma reemplaza_sin_clave {A : Type} (key : A -> Z) (i : Z) (row : A) (l : list A) :
  ~ In i (map key l) -> map (fun x => if key x =? i then row else x) l = l.
Proof.
  induction l as [|x l IH]; cbn; [trivial|]. intros H.
  destruct (key x =? i) eqn:He; [apply Z.eqb_eq in He; tauto|].
  rewrite IH; tauto.
Qed.

Lemma NoDup_map_reemplaza {A B : Type} (key : A -> Z) (f : A -> B) (i : Z) (row : A)
  (l : list A) :
  NoDup (map key l) -> NoDup (map f l) ->
  (forall x, In x l -> key x <> i -> f x <> f row) ->
  NoDup (map f (map (fun x => if key x =? i then row else x) l)).
Proof.
  induction l as [|x l IH]; [trivial|]. intros Hk Hf Hrow.
  cbn [map] in *. inversion Hk as [|? ? Hkx Hkl]; subst.
  inversion Hf as [|? ? Hfx Hfl]; subst.
  destruct (key x =? i) eqn:He.
  - apply Z.eqb_eq in He. subst i. rewrite (reemplaza_sin_clave _ _ _ _ Hkx).
    constructor; [|assumption]. intros Hin. apply in_map_iff in Hin.
    destruct Hin as [y [Hy Hin]]. apply (Hrow y); [now right | | assumption].
    intros Heq. apply Hkx. rewrite <- Heq. now apply in_map.
  - apply Z.eqb_neq in He. constructor.
    + intros Hin. apply in_map_iff in Hin. destruct Hin as [y [Hy Hin]].
      apply in_map_iff in Hin. destruct Hin as [z [Hz Hin]].
      destruct (key z =? i); subst.
      * apply (Hrow x); [now left | assumption | now symmetry].
      * apply Hfx. rewrite <- Hy. now apply in_map.
    + apply IH; [assumption | assumption |]. intros y Hy. apply Hrow. now right.
Qed.

Lemma map_key_reemplaza {A : Type} (key : A -> Z) (i : Z) (row : A) (l : list A) :
  key row = i -> map key (map (fun x => if key x =? i then row else x) l) = map key l.
Proof.
  intros Hrow. rewrite map_map. apply map_ext. intros x.
  destruct (key x =? i) eqn:He; [|reflexivity]. apply Z.eqb_eq in He. congruence.
Qed.

(** ** Primary keys *)

Lemma tabla_ok_filter {A : Type} (key : A -> Z) (p : A -> bool) (l : list A) (s : Z) :
  tabla_ok key l s -> tabla_ok key (filter p l) s.
Proof.
  intros [Hn Hs]. split; [now apply NoDup_map_filter_gen|].
  intros x Hx. apply filter_In in Hx. now apply Hs.
Qed.

Lemma tabla_ok_nuevo {A : Type} (key : A -> Z) (l : list A) (s : Z) (x : A) :
  tabla_ok key l s -> key x = s + 1 -> tabla_ok key (l ++ [x]) (s + 1).
Proof.
  intros [Hn Hs] Hx. split.
  - apply NoDup_map_nuevo; [assumption|]. intros y Hy. specialize (Hs y Hy). lia.
  - intros y Hy. apply in_app_iff in Hy. destruct Hy as [Hy | [<- | []]]; [|lia].
    specialize (Hs y Hy). lia.
Qed.

Lemma tabla_ok_reemplaza {A : Type} (key : A -> Z) (i : Z) (row : A) (l : list A)
  (s : Z) :
  tabla_ok key l s -> key row = i ->
  tabla_ok key (map (fun x => if key x =? i then row else x) l) s.
Proof.
  intros [Hn Hs] Hrow. split; [now rewrite map_key_reemplaza|].
  intros x Hx. apply in_map_iff in Hx.
  destruct Hx as [y [Hy Hin]]. destruct (key y =? i) eqn:He; subst; [|now apply Hs].
  apply Z.eqb_eq in He. rewrite <- He. now apply Hs.
Qed.

Lemma tabla_ok_map {A : Type} (key : A -> Z) (f : A -> A) (l : list A) (s : Z) :
  (forall x, key (f x) = key x) -> tabla_ok key l s -> tabla_ok key (map f l) s.
Proof.
  intros Hf [Hn Hs]. split.
  - rewrite map_map. now rewrite (map_ext _ key Hf).
  - intros x Hx. apply in_map_iff in Hx. destruct Hx as [y [<- Hy]]. rewrite Hf.
    now apply Hs.
Qed.

Lemma tabla_ok_seq {A : Type} (key : A -> Z) (l : list A) (s s' : Z) :
  tabla_ok key l s -> s <= s' -> tabla_ok key l s'.
Proof.
  intros [Hn Hs] Hle. split; [assumption|]. intros x Hx. specialize (Hs x Hx). lia.
Qed.

Lemma Nota_save_claves (o o' : NotaObj) (db db' : DB) :
  Nota_save o db = Ok (o', db') -> claves_ok db -> claves_ok db'.
Proof.
  intros Hs [Hm [Ha [Hk Hn]]]. apply Nota_save_inv in Hs.
  destruct Hs as [a [k [h [_ [_ [_ [_ ->]]]]]]].
  split; [exact Hm|]. split; [exact Ha|]. split; [exact Hk|].
  cbn [notas seq_nota]. set (pk := match obj_pk o with Some i => i | None => _ end).
  destruct (existsb _ (notas db)) eqn:Hex.
  - apply (tabla_ok_seq _ _ (seq_nota db)); [|lia].
    now apply (tabla_ok_reemplaza nota_id pk).
  - destruct Hn as [Hn Hs]. split.
    + apply NoDup_map_nuevo; [assumption|]. intros y Hy Heq. cbn in Heq.
      assert (existsb (fun n => nota_id n =? pk) (notas db) = true) as Ht
          by (apply existsb_exists; exists y; split; [assumption | now apply Z.eqb_eq]).
      rewrite Ht in Hex. discriminate.
    + intros y Hy. apply in_app_iff in Hy. destruct Hy as [Hy | [<- | []]].
      * specialize (Hs y Hy). lia.
      * cbn. lia.
Qed.

Lemma vista_claves (valid_email : string -> bool) (parse_fecha : string -> option Z)
  (op : operacion) (req : request) (db : DB) :
  claves_ok db -> claves_ok (out_db (vista valid_email parse_fecha op req db)).
Proof.
  intros Hdb. pose proof Hdb as [Hm [Ha [Hk Hn]]].
  unfold vista, login_required. destruct (req_user req) as [u|]; [|exact Hdb].
  destruct op as [|i|i| |i|i| |i|i| |i|i].
  - unfold crear_alumno. destruct (req_method req); [exact Hdb|].
    destruct (AlumnoForm_clean _ _ _ _ db) as [[|e es] r] eqn:Hf; [|exact Hdb].
    apply AlumnoForm_clean_inv in Hf. destruct Hf as [Hid _].
    split; [exact Hm|]. split; [|split; assumption].
    now apply tabla_ok_nuevo.
  - unfold editar_alumno. destruct (get_alumno i _) as [a0|] eqn:Ha0; [|exact Hdb].
    destruct (req_method req); [exact Hdb|].
    destruct (AlumnoForm_clean _ _ _ _ db) as [[|e es] r] eqn:Hf; [|exact Hdb].
    apply AlumnoForm_clean_inv in Hf. destruct Hf as [Hid _].
    split; [exact Hm|]. split; [|split; assumption].
    now apply (tabla_ok_reemplaza alu_id).
  - unfold eliminar_alumno. destruct (get_alumno i _); [|exact Hdb].
    destruct (req_method req); [exact Hdb|].
    split; [exact Hm|]. split; [|split; [exact Hk|]]; now apply tabla_ok_filter.
  - unfold crear_materia. destruct (req_method req); [exact Hdb|].
    destruct (MateriaForm_clean _) as [[|e es] r]; [|exact Hdb].
    split; [|split; [|split]; assumption]. now apply tabla_ok_nuevo.
  - unfold editar_materia. destruct (materia_del_profesor u i db) as [m0|] eqn:Hm0;
      [|exact Hdb].
    destruct (req_method req); [exact Hdb|].
    destruct (MateriaForm_clean _) as [[|e es] r]; [|exact Hdb].
    split; [|split; [|split]; assumption].
    cbn [out_db materias set_materias seq_materia].
    split.
    + rewrite map_map. rewrite (map_ext _ mat_id); [exact (proj1 Hm)|].
      intros m. now destruct (mat_id m =? _).
    + intros m Hin. apply in_map_iff in Hin. destruct Hin as [m1 [Hm1 Hin]].
      pose proof (proj2 Hm m1 Hin) as Hle.
      destruct (mat_id m1 =? _); subst; exact Hle.
  - unfold eliminar_materia. destruct (materia_del_profesor u i db); [|exact Hdb].
    destruct (req_method req); [exact Hdb|].
    split; [|split; [|split]].
    + now apply tabla_ok_filter.
    + cbn. now apply (tabla_ok_map alu_id).
    + now apply tabla_ok_filter.
    + now apply tabla_ok_filter.
  - unfold crear_actividad. destruct (req_method req); [exact Hdb|].
    destruct (ActividadForm_clean _ _ _ _ db) as [[|e es] r] eqn:Hf; [|exact Hdb].
    apply ActividadForm_clean_inv in Hf. destruct Hf as [Hid _].
    split; [exact Hm|]. split; [exact Ha|]. split; [|exact Hn].
    now apply tabla_ok_nuevo.
  - unfold editar_actividad.
    destruct (actividad_del_profesor u i db) as [k0|] eqn:Hk0; [|exact Hdb].
    destruct (req_method req); [exact Hdb|].
    destruct (ActividadForm_clean _ _ _ _ db) as [[|e es] r] eqn:Hf; [|exact Hdb].
    apply ActividadForm_clean_inv in Hf. destruct Hf as [Hid _].
    split; [exact Hm|]. split; [exact Ha|]. split; [|exact Hn].
    now apply (tabla_ok_reemplaza act_id).
  - unfold eliminar_actividad. destruct (actividad_del_profesor u i db); [|exact Hdb].
    destruct (req_method req); [exact Hdb|].
    split; [exact Hm|]. split; [exact Ha|]. split; now apply tabla_ok_filter.
  - unfold registro_de_notas.
    destruct (req_method req); [exact Hdb|].
    destruct (fuera_de_rango _); [exact Hdb|].
    destruct (duplicado_o_no_inscrito _ _ db); try exact Hdb.
    destruct (NotaForm_full_clean u _ db) as [form|]; [|exact Hdb].
    destruct (is_valid form); [|exact Hdb].
    destruct (Nota_save (form_instance form) db) as [[o' db']|] eqn:Hs; [|exact Hdb].
    exact (Nota_save_claves _ _ _ _ Hs Hdb).
  - unfold editar_nota.
    destruct (nota_del_profesor u i db) as [row|]; [|exact Hdb].
    destruct (req_method req); [exact Hdb|].
    destruct (Py.float_of_str _) as [f|]; [|exact Hdb].
    destruct (_ && _); [|exact Hdb].
    unfold bind.
    destruct (Nota_full_clean _ _ _ db) as [o1|e]; [|destruct e; exact Hdb].
    destruct (Nota_save o1 db) as [[o' db']|e] eqn:Hs; [|destruct e; exact Hdb].
    exact (Nota_save_claves _ _ _ _ Hs Hdb).
  - unfold eliminar_nota. destruct (nota_del_profesor u i db); [|exact Hdb].
    destruct (req_method req); [exact Hdb|].
    split; [exact Hm|]. split; [exact Ha|]. split; [exact Hk|].
    now apply tabla_ok_filter.
Qed.

(** ** Foreign keys *)

Lemma In_map_app_l {A : Type} (key : A -> Z) (l : list A) (x : A) (i : Z) :
  In i (map key l) -> In i (map key (l ++ [x])).
Proof. rewrite map_app, in_app_iff. tauto. Qed.

Lemma In_map_filter_neq {A : Type} (key : A -> Z) (l : list A) (i j : Z) :
  In j (map key l) -> j <> i -> In j (map key (filter (fun x => negb (key x =? i)) l)).
Proof.
  intros Hin Hne. apply in_map_iff in Hin. destruct Hin as [x [<- Hx]].
  apply in_map. apply filter_In. split; [assumption|].
  now apply negb_true_iff, Z.eqb_neq.
Qed.

Lemma Nota_save_referencias (o o' : NotaObj) (db db' : DB) :
  Nota_save o db = Ok (o', db') -> referencias_ok db -> referencias_ok db'.
Proof.
  intros Hs [R1 R2 R3 R4]. apply Nota_save_inv in Hs.
  destruct Hs as [a [k [h [_ [_ [_ [Hco ->]]]]]]].
  apply constraints_ok_inv in Hco. destruct Hco as [Ha [Hk _]].
  constructor; cbn [materias alumnos actividades notas]; try assumption.
  - intros n Hn. destruct (existsb _ (notas db)).
    + apply in_map_iff in Hn. destruct Hn as [n0 [Hn0 Hin]].
      destruct (nota_id n0 =? _); subst; [exact Ha | now apply R2].
    + apply in_app_iff in Hn. destruct Hn as [Hn | [<- | []]]; [now apply R2 | exact Ha].
  - intros n Hn. destruct (existsb _ (notas db)).
    + apply in_map_iff in Hn. destruct Hn as [n0 [Hn0 Hin]].
      destruct (nota_id n0 =? _); subst; [exact Hk | now apply R3].
    + apply in_app_iff in Hn. destruct Hn as [Hn | [<- | []]]; [now apply R3 | exact Hk].
Qed.

Lemma delete_materia_referencias (i : Z) (db : DB) :
  referencias_ok db -> referencias_ok (delete_materia i db).
Proof.
  intros [R1 R2 R3 R4]. constructor.
  - intros k Hk. apply delete_materia_actividades in Hk. destruct Hk as [Hk Hne].
    unfold delete_materia. cbn [materias set_materias].
    apply In_map_filter_neq; [now apply R1 | assumption].
  - intros n Hn. apply delete_materia_notas in Hn. destruct Hn as [Hn _].
    unfold delete_materia. cbn [alumnos set_materias set_alumnos].
    rewrite map_map. cbn [alu_id]. now apply R2.
  - intros n Hn. apply delete_materia_notas in Hn. destruct Hn as [Hn Hk].
    specialize (R3 n Hn). apply in_map_iff in R3. destruct R3 as [k [Hid Hin]].
    rewrite <- Hid. apply in_map. apply delete_materia_actividades.
    split; [assumption|]. intros Hm. apply (Hk k Hin Hm). now symmetry.
  - intros a j Ha Hj. unfold delete_materia in *.
    cbn [materias alumnos set_materias set_alumnos] in *.
    apply in_map_iff in Ha. destruct Ha as [a0 [<- Ha0]]. cbn [alu_materias] in Hj.
    apply filter_In in Hj. destruct Hj as [Hj Hne].
    apply negb_true_iff, Z.eqb_neq in Hne.
    apply In_map_filter_neq; [now apply (R4 a0) | assumption].
Qed.

Lemma vista_referencias (valid_email : string -> bool) (parse_fecha : string -> option Z)
  (op : operacion) (req : request) (db : DB) :
  referencias_ok db ->
  referencias_ok (out_db (vista valid_email parse_fecha op req db)).
Proof.
  intros Hdb. pose proof Hdb as [R1 R2 R3 R4].
  unfold vista, login_required. destruct (req_user req) as [u|]; [|exact Hdb].
  destruct op as [|i|i| |i|i| |i|i| |i|i].
  - unfold crear_alumno. destruct (req_method req); [exact Hdb|].
    destruct (AlumnoForm_clean _ _ _ _ db) as [[|e es] r] eqn:Hf; [|exact Hdb].
    apply AlumnoForm_clean_inv in Hf. destruct Hf as [_ [_ [_ [_ [_ Hms]]]]].
    constructor; cbn [out_db materias alumnos actividades notas]; try assumption.
    + intros n Hn. apply In_map_app_l. now apply R2.
    + intros a j Ha Hj. apply in_app_iff in Ha. destruct Ha as [Ha | [<- | []]].
      * now apply (R4 a).
      * destruct (Hms j Hj) as [m [Hm [_ <-]]]. now apply in_map.
  - unfold editar_alumno. destruct (get_alumno i _) as [a0|] eqn:Ha0; [|exact Hdb].
    destruct (req_method req); [exact Hdb|].
    destruct (AlumnoForm_clean _ _ _ _ db) as [[|e es] r] eqn:Hf; [|exact Hdb].
    apply AlumnoForm_clean_inv in Hf. destruct Hf as [Hid [_ [_ [_ [_ Hms]]]]].
    constructor;
      cbn [out_db materias alumnos actividades notas set_alumnos]; try assumption.
    + intros n Hn. rewrite map_key_reemplaza; [now apply R2 | assumption].
    + intros a j Ha Hj. apply in_map_iff in Ha. destruct Ha as [a1 [Ha1 Hin]].
      destruct (alu_id a1 =? _); subst.
      * destruct (Hms j Hj) as [m [Hm [_ <-]]]. now apply in_map.
      * now apply (R4 a).
  - unfold eliminar_alumno. destruct (get_alumno i _) as [a0|] eqn:Ha0; [|exact Hdb].
    destruct (req_method req); [exact Hdb|].
    unfold delete_alumno.
    constructor;
      cbn [out_db materias alumnos actividades notas set_alumnos set_notas];
      try assumption.
    + intros n Hn. apply filter_In in Hn. destruct Hn as [Hn Hne].
      apply negb_true_iff, Z.eqb_neq in Hne.
      apply In_map_filter_neq; [now apply R2 | assumption].
    + intros n Hn. apply filter_In in Hn. now apply R3.
    + intros a j Ha Hj. apply filter_In in Ha. now apply (R4 a).
  - unfold crear_materia. destruct (req_method req); [exact Hdb|].
    destruct (MateriaForm_clean _) as [[|e es] r]; [|exact Hdb].
    constructor; cbn [out_db materias alumnos actividades notas]; try assumption.
    + intros k Hk. apply In_map_app_l. now apply R1.
    + intros a j Ha Hj. apply In_map_app_l. now apply (R4 a).
  - unfold editar_materia. destruct (materia_del_profesor u i db) as [m0|] eqn:Hm0;
      [|exact Hdb].
    destruct (req_method req); [exact Hdb|].
    destruct (MateriaForm_clean _) as [[|e es] r]; [|exact Hdb].
    assert (Hids : map mat_id
                     (map (fun m => if mat_id m =? mat_id m0
                                    then mkMateria (mat_id m) r (mat_profesor m)
                                    else m) (materias db))
                   = map mat_id (materias db))
      by (now apply (map_reemplaza_clave mat_id (mat_id m0)
                       (fun m => mkMateria (mat_id m) r (mat_profesor m)))).
    constructor;
      cbn [out_db materias alumnos actividades notas set_materias]; try assumption.
    + intros k Hk. rewrite Hids. now apply R1.
    + intros a j Ha Hj. rewrite Hids. now apply (R4 a).
  - unfold eliminar_materia.
    destruct (materia_del_profesor u i db) as [m0|]; [|exact Hdb].
    destruct (req_method req); [exact Hdb|].
    now apply delete_materia_referencias.
  - unfold crear_actividad. destruct (req_method req); [exact Hdb|].
    destruct (ActividadForm_clean _ _ _ _ db) as [[|e es] r] eqn:Hf; [|exact Hdb].
    apply ActividadForm_clean_inv in Hf. destruct Hf as [_ [[m [Hm [_ Hid]]] _]].
    constructor; cbn [out_db materias alumnos actividades notas]; try assumption.
    + intros k Hk. apply in_app_iff in Hk. destruct Hk as [Hk | [<- | []]].
      * now apply R1.
      * rewrite <- Hid. now apply in_map.
    + intros n Hn. apply In_map_app_l. now apply R3.
  - unfold editar_actividad.
    destruct (actividad_del_profesor u i db) as [k0|] eqn:Hk0; [|exact Hdb].
    destruct (req_method req); [exact Hdb|].
    destruct (ActividadForm_clean _ _ _ _ db) as [[|e es] r] eqn:Hf; [|exact Hdb].
    apply ActividadForm_clean_inv in Hf. destruct Hf as [Hpk [[m [Hm [_ Hid]]] _]].
    constructor;
      cbn [out_db materias alumnos actividades notas set_actividades]; try assumption.
    + intros k Hk. apply in_map_iff in Hk. destruct Hk as [k1 [Hk1 Hin]].
      destruct (act_id k1 =? _); subst.
      * rewrite <- Hid. now apply in_map.
      * now apply R1.
    + intros n Hn. rewrite map_key_reemplaza; [now apply R3 | assumption].
  - unfold eliminar_actividad.
    destruct (actividad_del_profesor u i db) as [k0|]; [|exact Hdb].
    destruct (req_method req); [exact Hdb|].
    unfold delete_actividad.
    constructor;
      cbn [out_db materias alumnos actividades notas set_actividades set_notas];
      try assumption.
    + intros k Hk. apply filter_In in Hk. now apply R1.
    + intros n Hn. apply filter_In in Hn. now apply R2.
    + intros n Hn. apply filter_In in Hn. destruct Hn as [Hn Hne].
      apply negb_true_iff, Z.eqb_neq in Hne.
      apply In_map_filter_neq; [now apply R3 | assumption].
  - unfold registro_de_notas.
    destruct (req_method req); [exact Hdb|].
    destruct (fuera_de_rango _); [exact Hdb|].
    destruct (duplicado_o_no_inscrito _ _ db); try exact Hdb.
    destruct (NotaForm_full_clean u _ db) as [form|]; [|exact Hdb].
    destruct (is_valid form); [|exact Hdb].
    destruct (Nota_save (form_instance form) db) as [[o' db']|] eqn:Hs; [|exact Hdb].
    exact (Nota_save_referencias _ _ _ _ Hs Hdb).
  - unfold editar_nota.
    destruct (nota_del_profesor u i db) as [row|]; [|exact Hdb].
    destruct (req_method req); [exact Hdb|].
    destruct (Py.float_of_str _) as [f|]; [|exact Hdb].
    destruct (_ && _); [|exact Hdb].
    unfold bind.
    destruct (Nota_full_clean _ _ _ db) as [o1|e]; [|destruct e; exact Hdb].
    destruct (Nota_save o1 db) as [[o' db']|e] eqn:Hs; [|destruct e; exact Hdb].
    exact (Nota_save_referencias _ _ _ _ Hs Hdb).
  - unfold eliminar_nota. destruct (nota_del_profesor u i db) as [row|]; [|exact Hdb].
    destruct (req_method req); [exact Hdb|].
    unfold delete_nota.
    constructor; cbn [out_db materias alumnos actividades notas set_notas];
      try assumption.
    + intros n Hn. apply filter_In in Hn. now apply R2.
    + intros n Hn. apply filter_In in Hn. now apply R3.
Qed.

(** ** One grade for a student and an activity *)

Lemma Nota_save_pares (o o' : NotaObj) (db db' : DB) :
  Nota_save o db = Ok (o', db') -> NoDup (map nota_id (notas db)) ->
  pares_unicos db -> pares_unicos db'.
Proof.
  intros Hs Hn Hp. apply Nota_save_inv in Hs.
  destruct Hs as [a [k [h [_ [_ [_ [Hco ->]]]]]]].
  apply constraints_ok_inv in Hco. destruct Hco as [_ [_ Hco]].
  unfold pares_unicos in *. cbn [notas].
  set (pk := match obj_pk o with Some i => i | None => _ end) in *.
  destruct (existsb _ (notas db)) eqn:Hex.
  - apply (NoDup_map_reemplaza nota_id); [assumption | assumption |].
    intros x Hx Hne Heq. cbn in Heq. inversion Heq. now apply Hne, Hco.
  - apply NoDup_map_nuevo; [assumption|]. intros y Hy Heq. cbn in Heq.
    inversion Heq.
    assert (existsb (fun n => nota_id n =? pk) (notas db) = true) as Ht.
    { apply existsb_exists. exists y. split; [assumption|].
      apply Z.eqb_eq. now apply Hco. }
    rewrite Ht in Hex. discriminate.
Qed.

Lemma vista_pares (valid_email : string -> bool) (parse_fecha : string -> option Z)
  (op : operacion) (req : request) (db : DB) :
  NoDup (map nota_id (notas db)) -> pares_unicos db ->
  pares_unicos (out_db (vista valid_email parse_fecha op req db)).
Proof.
  intros Hn Hdb.
  unfold vista, login_required. destruct (req_user req) as [u|]; [|exact Hdb].
  destruct op as [|i|i| |i|i| |i|i| |i|i].
  - unfold crear_alumno. destruct (req_method req); [exact Hdb|].
    destruct (AlumnoForm_clean _ _ _ _ db) as [[|e es] r]; exact Hdb.
  - unfold editar_alumno. destruct (get_alumno i _) as [a0|]; [|exact Hdb].
    destruct (req_method req); [exact Hdb|].
    destruct (AlumnoForm_clean _ _ _ _ db) as [[|e es] r]; exact Hdb.
  - unfold eliminar_alumno. destruct (get_alumno i _) as [a0|]; [|exact Hdb].
    destruct (req_method req); [exact Hdb|].
    now apply NoDup_map_filter_gen.
  - unfold crear_materia. destruct (req_method req); [exact Hdb|].
    destruct (MateriaForm_clean _) as [[|e es] r]; exact Hdb.
  - unfold editar_materia. destruct (materia_del_profesor u i db) as [m0|]; [|exact Hdb].
    destruct (req_method req); [exact Hdb|].
    destruct (MateriaForm_clean _) as [[|e es] r]; exact Hdb.
  - unfold eliminar_materia.
    destruct (materia_del_profesor u i db) as [m0|]; [|exact Hdb].
    destruct (req_method req); [exact Hdb|].
    now apply NoDup_map_filter_gen.
  - unfold crear_actividad. destruct (req_method req); [exact Hdb|].
    destruct (ActividadForm_clean _ _ _ _ db) as [[|e es] r]; exact Hdb.
  - unfold editar_actividad.
    destruct (actividad_del_profesor u i db) as [k0|]; [|exact Hdb].
    destruct (req_method req); [exact Hdb|].
    destruct (ActividadForm_clean _ _ _ _ db) as [[|e es] r]; exact Hdb.
  - unfold eliminar_actividad.
    destruct (actividad_del_profesor u i db) as [k0|]; [|exact Hdb].
    destruct (req_method req); [exact Hdb|].
    now apply NoDup_map_filter_gen.
  - unfold registro_de_notas.
    destruct (req_method req); [exact Hdb|].
    destruct (fuera_de_rango _); [exact Hdb|].
    destruct (duplicado_o_no_inscrito _ _ db); try exact Hdb.
    destruct (NotaForm_full_clean u _ db) as [form|]; [|exact Hdb].
    destruct (is_valid form); [|exact Hdb].
    destruct (Nota_save (form_instance form) db) as [[o' db']|] eqn:Hs; [|exact Hdb].
    exact (Nota_save_pares _ _ _ _ Hs Hn Hdb).
  - unfold editar_nota.
    destruct (nota_del_profesor u i db) as [row|]; [|exact Hdb].
    destruct (req_method req); [exact Hdb|].
    destruct (Py.float_of_str _) as [f|]; [|exact Hdb].
    destruct (_ && _); [|exact Hdb].
    unfold bind.
    destruct (Nota_full_clean _ _ _ db) as [o1|e]; [|destruct e; exact Hdb].
    destruct (Nota_save o1 db) as [[o' db']|e] eqn:Hs; [|destruct e; exact Hdb].
    exact (Nota_save_pares _ _ _ _ Hs Hn Hdb).
  - unfold eliminar_nota. destruct (nota_del_profesor u i db) as [row|]; [|exact Hdb].
    destruct (req_method req); [exact Hdb|].
    now apply NoDup_map_filter_gen.
Qed.

(** ** One student for an address *)

Lemma Nota_save_alumnos (o o' : NotaObj) (db db' : DB) :
  Nota_save o db = Ok (o', db') -> alumnos db' = alumnos db.
Proof.
  intros Hs. apply Nota_save_inv in Hs.
  destruct Hs as [a [k [h [_ [_ [_ [_ ->]]]]]]]. reflexivity.
Qed.

Lemma vista_correos (valid_email : string -> bool) (parse_fecha : string -> option Z)
  (op : operacion) (req : request) (db : DB) :
  NoDup (map alu_id (alumnos db)) -> correos_unicos db ->
  correos_unicos (out_db (vista valid_email parse_fecha op req db)).
Proof.
  intros Hn Hdb.
  unfold vista, login_required. destruct (req_user req) as [u|]; [|exact Hdb].
  destruct op as [|i|i| |i|i| |i|i| |i|i].
  - unfold crear_alumno. destruct (req_method req); [exact Hdb|].
    destruct (AlumnoForm_clean _ _ _ _ db) as [[|e es] r] eqn:Hf; [|exact Hdb].
    apply AlumnoForm_clean_inv in Hf. destruct Hf as [_ [_ [_ [Hc _]]]].
    apply NoDup_map_nuevo; [assumption|]. intros b Hb Heq.
    specialize (Hc b Hb Heq). discriminate.
  - unfold editar_alumno. destruct (get_alumno i _) as [a0|]; [|exact Hdb].
    destruct (req_method req); [exact Hdb|].
    destruct (AlumnoForm_clean _ _ _ _ db) as [[|e es] r] eqn:Hf; [|exact Hdb].
    apply AlumnoForm_clean_inv in Hf. destruct Hf as [_ [_ [_ [Hc _]]]].
    apply (NoDup_map_reemplaza alu_id); [assumption | assumption |].
    intros b Hb Hne Heq. specialize (Hc b Hb Heq). congruence.
  - unfold eliminar_alumno. destruct (get_alumno i _) as [a0|]; [|exact Hdb].
    destruct (req_method req); [exact Hdb|].
    now apply NoDup_map_filter_gen.
  - unfold crear_materia. destruct (req_method req); [exact Hdb|].
    destruct (MateriaForm_clean _) as [[|e es] r]; exact Hdb.
  - unfold editar_materia. destruct (materia_del_profesor u i db) as [m0|]; [|exact Hdb].
    destruct (req_method req); [exact Hdb|].
    destruct (MateriaForm_clean _) as [[|e es] r]; exact Hdb.
  - unfold eliminar_materia.
    destruct (materia_del_profesor u i db) as [m0|]; [|exact Hdb].
    destruct (req_method req); [exact Hdb|].
    unfold correos_unicos, delete_materia.
    cbn [out_db alumnos set_materias set_alumnos]. rewrite map_map. exact Hdb.
  - unfold crear_actividad. destruct (req_method req); [exact Hdb|].
    destruct (ActividadForm_clean _ _ _ _ db) as [[|e es] r]; exact Hdb.
  - unfold editar_actividad.
    destruct (actividad_del_profesor u i db) as [k0|]; [|exact Hdb].
    destruct (req_method req); [exact Hdb|].
    destruct (ActividadForm_clean _ _ _ _ db) as [[|e es] r]; exact Hdb.
  - unfold eliminar_actividad.
    destruct (actividad_del_profesor u i db) as [k0|]; [|exact Hdb].
    destruct (req_method req); [exact Hdb|]. exact Hdb.
  - unfold registro_de_notas.
    destruct (req_method req); [exact Hdb|].
    destruct (fuera_de_rango _); [exact Hdb|].
    destruct (duplicado_o_no_inscrito _ _ db); try exact Hdb.
    destruct (NotaForm_full_clean u _ db) as [form|]; [|exact Hdb].
    destruct (is_valid form); [|exact Hdb].
    destruct (Nota_save (form_instance form) db) as [[o' db']|] eqn:Hs; [|exact Hdb].
    unfold correos_unicos. cbn [out_db]. now rewrite (Nota_save_alumnos _ _ _ _ Hs).
  - unfold editar_nota.
    destruct (nota_del_profesor u i db) as [row|]; [|exact Hdb].
    destruct (req_method req); [exact Hdb|].
    destruct (Py.float_of_str _) as [f|]; [|exact Hdb].
    destruct (_ && _); [|exact Hdb].
    unfold bind.
    destruct (Nota_full_clean _ _ _ db) as [o1|e]; [|destruct e; exact Hdb].
    destruct (Nota_save o1 db) as [[o' db']|e] eqn:Hs; [|destruct e; exact Hdb].
    unfold correos_unicos. cbn [out_db snd]. now rewrite (Nota_save_alumnos _ _ _ _ Hs).
  - unfold eliminar_nota. destruct (nota_del_profesor u i db) as [row|]; [|exact Hdb].
    destruct (req_method req); [exact Hdb|]. exact Hdb.
Qed.

(** ** Along every history *)

Lemma historia_invariantes (valid_email : string -> bool)
  (parse_fecha : string -> option Z) (db : DB) :
  historia valid_email parse_fecha db ->
  claves_ok db /\ referencias_ok db /\ pares_unicos db /\ correos_unicos db.
Proof.
  induction 1 as [|op req db H [Hc [Hr [Hp He]]]|o o' db db' H [Hc [Hr [Hp He]]] Hs].
  - split; [|split; [|split]].
    + repeat split; try constructor; intros x [].
    + constructor; cbn; intros; contradiction.
    + constructor.
    + constructor.
  - split; [now apply vista_claves|]. split; [now apply vista_referencias|].
    split.
    + apply vista_pares; [exact (proj1 (proj2 (proj2 (proj2 Hc)))) | assumption].
    + apply vista_correos; [exact (proj1 (proj1 (proj2 Hc))) | assumption].
  - split; [exact (Nota_save_claves _ _ _ _ Hs Hc)|].
    split; [exact (Nota_save_referencias _ _ _ _ Hs Hr)|]. split.
    + exact (Nota_save_pares _ _ _ _ Hs (proj1 (proj2 (proj2 (proj2 Hc)))) Hp).
    + unfold correos_unicos. now rewrite (Nota_save_alumnos _ _ _ _ Hs).
Qed.

(** X14. Along every history of the application (its views on any
    requests, and [Nota.save] on any object) no reference dangles: the
    subject of every activity, the student and the activity of every grade
    and every subject a student is enrolled in are rows. *)
Theorem historia_sin_referencias_rotas (valid_email : string -> bool)
  (parse_fecha : string -> option Z) (db : DB) :
  historia valid_email parse_fecha db ->
  (forall k, In k (actividades db) -> exists m, In m (materias db) /\ mat_id m = act_materia k)
  /\ (forall n, In n (notas db) -> exists a, In a (alumnos db) /\ alu_id a = nota_alumno n)
  /\ (forall n, In n (notas db) ->
                exists k, In k (actividades db) /\ act_id k = nota_actividad n)
  /\ (forall a i, In a (alumnos db) -> In i (alu_materias a) ->
                  exists m, In m (materias db) /\ mat_id m = i).
Proof.
  intros H. apply historia_invariantes in H. destruct H as [_ [[R1 R2 R3 R4] _]].
  split; [|split; [|split]].
  - intros k Hk. specialize (R1 k Hk). apply in_map_iff in R1.
    destruct R1 as [m [Hid Hm]]. now exists m.
  - intros n Hn. specialize (R2 n Hn). apply in_map_iff in R2.
    destruct R2 as [a [Hid Ha]]. now exists a.
  - intros n Hn. specialize (R3 n Hn). apply in_map_iff in R3.
    destruct R3 as [k [Hid Hk]]. now exists k.
  - intros a i Ha Hi. specialize (R4 a i Ha Hi). apply in_map_iff in R4.
    destruct R4 as [m [Hid Hm]]. now exists m.
Qed.

(** Along the run of [aula] every reference is to a row. *)
Lemma historia_sin_referencias_rotas_witness :
  (forall k, In k (actividades aula) ->
             exists m, In m (materias aula) /\ mat_id m = act_materia k)
  /\ (forall n, In n (notas aula) -> exists a, In a (alumnos aula) /\ alu_id a = nota_alumno n)
  /\ (forall n, In n (notas aula) ->
                exists k, In k (actividades aula) /\ act_id k = nota_actividad n)
  /\ (forall a i, In a (alumnos aula) -> In i (alu_materias a) ->
                  exists m, In m (materias aula) /\ mat_id m = i).
Proof.
  assert (Haula : historia siempre un_dia aula).
  { unfold aula. repeat apply historia_vista. apply historia_vacia. }
  exact (historia_sin_referencias_rotas siempre un_dia aula Haula).
Defined.

(** X15. Along every history no student has two grades on one activity,
    and no two grades share an id. *)
Theorem historia_una_nota_por_par (valid_email : string -> bool)
  (parse_fecha : string -> option Z) (db : DB) :
  historia valid_email parse_fecha db ->
  forall n1 n2, In n1 (notas db) -> In n2 (notas db) ->
    (nota_alumno n1 = nota_alumno n2 /\ nota_actividad n1 = nota_actividad n2)
    \/ nota_id n1 = nota_id n2 ->
    n1 = n2.
Proof.
  intros H. apply historia_invariantes in H.
  destruct H as [[_ [_ [_ [Hn _]]]] [_ [Hp _]]]. intros n1 n2 H1 H2 [[Ha Hk] | Hid].
  - apply (id_unico_en_tabla (fun n => (nota_alumno n, nota_actividad n)) (notas db));
      try assumption. now rewrite Ha, Hk.
  - now apply (id_unico_en_tabla nota_id (notas db)).
Qed.

(** In the database of [aula] after the save by hand, Alice has one grade
    on the Midterm. *)
Lemma historia_una_nota_por_par_witness :
  notas aula_a_mano = [mkNota 1 1 1 999]
  /\ forall n1 n2, In n1 (notas aula_a_mano) -> In n2 (notas aula_a_mano) ->
       (nota_alumno n1 = nota_alumno n2 /\ nota_actividad n1 = nota_actividad n2)
       \/ nota_id n1 = nota_id n2 ->
       n1 = n2.
Proof.
  assert (Haula : historia siempre un_dia aula).
  { unfold aula. repeat apply historia_vista. apply historia_vacia. }
  split; [vm_compute; reflexivity|].
  apply (historia_una_nota_por_par siempre un_dia).
  apply (historia_save siempre un_dia nota_a_mano nota_a_mano aula aula_a_mano Haula).
  vm_compute. reflexivity.
Defined.

(** X16. Along every history no two students share an address, and no
    two share an id: the check of [AlumnoForm] on creation and on edit is
    enough for [unique=True]. *)
Theorem historia_un_alumno_por_correo (valid_email : string -> bool)
  (parse_fecha : string -> option Z) (db : DB) :
  historia valid_email parse_fecha db ->
  forall a b, In a (alumnos db) -> In b (alumnos db) ->
    alu_correo a = alu_correo b \/ alu_id a = alu_id b -> a = b.
Proof.
  intros H. apply historia_invariantes in H.
  destruct H as [[_ [[Hn _] _]] [_ [_ Hc]]]. intros a b Ha Hb [Heq | Heq].
  - now apply (id_unico_en_tabla alu_correo (alumnos db)).
  - now apply (id_unico_en_tabla alu_id (alumnos db)).
Qed.

(** A second student with Alice's address is not created. *)
Lemma historia_un_alumno_por_correo_witness :
  let db := out_db (vista siempre un_dia CrearAlumno
                      (mkRequest (Some 1) POST
                         [("nombre", "Alicia"); ("correo", "alice@x.com");
                          ("materias", "1")]%string) aula) in
  alumnos db = [mkAlumno 1 "Alice" "alice@x.com" [1]]
  /\ forall a b, In a (alumnos db) -> In b (alumnos db) ->
       alu_correo a = alu_correo b \/ alu_id a = alu_id b -> a = b.
Proof.
  assert (Haula : historia siempre un_dia aula).
  { unfold aula. repeat apply historia_vista. apply historia_vacia. }
  intros db. split; [vm_compute; reflexivity|].
  apply (historia_un_alumno_por_correo siempre un_dia).
  apply historia_vista. exact Haula.
Defined.

(** * Edge cases of the views *)

(** ** A value the form does not take *)

Lemma clean_decimal_none (name : string) (v : option string) (en : list FormError) :
  clean_decimal name v = (en, None) -> exists t, en = [mkError name t].
Proof.
  unfold clean_decimal, required_error. destruct (truthy v).
  - destruct v as [s|].
    + destruct (Py.decimal_of_str s) as [d|].
      * destruct (DecimalValidator _ _ d) as [e|]; [|discriminate].
        intros H. inversion H. now eexists.
      * intros H. inversion H. now eexists.
    + intros H. inversion H. now eexists.
  - intros H. inversion H. now eexists.
Qed.

Lemma clean_choice_some {A : Type} (name : string) (get : Z -> option A)
  (v : option string) (e : list FormError) (x : A) :
  clean_choice name get v = (e, Some x) -> exists i, get i = Some x.
Proof.
  unfold clean_choice. destruct (truthy v); [|discriminate].
  destruct v as [s|]; [|discriminate].
  destruct (Py.int_of_str s) as [i|]; [|discriminate].
  destruct (get i) as [y|] eqn:Hy; [|discriminate].
  intros H. inversion H; subst. now exists i.
Qed.

Lemma NotaForm_clean_no_falla (u : Z) (alumno : option Alumno)
  (actividad : option Actividad) (db : DB) :
  (forall ac, actividad = Some ac -> In ac (actividades_en (materias_de u db) db)) ->
  exists ec, NotaForm_clean alumno actividad db = Ok ec.
Proof.
  intros Hac. unfold NotaForm_clean.
  destruct alumno as [al|]; [|now exists []].
  destruct actividad as [ac|]; [|now exists []].
  specialize (Hac ac eq_refl). apply In_actividades_en in Hac.
  destruct Hac as [_ [m [Hm [Hid _]]]].
  unfold materia_de_actividad, get_materia, bind.
  destruct (find _ (materias db)) as [m0|] eqn:Hf.
  - destruct (mem _ _); now eexists.
  - exfalso. apply (find_none _ _ Hf) in Hm. apply Z.eqb_neq in Hm. contradiction.
Qed.

Lemma excluded_app_r (f : string) (l1 l2 : list string) :
  excluded f l2 = true -> excluded f (l1 ++ l2) = true.
Proof.
  unfold excluded. rewrite existsb_app. intros ->. apply orb_true_r.
Qed.

Lemma NotaForm_sin_nota (u : Z) (post : list (string * string)) (db : DB) :
  snd (clean_decimal "nota" (post_get "nota" post)) = None ->
  NotaForm_full_clean u post db = Raise TypeError.
Proof.
  intros Hnone. unfold NotaForm_full_clean.
  destruct (clean_choice "alumno" _ _) as [ea alumno] eqn:Ha.
  destruct (clean_choice "actividad" _ _) as [ek actividad] eqn:Hk.
  destruct (clean_decimal _ _) as [en nota] eqn:Hn. cbn [snd] in Hnone. subst nota.
  apply clean_decimal_none in Hn. destruct Hn as [t ->].
  destruct (NotaForm_clean_no_falla u alumno actividad db) as [ec Hec].
  { intros ac ->. apply clean_choice_some in Hk. destruct Hk as [i Hi].
    now apply find_key_some in Hi. }
  rewrite Hec. cbn [bind].
  rewrite Nota_full_clean_sin_nota; [reflexivity|].
  rewrite !map_app. apply excluded_app_r, excluded_app_r. reflexivity.
Qed.



(** ** Recording a grade, then deleting it *)

Lemma filter_todos {A : Type} (p : A -> bool) (l : list A) :
  (forall x, In x l -> p x = true) -> filter p l = l.
Proof.
  induction l as [|x l IH]; cbn; [trivial|]. intros H.
  rewrite (H x (or_introl eq_refl)). f_equal. apply IH. intros y Hy. apply H. now right.
Qed.

(** X18. After [registro_de_notas] records a grade, where the ids of the
    grades are unique and not above the last one given out, the teacher
    finds the new grade under the next id, and the delete of it gives the
    grades there were before. *)
Theorem registrar_y_eliminar (u : Z) (req req' : request) (db : DB) :
  tabla_ok nota_id (notas db) (seq_nota db) ->
  out_messages (registro_de_notas u req db) = [MsgSuccess msg_registrada] ->
  req_method req' = POST ->
  let db' := out_db (registro_de_notas u req db) in
  (exists n, nota_del_profesor u (seq_nota db + 1) db' = Some n
             /\ notas db' = notas db ++ [n])
  /\ out_response (eliminar_nota (seq_nota db + 1) u req' db')
     = Redirect "registro_de_notas"
  /\ notas (out_db (eliminar_nota (seq_nota db + 1) u req' db')) = notas db.
Proof.
  intros [Hnd Hseq] Hmsg Hpost'. cbv zeta.
  assert (Hno : existsb (fun n => nota_id n =? seq_nota db + 1) (notas db) = false).
  { destruct (existsb _ (notas db)) eqn:Hex; [|reflexivity].
    apply existsb_exists in Hex. destruct Hex as [n [Hn He]].
    apply Z.eqb_eq in He. specialize (Hseq n Hn). lia. }
  unfold registro_de_notas in *.
  destruct (req_method req); [discriminate|].
  destruct (fuera_de_rango _); [discriminate|].
  destruct (duplicado_o_no_inscrito _ _ db); try discriminate.
  destruct (NotaForm_full_clean u _ db) as [form|] eqn:Hform; [|discriminate].
  destruct (is_valid form) eqn:Hv.
  2:{ cbn [out_messages] in Hmsg. exfalso.
      destruct (filter _ (form_errors form)); discriminate. }
  destruct (Nota_save (form_instance form) db) as [[o' db']|] eqn:Hs; [|discriminate].
  destruct (NotaForm_valid_inv _ _ _ _ Hform Hv)
    as [al [ac [sa [sk [_ [_ [_ [_ [_ [Hac [_ [Hpk [Hoa Hok]]]]]]]]]]]]].
  apply Nota_save_inv in Hs. destruct Hs as [a [k [h [Ha [Hk [_ [_ ->]]]]]]].
  rewrite Hoa in Ha. rewrite Hok in Hk. inversion Ha; subst a. inversion Hk; subst k.
  rewrite Hpk. cbv zeta. rewrite Hno. cbn [out_db].
  set (n := mkNota (seq_nota db + 1) (alu_id al) (act_id ac) h).
  set (db' := mkDB _ _ _ (notas db ++ [n]) _ _ _ _).
  assert (Hfind : nota_del_profesor u (seq_nota db + 1) db' = Some n).
  { unfold nota_del_profesor, get_nota.
    destruct (find _ (notas_en (materias_de u db') db')) as [n0|] eqn:Hf.
    - apply find_key_some in Hf. destruct Hf as [Hin Hid].
      apply In_notas_en in Hin. destruct Hin as [Hin _]. cbn [db' notas] in Hin.
      apply in_app_iff in Hin. destruct Hin as [Hin | [<- | []]]; [|reflexivity].
      specialize (Hseq n0 Hin). lia.
    - exfalso. assert (Hin : In n (notas_en (materias_de u db') db')).
      { apply In_notas_en. split; [cbn [db' notas]; apply in_app_iff; right; now left|].
        apply In_actividades_en in Hac. exists ac. cbn [db' actividades].
        split; [tauto|]. split; [reflexivity|]. exact (proj2 Hac). }
      apply (find_none _ _ Hf) in Hin. cbn [n nota_id] in Hin.
      rewrite Z.eqb_refl in Hin. discriminate. }
  split; [exists n; split; [exact Hfind | reflexivity]|].
  unfold eliminar_nota. rewrite Hfind, Hpost'. split; [reflexivity|].
  unfold delete_nota. cbn [out_db notas set_notas db' n nota_id].
  rewrite filter_app. cbn [filter nota_id]. rewrite Z.eqb_refl. cbn [negb].
  rewrite app_nil_r. apply filter_todos. intros x Hx. apply negb_true_iff, Z.eqb_neq.
  specialize (Hseq x Hx). lia.
Qed.

(** Teacher 1 records 7.25 for Carol on the Midterm and deletes it. *)
Lemma registrar_y_eliminar_witness :
  let db' := out_db (registro_de_notas 1 (pedir_nota 1 "3" "1" "7.25") escuela) in
  (exists n, nota_del_profesor 1 2 db' = Some n /\ notas db' = notas escuela ++ [n])
  /\ out_response (eliminar_nota 2 1 (mkRequest (Some 1) POST []) db')
     = Redirect "registro_de_notas"
  /\ notas (out_db (eliminar_nota 2 1 (mkRequest (Some 1) POST []) db')) = notas escuela.
Proof.
  apply (registrar_y_eliminar 1 (pedir_nota 1 "3" "1" "7.25")
           (mkRequest (Some 1) POST []) escuela).
  - split; [repeat constructor; simpl; tauto|].
    intros x [<- | []]. vm_compute. discriminate.
  - vm_compute. reflexivity.
  - reflexivity.
Defined.

(** * The maps of the grades page *)

Lemma str_of_int_inj (i j : Z) : str_of_int i = str_of_int j -> i = j.
Proof.
  unfold str_of_int. intros H. apply DecimalZ.to_int_inj.
  assert (Hok : forall z, NilZero.int_of_string (NilZero.string_of_int (Z.to_int z))
                          = Some (Z.to_int z)).
  { intros z. apply NilZero.isi; intros Hz;
      pose proof (DecimalZ.of_to z) as Hof; rewrite Hz in Hof; cbn in Hof;
      subst z; discriminate. }
  pose proof (Hok i) as Hi. rewrite H, Hok in Hi. now inversion Hi.
Qed.

Lemma dict_get_none {A : Type} (key : string) (d : list (string * A)) :
  (forall p, In p d -> fst p <> key) -> dict_get key d = None.
Proof.
  induction d as [|[k v] d IH]; cbn [dict_get]; [trivial|]. intros H.
  rewrite IH by (intros p Hp; apply H; now right).
  destruct (String.eqb k key) eqn:He; [|reflexivity].
  apply String.eqb_eq in He. exfalso. now apply (H (k, v)); [left|].
Qed.

Lemma dict_get_map {A B : Type} (key : A -> string) (val : A -> B) (l : list A) (x : A) :
  NoDup (map key l) -> In x l ->
  dict_get (key x) (map (fun y => (key y, val y)) l) = Some (val x).
Proof.
  induction l as [|y l IH]; [contradiction|]. cbn [map dict_get].
  intros Hnd Hin. inversion Hnd as [|? ? Hy Hnd']; subst.
  destruct Hin as [-> | Hin].
  - rewrite dict_get_none; [now rewrite String.eqb_refl|].
    intros p Hp Heq. apply in_map_iff in Hp. destruct Hp as [z [<- Hz]].
    cbn [fst] in Heq. apply Hy. rewrite <- Heq. now apply in_map.
  - now rewrite IH.
Qed.

Lemma NoDup_map_str_of_int {A : Type} (key : A -> Z) (l : list A) :
  NoDup (map key l) -> NoDup (map (fun x => str_of_int (key x)) l).
Proof.
  induction l as [|x l IH]; cbn [map]; [constructor|]. intros H.
  inversion H as [|? ? Hx Hl]; subst. constructor; [|now apply IH].
  intros Hin. apply in_map_iff in Hin. destruct Hin as [y [Hy Hin]].
  apply str_of_int_inj in Hy. apply Hx. rewrite <- Hy. now apply in_map.
Qed.

Lemma actividad_materia_map_pares (u : Z) (db : DB) :
  actividad_materia_map u db
  = Ok (map (fun k => (str_of_int (act_id k), str_of_int (act_materia k)))
            (actividades_en (materias_de u db) db)).
Proof.
  unfold actividad_materia_map.
  assert (Hl : forall k, In k (actividades_en (materias_de u db) db) ->
                         In k (actividades_en (materias_de u db) db)) by trivial.
  revert Hl. generalize (actividades_en (materias_de u db) db) at 1 3 4.
  induction l as [|k l IH]; [reflexivity|]. intros Hl. cbn [map].
  pose proof (Hl k (or_introl eq_refl)) as Hk. apply In_actividades_en in Hk.
  destruct Hk as [_ [m [Hm [Hid _]]]].
  unfold materia_de_actividad at 1. unfold get_materia.
  destruct (find _ (materias db)) as [m0|] eqn:Hf.
  - apply find_key_some in Hf. destruct Hf as [_ Hid0]. cbn [bind].
    rewrite IH by (intros k' Hk'; apply Hl; now right). cbn [bind]. now rewrite Hid0.
  - exfalso. apply (find_none _ _ Hf) in Hm. apply Z.eqb_neq in Hm. contradiction.
Qed.

(** X19. The two maps [registro_de_notas] hands to the page, where the
    ids of the activities and of the students are unique: the first is
    built without an error, gives for the text of the id of each activity
    of the teacher the text of the id of its subject, and has no entry for
    an activity of another teacher; the second gives for each student of
    the teacher all the subjects of the student. *)
Theorem mapas_de_la_pagina (u : Z) (db : DB) :
  NoDup (map act_id (actividades db)) ->
  NoDup (map alu_id (alumnos db)) ->
  exists d,
    actividad_materia_map u db = Ok d
    /\ (forall k, In k (actividades db) -> actividad_de u k db ->
          dict_get (str_of_int (act_id k)) d = Some (str_of_int (act_materia k)))
    /\ (forall k, In k (actividades db) -> ~ actividad_de u k db ->
          dict_get (str_of_int (act_id k)) d = None)
    /\ (forall a, In a (alumnos_en (materias_de u db) db) ->
          dict_get (str_of_int (alu_id a)) (alumno_materias_map u db)
          = Some (alu_materias a)).
Proof.
  intros Hk Ha. eexists. split; [apply actividad_materia_map_pares|].
  split; [|split].
  - intros k Hin Hde.
    apply (dict_get_map (fun k => str_of_int (act_id k))
             (fun k => str_of_int (act_materia k))).
    + apply NoDup_map_str_of_int. unfold actividades_en. now apply NoDup_map_filter.
    + apply In_actividades_en. now split.
  - intros k Hin Hno. apply dict_get_none. intros p Hp Heq.
    apply in_map_iff in Hp. destruct Hp as [k' [<- Hk']]. cbn [fst] in Heq.
    apply str_of_int_inj in Heq. apply In_actividades_en in Hk'.
    destruct Hk' as [Hin' Hde].
    assert (k' = k) by (now apply (id_unico_en_tabla act_id (actividades db))).
    subst. contradiction.
  - intros a Hin. unfold alumno_materias_map.
    apply (dict_get_map (fun a => str_of_int (alu_id a)) alu_materias); [|assumption].
    apply NoDup_map_str_of_int. unfold alumnos_en. now apply NoDup_map_filter.
Qed.

(** In the school, teacher 1 gets the Midterm under Math and no entry
    for the Sketch; Alice is listed with her subject. *)
Lemma mapas_de_la_pagina_witness :
  exists d,
    actividad_materia_map 1 escuela = Ok d
    /\ (forall k, In k (actividades escuela) -> actividad_de 1 k escuela ->
          dict_get (str_of_int (act_id k)) d = Some (str_of_int (act_materia k)))
    /\ (forall k, In k (actividades escuela) -> ~ actividad_de 1 k escuela ->
          dict_get (str_of_int (act_id k)) d = None)
    /\ (forall a, In a (alumnos_en (materias_de 1 escuela) escuela) ->
          dict_get (str_of_int (alu_id a)) (alumno_materias_map 1 escuela)
          = Some (alu_materias a)).
Proof.
  apply (mapas_de_la_pagina 1 escuela).
  - repeat constructor; simpl; intuition discriminate.
  - repeat constructor; simpl; intuition discriminate.
Defined.

(** * The page of grades *)

(** X20. On a request that is no POST, [registro_de_notas] renders the
    page with the grades on the activities of the teacher, the students
    enrolled in a subject of the teacher and the activities under a
    subject of the teacher, and nothing else; a student enrolled in
    several of the subjects is listed once, where the ids of the students
    are unique.  Nothing is stored and nothing is flashed. *)
Theorem pagina_de_notas_del_profesor (u : Z) (req : request) (db : DB) :
  req_method req = GET ->
  exists ns als ks,
    registro_de_notas u req db
    = mkOutcome (Render "sistemas/notas.html" (CtxNotas ns als ks)) [] db
    /\ (forall n, In n ns <->
          In n (notas db)
          /\ exists k, In k (actividades db) /\ act_id k = nota_actividad n
                       /\ actividad_de u k db)
    /\ (forall a, In a als <->
          In a (alumnos db)
          /\ exists m, In m (materias db) /\ mat_profesor m = u
                       /\ In (mat_id m) (alu_materias a))
    /\ (forall k, In k ks <-> In k (actividades db) /\ actividad_de u k db)
    /\ (NoDup (map alu_id (alumnos db)) -> NoDup (map alu_id als)).
Proof.
  intros Hget. unfold registro_de_notas, pagina_notas. rewrite Hget.
  eexists _, _, _. split; [reflexivity|].
  split; [exact (In_notas_en u db)|]. split; [exact (In_alumnos_en u db)|].
  split; [exact (In_actividades_en u db)|].
  intros H. unfold alumnos_en. now apply NoDup_map_filter.
Qed.

(** Teacher 1 opens the page of the school: Alice's grade, Alice and
    Carol, the Midterm. *)
Lemma pagina_de_notas_del_profesor_witness :
  registro_de_notas 1 (mkRequest (Some 1) GET []) escuela
  = mkOutcome (Render "sistemas/notas.html"
                 (CtxNotas [mkNota 1 1 1 850]
                           [mkAlumno 1 "Alice" "alice@x.com" [1];
                            mkAlumno 3 "Carol" "carol@x.com" [1]]
                           [mkActividad 1 1 "Midterm" "EX" 19783])) [] escuela
  /\ exists ns als ks,
    registro_de_notas 1 (mkRequest (Some 1) GET []) escuela
    = mkOutcome (Render "sistemas/notas.html" (CtxNotas ns als ks)) [] escuela
    /\ (forall n, In n ns <->
          In n (notas escuela)
          /\ exists k, In k (actividades escuela) /\ act_id k = nota_actividad n
                       /\ actividad_de 1 k escuela)
    /\ (forall a, In a als <->
          In a (alumnos escuela)
          /\ exists m, In m (materias escuela) /\ mat_profesor m = 1
                       /\ In (mat_id m) (alu_materias a))
    /\ (forall k, In k ks <-> In k (actividades escuela) /\ actividad_de 1 k escuela)
    /\ (NoDup (map alu_id (alumnos escuela)) -> NoDup (map alu_id als)).
Proof.
  split; [reflexivity|].
  apply (pagina_de_notas_del_profesor 1 (mkRequest (Some 1) GET []) escuela).
  reflexivity.
Defined.

(** * The text fields, along every history *)

Lemma clean_char_nombre_ok (name : string) (v : option string) (s : string) :
  clean_char name v = ([], s) -> nombre_ok s.
Proof. intros H. apply clean_char_inv in H. unfold nombre_ok. tauto. Qed.

Lemma ActividadForm_clean_nombre (parse_fecha : string -> option Z) (u pk : Z)
  (post : list (string * string)) (db : DB) (k : Actividad) :
  ActividadForm_clean parse_fecha u pk post db = ([], k) -> nombre_ok (act_nombre k).
Proof.
  unfold ActividadForm_clean.
  destruct (clean_choice _ _ _) as [e1 materia].
  destruct (clean_char _ _) as [e2 nombre] eqn:H2.
  destruct (clean_categoria _) as [e3 categoria].
  destruct (clean_fecha _ _) as [e4 fecha].
  intros H. inversion H as [[He Hk]]. clear H.
  destruct e1; [|discriminate]. destruct e2; [|discriminate].
  now apply clean_char_nombre_ok in H2.
Qed.

Lemma AlumnoForm_clean_nombre (valid_email : string -> bool) (u : Z)
  (self_id : option Z) (post : list (string * string)) (db : DB) (a : Alumno) :
  AlumnoForm_clean valid_email u self_id post db = ([], a) -> nombre_ok (alu_nombre a).
Proof.
  unfold AlumnoForm_clean.
  destruct (clean_char _ _) as [e1 nombre] eqn:H1.
  destruct (clean_email _ _ _) as [e2 correo].
  destruct (clean_materias _ _) as [e3 ms].
  intros H. inversion H as [[He Hk]]. clear H.
  destruct e1; [|discriminate]. now apply clean_char_nombre_ok in H1.
Qed.

Lemma Nota_save_tablas (o o' : NotaObj) (db db' : DB) :
  Nota_save o db = Ok (o', db') ->
  materias db' = materias db /\ alumnos db' = alumnos db
  /\ actividades db' = actividades db.
Proof.
  intros Hs. apply Nota_save_inv in Hs.
  destruct Hs as [a [k [h [_ [_ [_ [_ ->]]]]]]]. now repeat split.
Qed.

Lemma campos_ok_tablas (valid_email : string -> bool) (db db' : DB) :
  materias db' = materias db -> alumnos db' = alumnos db ->
  actividades db' = actividades db ->
  campos_ok valid_email db -> campos_ok valid_email db'.
Proof. unfold campos_ok. now intros -> -> ->. Qed.

Lemma vista_campos (valid_email : string -> bool) (parse_fecha : string -> option Z)
  (op : operacion) (req : request) (db : DB) :
  campos_ok valid_email db ->
  campos_ok valid_email (out_db (vista valid_email parse_fecha op req db)).
Proof.
  intros Hdb. pose proof Hdb as [Hm [Ha Hk]].
  unfold vista, login_required. destruct (req_user req) as [u|]; [|exact Hdb].
  destruct op as [|i|i| |i|i| |i|i| |i|i].
  - unfold crear_alumno. destruct (req_method req); [exact Hdb|].
    destruct (AlumnoForm_clean _ _ _ _ db) as [[|e es] r] eqn:Hf; [|exact Hdb].
    pose proof (AlumnoForm_clean_nombre _ _ _ _ _ _ Hf) as Hnom.
    apply AlumnoForm_clean_inv in Hf. destruct Hf as [_ [_ [Hv _]]].
    split; [exact Hm|]. split; [|exact Hk].
    cbn [out_db alumnos]. intros a Hin. apply in_app_iff in Hin.
    destruct Hin as [Hin | [<- | []]]; [now apply Ha | now split].
  - unfold editar_alumno. destruct (get_alumno i _) as [a0|]; [|exact Hdb].
    destruct (req_method req); [exact Hdb|].
    destruct (AlumnoForm_clean _ _ _ _ db) as [[|e es] r] eqn:Hf; [|exact Hdb].
    pose proof (AlumnoForm_clean_nombre _ _ _ _ _ _ Hf) as Hnom.
    apply AlumnoForm_clean_inv in Hf. destruct Hf as [_ [_ [Hv _]]].
    split; [exact Hm|]. split; [|exact Hk].
    cbn [out_db alumnos set_alumnos]. intros a Hin. apply in_map_iff in Hin.
    destruct Hin as [a1 [Ha1 Hin]].
    destruct (alu_id a1 =? _); subst; [now split | now apply Ha].
  - unfold eliminar_alumno. destruct (get_alumno i _) as [a0|]; [|exact Hdb].
    destruct (req_method req); [exact Hdb|].
    split; [exact Hm|]. split; [|exact Hk].
    intros a Hin. apply filter_In in Hin. now apply Ha.
  - unfold crear_materia. destruct (req_method req); [exact Hdb|].
    destruct (MateriaForm_clean _) as [[|e es] r] eqn:Hf; [|exact Hdb].
    apply clean_char_nombre_ok in Hf.
    split; [|split; assumption].
    cbn [out_db materias]. intros m Hin. apply in_app_iff in Hin.
    destruct Hin as [Hin | [<- | []]]; [now apply Hm | exact Hf].
  - unfold editar_materia. destruct (materia_del_profesor u i db) as [m0|]; [|exact Hdb].
    destruct (req_method req); [exact Hdb|].
    destruct (MateriaForm_clean _) as [[|e es] r] eqn:Hf; [|exact Hdb].
    apply clean_char_nombre_ok in Hf.
    split; [|split; assumption].
    cbn [out_db materias set_materias]. intros m Hin. apply in_map_iff in Hin.
    destruct Hin as [m1 [Hm1 Hin]].
    destruct (mat_id m1 =? _); subst; [exact Hf | now apply Hm].
  - unfold eliminar_materia.
    destruct (materia_del_profesor u i db) as [m0|]; [|exact Hdb].
    destruct (req_method req); [exact Hdb|].
    unfold delete_materia.
    cbn [out_db materias alumnos actividades set_materias set_alumnos set_actividades
           set_notas].
    split; [|split].
    + intros m Hin. apply filter_In in Hin. now apply Hm.
    + intros a Hin. apply in_map_iff in Hin. destruct Hin as [a1 [<- Hin]].
      exact (Ha a1 Hin).
    + intros k Hin. apply filter_In in Hin. now apply Hk.
  - unfold crear_actividad. destruct (req_method req); [exact Hdb|].
    destruct (ActividadForm_clean _ _ _ _ db) as [[|e es] r] eqn:Hf; [|exact Hdb].
    pose proof (ActividadForm_clean_nombre _ _ _ _ _ _ Hf) as Hnom.
    apply ActividadForm_clean_inv in Hf. destruct Hf as [_ [_ [_ Hcat]]].
    split; [exact Hm|]. split; [exact Ha|].
    cbn [out_db actividades]. intros k Hin. apply in_app_iff in Hin.
    destruct Hin as [Hin | [<- | []]]; [now apply Hk | now split].
  - unfold editar_actividad.
    destruct (actividad_del_profesor u i db) as [k0|]; [|exact Hdb].
    destruct (req_method req); [exact Hdb|].
    destruct (ActividadForm_clean _ _ _ _ db) as [[|e es] r] eqn:Hf; [|exact Hdb].
    pose proof (ActividadForm_clean_nombre _ _ _ _ _ _ Hf) as Hnom.
    apply ActividadForm_clean_inv in Hf. destruct Hf as [_ [_ [_ Hcat]]].
    split; [exact Hm|]. split; [exact Ha|].
    cbn [out_db actividades set_actividades]. intros k Hin. apply in_map_iff in Hin.
    destruct Hin as [k1 [Hk1 Hin]].
    destruct (act_id k1 =? _); subst; [now split | now apply Hk].
  - unfold eliminar_actividad.
    destruct (actividad_del_profesor u i db) as [k0|]; [|exact Hdb].
    destruct (req_method req); [exact Hdb|].
    split; [exact Hm|]. split; [exact Ha|].
    intros k Hin. apply filter_In in Hin. now apply Hk.
  - unfold registro_de_notas.
    destruct (req_method req); [exact Hdb|].
    destruct (fuera_de_rango _); [exact Hdb|].
    destruct (duplicado_o_no_inscrito _ _ db); try exact Hdb.
    destruct (NotaForm_full_clean u _ db) as [form|]; [|exact Hdb].
    destruct (is_valid form); [|exact Hdb].
    destruct (Nota_save (form_instance form) db) as [[o' db']|] eqn:Hs; [|exact Hdb].
    apply Nota_save_tablas in Hs. destruct Hs as [H1 [H2 H3]].
    now apply (campos_ok_tablas valid_email db).
  - unfold editar_nota.
    destruct (nota_del_profesor u i db) as [row|]; [|exact Hdb].
    destruct (req_method req); [exact Hdb|].
    destruct (Py.float_of_str _) as [f|]; [|exact Hdb].
    destruct (_ && _); [|exact Hdb].
    unfold bind.
    destruct (Nota_full_clean _ _ _ db) as [o1|e]; [|destruct e; exact Hdb].
    destruct (Nota_save o1 db) as [[o' db']|e] eqn:Hs; [|destruct e; exact Hdb].
    apply Nota_save_tablas in Hs. destruct Hs as [H1 [H2 H3]].
    now apply (campos_ok_tablas valid_email db).
  - unfold eliminar_nota. destruct (nota_del_profesor u i db) as [row|]; [|exact Hdb].
    destruct (req_method req); [exact Hdb|]. exact Hdb.
Qed.



(** * The text of an id *)

Lemma is_digit_uint (d : Decimal.uint) :
  forallb Py.is_digit (list_ascii_of_string (NilEmpty.string_of_uint d)) = true.
Proof.
  induction d; cbn [NilEmpty.string_of_uint list_ascii_of_string forallb];
    [reflexivity|..]; rewrite IHd; reflexivity.
Qed.

Lemma read_digits_uint_pos (d : Decimal.uint) (p : positive) (cnt : Z) :
  exists n, Py.read_digits (Z.pos p) cnt
              (list_ascii_of_string (NilEmpty.string_of_uint d))
            = (Z.pos (Pos.of_uint_acc d p), n, []) /\ cnt <= n.
Proof.
  revert p cnt.
  induction d; intros p cnt;
    cbn [NilEmpty.string_of_uint list_ascii_of_string Py.read_digits Pos.of_uint_acc];
    [exists cnt; split; [reflexivity | lia]|..];
    (match goal with
     | |- context [if Py.is_digit ?c then _ else _] =>
         change (Py.is_digit c) with true; cbv iota;
         let v := eval vm_compute in (Py.digit_val c) in
         change (Py.digit_val c) with v
     end;
     match goal with
     | |- context [Pos.of_uint_acc d ?q] =>
         destruct (IHd q (cnt + 1)) as [n [Hn Hle]]; exists n; split; [|lia];
         rewrite <- Hn; f_equal; lia
     end).
Qed.

Lemma read_digits_uint (d : Decimal.uint) (cnt : Z) :
  exists n, Py.read_digits 0 cnt (list_ascii_of_string (NilEmpty.string_of_uint d))
            = (Z.of_N (Pos.of_uint d), n, [])
            /\ cnt <= n /\ (d <> Decimal.Nil -> cnt < n).
Proof.
  revert cnt.
  induction d; intros cnt;
    cbn [NilEmpty.string_of_uint list_ascii_of_string Py.read_digits Pos.of_uint].
  - exists cnt. split; [reflexivity|]. split; [lia|]. intros H. now elim H.
  - change (Py.is_digit "0") with true. cbv iota.
    change (10 * 0 + Py.digit_val "0") with 0.
    destruct (IHd (cnt + 1)) as [n [Hn [Hle _]]]. exists n.
    split; [exact Hn|]. split; [lia|]. intros _. lia.
  - change (Py.is_digit "1") with true. cbv iota.
    change (10 * 0 + Py.digit_val "1") with (Z.pos 1).
    destruct (read_digits_uint_pos d 1 (cnt + 1)) as [n [Hn Hle]]. exists n.
    split; [exact Hn|]. split; [lia|]. intros _. lia.
  - change (Py.is_digit "2") with true. cbv iota.
    change (10 * 0 + Py.digit_val "2") with (Z.pos 2).
    destruct (read_digits_uint_pos d 2 (cnt + 1)) as [n [Hn Hle]]. exists n.
    split; [exact Hn|]. split; [lia|]. intros _. lia.
  - change (Py.is_digit "3") with true. cbv iota.
    change (10 * 0 + Py.digit_val "3") with (Z.pos 3).
    destruct (read_digits_uint_pos d 3 (cnt + 1)) as [n [Hn Hle]]. exists n.
    split; [exact Hn|]. split; [lia|]. intros _. lia.
  - change (Py.is_digit "4") with true. cbv iota.
    change (10 * 0 + Py.digit_val "4") with (Z.pos 4).
    destruct (read_digits_uint_pos d 4 (cnt + 1)) as [n [Hn Hle]]. exists n.
    split; [exact Hn|]. split; [lia|]. intros _. lia.
  - change (Py.is_digit "5") with true. cbv iota.
    change (10 * 0 + Py.digit_val "5") with (Z.pos 5).
    destruct (read_digits_uint_pos d 5 (cnt + 1)) as [n [Hn Hle]]. exists n.
    split; [exact Hn|]. split; [lia|]. intros _. lia.
  - change (Py.is_digit "6") with true. cbv iota.
    change (10 * 0 + Py.digit_val "6") with (Z.pos 6).
    destruct (read_digits_uint_pos d 6 (cnt + 1)) as [n [Hn Hle]]. exists n.
    split; [exact Hn|]. split; [lia|]. intros _. lia.
  - change (Py.is_digit "7") with true. cbv iota.
    change (10 * 0 + Py.digit_val "7") with (Z.pos 7).
    destruct (read_digits_uint_pos d 7 (cnt + 1)) as [n [Hn Hle]]. exists n.
    split; [exact Hn|]. split; [lia|]. intros _. lia.
  - change (Py.is_digit "8") with true. cbv iota.
    change (10 * 0 + Py.digit_val "8") with (Z.pos 8).
    destruct (read_digits_uint_pos d 8 (cnt + 1)) as [n [Hn Hle]]. exists n.
    split; [exact Hn|]. split; [lia|]. intros _. lia.
  - change (Py.is_digit "9") with true. cbv iota.
    change (10 * 0 + Py.digit_val "9") with (Z.pos 9).
    destruct (read_digits_uint_pos d 9 (cnt + 1)) as [n [Hn Hle]]. exists n.
    split; [exact Hn|]. split; [lia|]. intros _. lia.
Qed.

Lemma strip_sin_blancos (sp : ascii -> bool) (s : list ascii) :
  forallb (fun c => negb (sp c)) s = true -> Py.strip sp s = s.
Proof.
  intros H. unfold Py.strip. rewrite (lstrip_all sp s H).
  rewrite lstrip_all; [apply rev_involutive|].
  apply forallb_forall. intros c Hc. apply in_rev in Hc.
  now apply (proj1 (forallb_forall _ _) H).
Qed.

Lemma drop_underscores_digitos (s : list ascii) (b : bool) :
  forallb Py.is_digit s = true -> Py.drop_underscores b s = Some s.
Proof.
  revert b. induction s as [|c s IH]; intros b; [reflexivity|].
  cbn [forallb Py.drop_underscores]. intros H. apply andb_true_iff in H.
  destruct H as [Hc Hs].
  destruct (Ascii.eqb c "_") eqn:He.
  - apply Ascii.eqb_eq in He. subst c. discriminate.
  - now rewrite IH.
Qed.

Lemma digito_sin_blanco (s : list ascii) :
  forallb Py.is_digit s = true -> forallb (fun c => negb (Py.is_space c)) s = true.
Proof.
  intros H. apply forallb_forall. intros c Hc.
  apply (proj1 (forallb_forall _ _) H) in Hc. revert Hc.
  destruct c as [[] [] [] [] [] [] [] []]; vm_compute; congruence.
Qed.

Lemma read_sign_digitos (s : list ascii) :
  forallb Py.is_digit s = true -> Py.read_sign s = (false, s).
Proof.
  destruct s as [|c s]; [reflexivity|]. cbn [forallb]. intros H.
  apply andb_true_iff in H. destruct H as [Hc _]. revert Hc. unfold Py.read_sign.
  destruct c as [[] [] [] [] [] [] [] []]; vm_compute; congruence.
Qed.

Lemma int_of_str_digitos (s : list ascii) (neg : bool) (v n : Z) :
  forallb Py.is_digit s = true ->
  Py.read_digits 0 0 s = (v, n, []) -> 0 < n ->
  Py.int_of_str (string_of_list_ascii ((if neg then ["-"%char] else []) ++ s))
  = Some (if neg then - v else v).
Proof.
  intros Hd Hr Hn. unfold Py.int_of_str.
  rewrite list_ascii_of_string_of_list_ascii.
  destruct neg; cbn [app].
  - rewrite strip_sin_blancos
      by (cbn [forallb]; rewrite (digito_sin_blanco s Hd); reflexivity).
    cbn [Py.drop_underscores]. change (Ascii.eqb "-" "_") with false. cbv iota.
    rewrite (drop_underscores_digitos s _ Hd). cbn [option_map Py.read_sign].
    change (Ascii.eqb "-" "-") with true. cbv iota. rewrite Hr.
    destruct (n =? 0) eqn:He; [apply Z.eqb_eq in He; lia | reflexivity].
  - rewrite strip_sin_blancos by (now apply digito_sin_blanco).
    rewrite (drop_underscores_digitos s _ Hd), (read_sign_digitos s Hd), Hr.
    destruct (n =? 0) eqn:He; [apply Z.eqb_eq in He; lia | reflexivity].
Qed.

Lemma int_of_str_uint (d : Decimal.uint) (neg : bool) :
  d <> Decimal.Nil ->
  Py.int_of_str (string_of_list_ascii
                   ((if neg then ["-"%char] else [])
                    ++ list_ascii_of_string (NilEmpty.string_of_uint d)))
  = Some (if neg then - Z.of_N (Pos.of_uint d) else Z.of_N (Pos.of_uint d)).
Proof.
  intros Hd. destruct (read_digits_uint d 0) as [n [Hn [_ Hlt]]].
  apply (int_of_str_digitos _ neg _ n); [apply is_digit_uint | exact Hn | now apply Hlt].
Qed.

Lemma to_uint_no_nil (p : positive) : Pos.to_uint p <> Decimal.Nil.
Proof.
  intros H. pose proof (DecimalPos.Unsigned.of_to p) as Hof. rewrite H in Hof.
  discriminate.
Qed.

Lemma string_of_uint_no_nil (d : Decimal.uint) :
  d <> Decimal.Nil -> NilZero.string_of_uint d = NilEmpty.string_of_uint d.
Proof. destruct d; [intros H; now elim H | reflexivity..]. Qed.

Lemma int_of_str_of_int (i : Z) : Py.int_of_str (str_of_int i) = Some i.
Proof.
  unfold str_of_int. destruct i as [|p|p]; [reflexivity|..];
    cbn [Z.to_int NilZero.string_of_int];
    rewrite (string_of_uint_no_nil _ (to_uint_no_nil p)).
  - pose proof (int_of_str_uint (Pos.to_uint p) false (to_uint_no_nil p)) as H.
    cbn [app] in H. rewrite string_of_list_ascii_of_string in H. rewrite H.
    now rewrite DecimalPos.Unsigned.of_to.
  - pose proof (int_of_str_uint (Pos.to_uint p) true (to_uint_no_nil p)) as H.
    cbn [app string_of_list_ascii] in H. rewrite string_of_list_ascii_of_string in H.
    rewrite H. now rewrite DecimalPos.Unsigned.of_to.
Qed.

(** X22. The text [str()] writes for an id is read back by [int()] as
    the same id, for every id.  So the options the page of grades offers
    are taken by the form: where the ids are unique, the text of the id
    of a student of the teacher, and of an activity of the teacher, is
    cleaned by the fields of [NotaForm] to that very row, without an
    error. *)
Theorem opciones_de_la_pagina (u : Z) (db : DB) (a : Alumno) (k : Actividad) :
  NoDup (map alu_id (alumnos db)) ->
  NoDup (map act_id (actividades db)) ->
  In a (alumnos_en (materias_de u db) db) ->
  In k (actividades_en (materias_de u db) db) ->
  Py.int_of_str (str_of_int (alu_id a)) = Some (alu_id a)
  /\ Py.int_of_str (str_of_int (act_id k)) = Some (act_id k)
  /\ clean_choice "alumno" (fun i => get_alumno i (alumnos_en (materias_de u db) db))
       (Some (str_of_int (alu_id a))) = ([], Some a)
  /\ clean_choice "actividad"
       (fun i => get_actividad i (actividades_en (materias_de u db) db))
       (Some (str_of_int (act_id k))) = ([], Some k).
Proof.
  intros Ha Hk Hina Hink.
  split; [apply int_of_str_of_int|]. split; [apply int_of_str_of_int|]. split.
  - apply (clean_choice_ok _ _ (alu_id a)); [apply int_of_str_of_int|].
    apply (find_key_unique alu_id); [|assumption].
    unfold alumnos_en. now apply NoDup_map_filter.
  - apply (clean_choice_ok _ _ (act_id k)); [apply int_of_str_of_int|].
    apply (find_key_unique act_id); [|assumption].
    unfold actividades_en. now apply NoDup_map_filter.
Qed.

(** Carol and the Midterm, as teacher 1 is offered them. *)
Lemma opciones_de_la_pagina_witness :
  Py.int_of_str (str_of_int 3) = Some 3
  /\ Py.int_of_str (str_of_int 1) = Some 1
  /\ clean_choice "alumno"
       (fun i => get_alumno i (alumnos_en (materias_de 1 escuela) escuela))
       (Some (str_of_int 3)) = ([], Some (mkAlumno 3 "Carol" "carol@x.com" [1]))
  /\ clean_choice "actividad"
       (fun i => get_actividad i (actividades_en (materias_de 1 escuela) escuela))
       (Some (str_of_int 1)) = ([], Some (mkActividad 1 1 "Midterm" "EX" 19783)).
Proof.
  apply (opciones_de_la_pagina 1 escuela (mkAlumno 3 "Carol" "carol@x.com" [1])
           (mkActividad 1 1 "Midterm" "EX" 19783)).
  - repeat constructor; simpl; intuition discriminate.
  - repeat constructor; simpl; intuition discriminate.
  - simpl. tauto.
  - simpl. tauto.
Defined.
